(** * The sink-stream test driver of the connector node

    A shallow embedding of
    [java/connector-node/python-client/integration_tests.py]: the two
    request-list builders ([test_sink_json], [test_sink_stream_chunk]), the
    loop that drains the response stream, and [validate_jdbc_sink].

    Python values are embedded as an inductive type, exceptions as an
    error result, and the printing / exiting code as a small state and
    exception monad over the process' standard output and the response
    iterator. *)

From Stdlib Require Import ZArith List String Ascii Bool Lia DecimalString DecimalZ.
From Stdlib Require DecimalPos DecimalFacts.
Import ListNotations.

#[local] Set Warnings "-register-all".

Open Scope string_scope.
Open Scope list_scope.

(* ================================================================== *)
(** * Python values *)
(* ================================================================== *)

Module Py.

(** Exceptions the embedded code can meet.  Everything but
    [KeyboardInterrupt] is an instance of [Exception]; [exit(1)] is not
    an exception of this type but an outcome of its own (see [outcome]). *)
Inductive pyexn : Type :=
| StopIteration
| KeyError (key : string)
| IndexError
| TypeError
| AttributeError
| RpcError (details : string)
| OtherException (name : string)
| KeyboardInterrupt.

(** [isinstance(e, Exception)] *)
Definition is_Exception (e : pyexn) : bool :=
  match e with
  | KeyboardInterrupt => false
  | _ => true
  end.

(** The result of an expression that may raise. *)
Inductive result (A : Type) : Type :=
| Ok (a : A)
| Err (e : pyexn).
Arguments Ok {A} a.
Arguments Err {A} e.

Definition rbind {A B} (m : result A) (f : A -> result B) : result B :=
  match m with
  | Ok a => f a
  | Err e => Err e
  end.

Declare Scope result_scope.
Delimit Scope result_scope with result.
Notation "x <- m ;; k" := (rbind m (fun x => k))
  (at level 100, m at next level, right associativity) : result_scope.

(** [[f(x) for x in l]], evaluated left to right; the first exception wins. *)
Fixpoint rmap {A B} (f : A -> result B) (l : list A) : result (list B) :=
  match l with
  | [] => Ok []
  | x :: xs =>
      (y <- f x ;;
       ys <- rmap f xs ;;
       Ok (y :: ys))%result
  end.

(** How a statement ends: normally, by an exception, or by [exit(code)]
    ([SystemExit], which [except Exception] does not catch). *)
Inductive outcome (A : Type) : Type :=
| Return (a : A)
| Raise (e : pyexn)
| Exit (code : Z).
Arguments Return {A} a.
Arguments Raise {A} e.
Arguments Exit {A} code.

(** Python's [float] is kept abstract: the driver never computes with
    one, it only renders and compares what [json.load] or the database
    hands over. *)
Class PyFloat : Type := {
  pyfloat : Type;
  float_repr : pyfloat -> string;           (* repr(f) *)
  float_eqb : pyfloat -> pyfloat -> bool;   (* f == g *)
  float_eqZ : pyfloat -> Z -> bool          (* f == n, n an int *)
}.

Section Values.
Context {PF : PyFloat}.

(** The values [json.load] produces (and the cells a cursor returns).
    Strings are sequences of code points below 256.  A [dict] keeps its
    insertion order, so it is an association list; [json.load] never
    yields a repeated key. *)
Inductive pyval : Type :=
| PyNone
| PyBool (b : bool)
| PyInt (n : Z)
| PyFloatV (f : pyfloat)
| PyStr (s : string)
| PyList (l : list pyval)
| PyDict (d : list (string * pyval)).

(** A tuple, as [cur.fetchall()] returns rows and [convert] builds them. *)
Definition pytuple : Type := list pyval.

Fixpoint lookup (k : string) (d : list (string * pyval)) : option pyval :=
  match d with
  | [] => None
  | (k', v) :: d' => if String.eqb k k' then Some v else lookup k d'
  end.

(** [iter(v)], run to the end: what [for x in v] goes through. *)
Definition py_iter (v : pyval) : result (list pyval) :=
  match v with
  | PyList l => Ok l
  | PyDict d => Ok (map (fun kv => PyStr (fst kv)) d)
  | PyStr s => Ok (map (fun c => PyStr (String c EmptyString)) (list_ascii_of_string s))
  | _ => Err TypeError
  end.

(** [v[k]] for a string key [k]. *)
Definition py_getitem (v : pyval) (k : string) : result pyval :=
  match v with
  | PyDict d =>
      match lookup k d with
      | Some x => Ok x
      | None => Err (KeyError k)
      end
  | _ => Err TypeError
  end.

(** [l[n]] on a Python list. *)
Definition py_index (l : list pyval) (n : nat) : result pyval :=
  match nth_error l n with
  | Some x => Ok x
  | None => Err IndexError
  end.

(** [list(v.values())] *)
Definition py_values (v : pyval) : result (list pyval) :=
  match v with
  | PyDict d => Ok (map snd d)
  | _ => Err AttributeError
  end.

(** ** [==] and [!=] *)

(** [a == b]: [bool], [int] and [float] compare by number, containers
    by content, everything else across types is unequal. *)
Fixpoint py_eq (a b : pyval) {struct a} : bool :=
  match a with
  | PyNone => match b with PyNone => true | _ => false end
  | PyBool x =>
      match b with
      | PyBool y => Bool.eqb x y
      | PyInt n => Z.eqb (Z.b2z x) n
      | PyFloatV f => float_eqZ f (Z.b2z x)
      | _ => false
      end
  | PyInt m =>
      match b with
      | PyBool y => Z.eqb m (Z.b2z y)
      | PyInt n => Z.eqb m n
      | PyFloatV f => float_eqZ f m
      | _ => false
      end
  | PyFloatV f =>
      match b with
      | PyBool y => float_eqZ f (Z.b2z y)
      | PyInt n => float_eqZ f n
      | PyFloatV g => float_eqb f g
      | _ => false
      end
  | PyStr s => match b with PyStr t => String.eqb s t | _ => false end
  | PyList l =>
      match b with
      | PyList l' =>
          (fix list_eq (l l' : list pyval) {struct l} : bool :=
             match l, l' with
             | [], [] => true
             | x :: xs, y :: ys => py_eq x y && list_eq xs ys
             | _, _ => false
             end) l l'
      | _ => false
      end
  | PyDict d =>
      match b with
      | PyDict d' =>
          Nat.eqb (List.length d) (List.length d') &&
          (fix sub (d : list (string * pyval)) {struct d} : bool :=
             match d with
             | [] => true
             | (k, v) :: rest =>
                 match lookup k d' with
                 | Some v' => py_eq v v'
                 | None => false
                 end && sub rest
             end) d
      | _ => false
      end
  end.

Definition py_ne (a b : pyval) : bool := negb (py_eq a b).

(** ** [str] and [repr] *)

Definition quote1 : ascii := ascii_of_nat 39.   (* ' *)
Definition quote2 : ascii := ascii_of_nat 34.   (* the double quote *)
Definition backslash : ascii := ascii_of_nat 92.

Definition hex_digit (n : N) : ascii :=
  if (n <? 10)%N then ascii_of_N (48 + n) else ascii_of_N (87 + n).

(** Code points below 256 that [repr] writes as they are. *)
Definition printable (n : N) : bool :=
  ((32 <=? n) && (n <? 127) || (161 <=? n) && negb (n =? 173))%N.

Definition repr_char (quote c : ascii) : string :=
  let n := N_of_ascii c in
  if Ascii.eqb c quote || Ascii.eqb c backslash then String backslash (String c EmptyString)
  else if (n =? 9)%N then String backslash "t"
  else if (n =? 10)%N then String backslash "n"
  else if (n =? 13)%N then String backslash "r"
  else if printable n then String c EmptyString
  else String backslash
         (String "x" (String (hex_digit (n / 16)) (String (hex_digit (n mod 16)) EmptyString))).

Definition contains (c : ascii) (s : string) : bool :=
  existsb (Ascii.eqb c) (list_ascii_of_string s).

(** [repr(s)] of a [str]: single quotes, unless the text has one and
    no double quote. *)
Definition str_repr (s : string) : string :=
  let quote := if contains quote1 s && negb (contains quote2 s) then quote2 else quote1 in
  String quote
    (String.concat "" (map (repr_char quote) (list_ascii_of_string s))
     ++ String quote EmptyString)%string.

Definition int_repr (n : Z) : string := NilZero.string_of_int (Z.to_int n).

Fixpoint py_repr (v : pyval) : string :=
  match v with
  | PyNone => "None"
  | PyBool true => "True"
  | PyBool false => "False"
  | PyInt n => int_repr n
  | PyFloatV f => float_repr f
  | PyStr s => str_repr s
  | PyList l => ("[" ++ String.concat ", " (map py_repr l) ++ "]")%string
  | PyDict d =>
      ("{" ++ String.concat ", "
                (map (fun kv => str_repr (fst kv) ++ ": " ++ py_repr (snd kv)) d)
           ++ "}")%string
  end.

(** [str(v)]; also what an empty format field [{}] renders. *)
Definition py_str (v : pyval) : string :=
  match v with
  | PyStr s => s
  | _ => py_repr v
  end.

End Values.

(** The instance without floats, for fixtures that hold none. *)
#[export] Instance NoFloat : PyFloat := {|
  pyfloat := Empty_set;
  float_repr := fun f => match f with end;
  float_eqb := fun f _ => match f with end;
  float_eqZ := fun f _ => match f with end
|}.

End Py.
Import Py.


(* ================================================================== *)
(** * Messages of the connector service *)
(* ================================================================== *)

(** The generated protobuf classes are called with keyword arguments;
    a message is the record of its fields, a message field left out
    being [None].  [SinkStreamRequest] is a oneof: one constructor per
    keyword the driver uses.

    The classes check what they are given.  The driver's strings,
    bytes, constants and counters pass; the [op_type] of a [RowOp],
    which comes from the caller or from the fixture, need not.  That
    field is declared with an enum of a proto3 file, so it holds a
    32-bit number, and the constructor converts or refuses its
    argument ([op_type_value]).  The declaration is not part of the
    driver's file; what is open without it is a parameter: the labels
    of the enum, and whether the protobuf runtime takes a [bool] for a
    number, on which its versions differ. *)

Class Runtime : Type := {
  Op_labels : list (string * Z);
  bool_is_int : bool
}.

Section Requests.
Context {PF : PyFloat} {RT : Runtime}.

Record DataType : Type := { type_name : Z }.

Record Column : Type := { name : string; data_type : DataType }.

Record TableSchema : Type := { columns : list Column; pk_indices : list Z }.

Record SinkConfig : Type := {
  connector_type : string;
  properties : list (string * string);
  table_schema : TableSchema
}.

Inductive SinkPayloadFormat : Type := JSON | STREAM_CHUNK.

Record StartSink : Type := { format : SinkPayloadFormat; sink_config : SinkConfig }.

Record StartEpoch : Type := { start_epoch_epoch : Z }.

Record RowOp : Type := { op_type : Z; line : string }.

Record JsonPayload : Type := { row_ops : list RowOp }.

Record StreamChunkPayload : Type := { binary_data : list Byte.byte }.

Record WriteBatch : Type := {
  json_payload : option JsonPayload;
  stream_chunk_payload : option StreamChunkPayload;
  batch_id : Z;
  epoch : Z
}.

Record SyncBatch : Type := { sync_epoch : Z }.

Inductive SinkStreamRequest : Type :=
| start (s : StartSink)
| start_epoch (e : StartEpoch)
| write (w : WriteBatch)
| sync (s : SyncBatch).

(** ** The constructor of [RowOp] *)

Definition ValueError : pyexn := OtherException "ValueError".

Definition in_int32 (n : Z) : bool := ((- 2 ^ 31 <=? n) && (n <? 2 ^ 31))%Z.

Fixpoint label_number (label : string) (labels : list (string * Z)) : option Z :=
  match labels with
  | [] => None
  | (l, n) :: rest => if String.eqb label l then Some n else label_number label rest
  end.

(** What the field holds after [RowOp(op_type=v, ...)]: a keyword given
    [None] is a field not given, and the field reads as 0; a number must
    fit 32 bits ([ValueError] otherwise), and any that does is kept, the
    enum being open; a [str] is looked up among the labels
    ([ValueError] for an unknown one); anything else is no number
    ([TypeError]). *)
Definition op_type_value (v : pyval) : result Z :=
  match v with
  | PyNone => Ok 0%Z
  | PyBool b => if bool_is_int then Ok (Z.b2z b) else Err TypeError
  | PyInt n => if in_int32 n then Ok n else Err ValueError
  | PyStr label =>
      match label_number label Op_labels with
      | Some n => Ok n
      | None => Err ValueError
      end
  | PyFloatV _ => Err TypeError
  | PyList _ => Err TypeError
  | PyDict _ => Err TypeError
  end.

(** [RowOp(op_type=v, line=l)], for a [str] [l]. *)
Definition RowOp_new (v : pyval) (l : string) : result RowOp :=
  (n <- op_type_value v ;; Ok {| op_type := n; line := l |})%result.

Definition make_mock_schema : TableSchema :=
  {| columns := [ {| name := "id"; data_type := {| type_name := 2 |} |};
                  {| name := "name"; data_type := {| type_name := 7 |} |} ];
     pk_indices := [0%Z] |}.

Definition make_mock_schema_stream_chunk : TableSchema :=
  {| columns := [ {| name := "v1"; data_type := {| type_name := 1 |} |};
                  {| name := "v2"; data_type := {| type_name := 2 |} |};
                  {| name := "v3"; data_type := {| type_name := 3 |} |};
                  {| name := "v4"; data_type := {| type_name := 4 |} |};
                  {| name := "v5"; data_type := {| type_name := 5 |} |};
                  {| name := "v6"; data_type := {| type_name := 6 |} |};
                  {| name := "v7"; data_type := {| type_name := 7 |} |} ];
     pk_indices := [0%Z] |}.

(* ================================================================== *)
(** * Building the request list *)
(* ================================================================== *)

(** The local variables the loop of [test_sink_json] updates. *)
Record locals : Type := {
  request_list : list SinkStreamRequest;
  cur_epoch : Z;
  cur_batch_id : Z
}.

Fixpoint rfold {A S} (f : S -> A -> result S) (l : list A) (s : S) : result S :=
  match l with
  | [] => Ok s
  | x :: xs => (s' <- f s x ;; rfold f xs s')%result
  end.

(** Line 95-96: one [RowOp] from one row.
    [op_type=op_overlap if op_overlap != False else row['op_type']],
    [line=str(row['line'])]: both arguments are evaluated, in this
    order, before the constructor is called. *)
Definition json_row_op (op_overlap row : pyval) : result RowOp :=
  (op <- (if py_ne op_overlap (PyBool false)
          then Ok op_overlap
          else py_getitem row "op_type") ;;
   l <- py_getitem row "line" ;;
   RowOp_new op (py_str l))%result.

(** Lines 91-106: the body of [for batch in sink_input]. *)
Definition json_batch (op_overlap : pyval) (st : locals) (batch : pyval)
  : result locals :=
  (let rl := request_list st ++ [start_epoch {| start_epoch_epoch := cur_epoch st |}] in
   rows <- py_iter batch ;;
   ops <- rmap (json_row_op op_overlap) rows ;;
   let rl := rl ++ [write {| json_payload := Some {| row_ops := ops |};
                             stream_chunk_payload := None;
                             batch_id := cur_batch_id st;
                             epoch := cur_epoch st |}] in
   let rl := rl ++ [sync {| sync_epoch := cur_epoch st |}] in
   Ok {| request_list := rl;
         cur_epoch := cur_epoch st + 1;
         cur_batch_id := cur_batch_id st + 1 |})%result.

(** Lines 79-106 of [test_sink_json]: the request list built from the
    parsed fixture. *)
Definition json_request_list (type : string) (prop : list (string * string))
    (sink_input op_overlap : pyval) : result (list SinkStreamRequest) :=
  (let rl := [start {| format := JSON;
                       sink_config := {| connector_type := type;
                                         properties := prop;
                                         table_schema := make_mock_schema |} |}] in
   batches <- py_iter sink_input ;;
   st <- rfold (json_batch op_overlap) batches
           {| request_list := rl; cur_epoch := 0; cur_batch_id := 1 |} ;;
   Ok (request_list st))%result.

(** Lines 122-144 of [test_sink_stream_chunk].  The two counters are
    raised once more after the triple (lines 143-144) and not read again. *)
Definition stream_chunk_request_list (type : string) (prop : list (string * string))
    (sink_input : list Byte.byte) (schema : TableSchema) : list SinkStreamRequest :=
  let rl := [start {| format := STREAM_CHUNK;
                      sink_config := {| connector_type := type;
                                        properties := prop;
                                        table_schema := schema |} |}] in
  let epoch0 := 0%Z in
  let batch_id0 := 1%Z in
  let rl := rl ++ [start_epoch {| start_epoch_epoch := epoch0 |}] in
  let rl := rl ++ [write {| json_payload := None;
                            stream_chunk_payload := Some {| binary_data := sink_input |};
                            batch_id := batch_id0;
                            epoch := epoch0 |}] in
  let rl := rl ++ [sync {| sync_epoch := epoch0 |}] in
  rl.

End Requests.

(* ================================================================== *)
(** * The process: standard output, the response stream, exit *)
(* ================================================================== *)

(** What the connector service answers is not looked into: the type of
    its responses is a parameter. *)
Class Responses : Type := { SinkResponse : Type }.

Section Process.
Context {PF : PyFloat} {SR : Responses}.

(** One step of the response iterator: a response or an exception.
    An iterator with no step left raises [StopIteration]. *)
Inductive event : Type :=
| Yield (r : SinkResponse)
| Throw (e : pyexn).

(** One call of [print], by its arguments. *)
Inductive print_arg : Type :=
| PStr (s : string)
| PReq (r : SinkStreamRequest)
| PResp (r : SinkResponse)
| PExn (e : pyexn).

Definition print_call : Type := list print_arg.

Record world : Type := {
  stdout : list print_call;        (* the calls of print so far, oldest first *)
  response_iter : list event       (* what response_iter has yet to give *)
}.

Definition M (A : Type) : Type := world -> outcome A * world.

Definition ret {A} (a : A) : M A := fun w => (Return a, w).

Definition bind {A B} (m : M A) (f : A -> M B) : M B :=
  fun w =>
    match m w with
    | (Return a, w') => f a w'
    | (Raise e, w') => (Raise e, w')
    | (Exit c, w') => (Exit c, w')
    end.

Definition lift {A} (r : result A) : M A :=
  fun w => match r with Ok a => (Return a, w) | Err e => (Raise e, w) end.

Definition print (args : print_call) : M unit :=
  fun w => (Return tt, {| stdout := stdout w ++ [args]; response_iter := response_iter w |}).

Definition exit {A} (code : Z) : M A := fun w => (Exit code, w).

(** [try: m  except Exception as e: h e] *)
Definition try_except {A} (m : M A) (h : pyexn -> M A) : M A :=
  fun w =>
    match m w with
    | (Raise e, w') => if is_Exception e then h e w' else (Raise e, w')
    | r => r
    end.

(** [next(response_iter)] *)
Definition py_next : M SinkResponse :=
  fun w =>
    match response_iter w with
    | [] => (Raise StopIteration, w)
    | Yield r :: rest => (Return r, {| stdout := stdout w; response_iter := rest |})
    | Throw e :: rest => (Raise e, {| stdout := stdout w; response_iter := rest |})
    end.

End Process.

Declare Scope proc_scope.
Delimit Scope proc_scope with proc.
Notation "x <- m ;; k" := (bind m (fun x => k))
  (at level 100, m at next level, right associativity) : proc_scope.
Notation "m ;; k" := (bind m (fun _ => k))
  (at level 100, right associativity) : proc_scope.

(* ================================================================== *)
(** * The driver *)
(* ================================================================== *)

Section Driver.
Context {PF : PyFloat} {RT : Runtime} {SR : Responses}.

(** [for x in l: body x] over a list that the body does not change. *)
Fixpoint for_each {A} (l : list A) (body : A -> M unit) : M unit :=
  match l with
  | [] => ret tt
  | x :: xs => (body x ;; for_each xs body)%proc
  end.

(** [range(n)] *)
Definition range (n : nat) : list nat := seq 0 n.

(** What lies outside the process: the fixture files as [json.load] and
    [file.read] give them, the service behind [stub.SinkStream], and the
    rows [SELECT * FROM test] returns. *)
Record env : Type := {
  json_file : string -> result pyval;
  binary_file : string -> result (list Byte.byte);
  service : list SinkStreamRequest -> list event;
  test_table : result (list pytuple)
}.

Variable E : env.

Definition load_input (input_file : string) : M pyval :=
  lift (json_file E input_file).

Definition load_binary_input (input_file : string) : M (list Byte.byte) :=
  lift (binary_file E input_file).

(** [response_iter = stub.SinkStream(iter(request_list))] *)
Definition SinkStream (requests : list SinkStreamRequest) : M unit :=
  fun w => (Return tt, {| stdout := stdout w; response_iter := service E requests |}).

(** Lines 109-115, and again 147-153: the loop over the requests that
    takes one response for each. *)
Definition drain (requests : list SinkStreamRequest) : M unit :=
  for_each requests (fun req =>
    try_except
      (print [PStr "REQUEST"; PReq req] ;;
       r <- py_next ;;
       print [PStr "RESPONSE OK:"; PResp r])%proc
      (fun e =>
         print [PStr "Integration test failed: "; PExn e] ;;
         exit 1)%proc).

(** [op_overlap] is [False] when the caller leaves it out. *)
Definition test_sink_json (type : string) (prop : list (string * string))
    (input_file : string) (op_overlap : pyval) : M unit :=
  (sink_input <- load_input input_file ;;
   requests <- lift (json_request_list type prop sink_input op_overlap) ;;
   SinkStream requests ;;
   drain requests)%proc.

(** [schema] is [make_mock_schema()] when the caller leaves it out. *)
Definition test_sink_stream_chunk (type : string) (prop : list (string * string))
    (input_file : string) (schema : TableSchema) : M unit :=
  (sink_input <- load_binary_input input_file ;;
   let requests := stream_chunk_request_list type prop sink_input schema in
   SinkStream requests ;;
   drain requests)%proc.

(* ================================================================== *)
(** * The validator *)
(* ================================================================== *)

(** Lines 162-163: [[list(row.values()) for batch in ... for row in batch]] *)
Definition row_values (sink_input : pyval) : result (list (list pyval)) :=
  (batches <- py_iter sink_input ;;
   per_batch <- rmap (fun batch => rows <- py_iter batch ;; rmap py_values rows) batches ;;
   Ok (List.concat per_batch))%result.

(** Line 166: [(item[1]['id'], item[1]['name'])] *)
Definition convert_item (item : list pyval) : result pytuple :=
  (x <- py_index item 1 ;;
   id <- py_getitem x "id" ;;
   y <- py_index item 1 ;;
   nm <- py_getitem y "name" ;;
   Ok [id; nm])%result.

Definition convert (b : list (list pyval)) : result (list pytuple) :=
  rmap convert_item b.

(** Lines 162-167: the expected rows of a parsed fixture. *)
Definition expected_rows (sink_input : pyval) : result (list pytuple) :=
  (values <- row_values sink_input ;; convert values)%result.

Definition of_nat (n : nat) : string := int_repr (Z.of_nat n).

Definition msg_rows (expected got : nat) : string :=
  ("Integration test failed: expected " ++ of_nat expected
   ++ " rows, but got " ++ of_nat got)%string.

Definition msg_columns (expected got : nat) : string :=
  ("Integration test failed: expected " ++ of_nat expected
   ++ " columns, but got " ++ of_nat got)%string.

Definition msg_value (expected : pyval) (i j : nat) (got : pyval) : string :=
  ("Integration test failed: expected " ++ py_str expected
   ++ " at row " ++ of_nat i ++ ", column " ++ of_nat j
   ++ ", but got " ++ py_str got)%string.

(** [t[i]] on a list or tuple of the driver's own. *)
Definition at_index {A} (l : list A) (i : nat) : M A :=
  match nth_error l i with
  | Some x => ret x
  | None => fun w => (Raise IndexError, w)
  end.

(** Lines 178-183: the columns of row [i]. *)
Definition compare_columns (i : nat) (row expected_row : pytuple) : M unit :=
  for_each (range (List.length row)) (fun j =>
    (a <- at_index row j ;;
     b <- at_index expected_row j ;;
     if py_ne a b
     then (print [PStr (msg_value b i j a)] ;; exit 1)
     else ret tt)%proc).

(** Lines 174-183: the body of [for i in range(len(rows))]. *)
Definition row_turn (rows expected : list pytuple) (i : nat) : M unit :=
  (row <- at_index rows i ;;
   expected_row <- at_index expected i ;;
   (if negb (Nat.eqb (List.length row) (List.length expected_row))
    then (print [PStr (msg_columns (List.length expected_row) (List.length row))] ;; exit 1)
    else ret tt) ;;
   compare_columns i row expected_row)%proc.

(** Lines 169-183. *)
Definition compare_rows (rows expected : list pytuple) : M unit :=
  ((if negb (Nat.eqb (List.length rows) (List.length expected))
    then (print [PStr (msg_rows (List.length expected) (List.length rows))] ;; exit 1)
    else ret tt) ;;
   for_each (range (List.length rows)) (row_turn rows expected))%proc.

Definition validate_jdbc_sink (input_file : string) : M unit :=
  (rows <- lift (test_table E) ;;
   sink_input <- load_input input_file ;;
   expected <- lift (expected_rows sink_input) ;;
   compare_rows rows expected)%proc.

(** The [prop] of [test_jdbc_sink]. *)
Definition jdbc_prop : list (string * string) :=
  [("jdbc.url", "jdbc:postgresql://localhost:5432/test?user=test&password=connector");
   ("table.name", "test")].

Definition test_jdbc_sink (input_file input_binary_file : string) (use_json : bool)
  : M unit :=
  (let type := "jdbc" in
   let prop := jdbc_prop in
   (if use_json
    then test_sink_json type prop input_file (PyInt 1)
    else test_sink_stream_chunk type prop input_binary_file make_mock_schema) ;;
   validate_jdbc_sink input_file)%proc.

Definition test_upsert_iceberg_sink (file_name : string) (use_json : bool) : M unit :=
  let prop := [("type", "upsert");
               ("warehouse.path", "s3a://bucket");
               ("s3.endpoint", "http://127.0.0.1:9000");
               ("s3.access.key", "minioadmin");
               ("s3.secret.key", "minioadmin");
               ("database.name", "demo_db");
               ("table.name", "demo_table")] in
  let type := "iceberg" in
  if use_json
  then test_sink_json type prop file_name (PyBool false)
  else test_sink_stream_chunk type prop file_name make_mock_schema.

(* ================================================================== *)
(** * What the request list is read against *)
(* ================================================================== *)

(** The triple of epoch [i] (counted from 0) around a JSON payload. *)
Definition json_triple (i : nat) (ops : list RowOp) : list SinkStreamRequest :=
  [ start_epoch {| start_epoch_epoch := Z.of_nat i |};
    write {| json_payload := Some {| row_ops := ops |};
             stream_chunk_payload := None;
             batch_id := Z.of_nat i + 1;
             epoch := Z.of_nat i |};
    sync {| sync_epoch := Z.of_nat i |} ].

Fixpoint json_triples (i : nat) (payloads : list (list RowOp)) : list SinkStreamRequest :=
  match payloads with
  | [] => []
  | ops :: rest => json_triple i ops ++ json_triples (S i) rest
  end.

Definition json_start (type : string) (prop : list (string * string)) : SinkStreamRequest :=
  start {| format := JSON;
           sink_config := {| connector_type := type;
                             properties := prop;
                             table_schema := make_mock_schema |} |}.

(** Projections of a request list. *)
Definition writes (requests : list SinkStreamRequest) : list WriteBatch :=
  flat_map (fun r => match r with write w => [w] | _ => [] end) requests.

Definition start_epochs (requests : list SinkStreamRequest) : list Z :=
  flat_map (fun r => match r with start_epoch e => [start_epoch_epoch e] | _ => [] end) requests.



Definition payload_row_ops (w : WriteBatch) : list RowOp :=
  match json_payload w with
  | Some p => row_ops p
  | None => []
  end.

(** Every [RowOp] of a request list, in order. *)
Definition all_row_ops (requests : list SinkStreamRequest) : list RowOp :=
  flat_map payload_row_ops (writes requests).

(** The rows of a fixture, batch by batch: the two nested [for] loops. *)
Definition fixture_batches (sink_input : pyval) : result (list (list pyval)) :=
  (batches <- py_iter sink_input ;; rmap py_iter batches)%result.

(** A fixture as section 6 of the specification describes it: a list of
    batches, each a list of objects with [op_type], an integer that
    fits the field, and [line]. *)
Definition valid_row (row : pyval) : bool :=
  match row with
  | PyDict d =>
      match lookup "op_type" d, lookup "line" d with
      | Some (PyInt n), Some _ => in_int32 n
      | _, _ => false
      end
  | _ => false
  end.


Definition valid_batch (batch : pyval) : bool :=
  match batch with
  | PyList rows => forallb valid_row rows
  | _ => false
  end.

Definition valid_fixture (sink_input : pyval) : bool :=
  match sink_input with
  | PyList batches => forallb valid_batch batches
  | _ => false
  end.

(** The format named by [start] against the payload a [write] carries. *)
Definition payload_matches (f : SinkPayloadFormat) (w : WriteBatch) : bool :=
  match f, json_payload w, stream_chunk_payload w with
  | JSON, Some _, None => true
  | STREAM_CHUNK, None, Some _ => true
  | _, _, _ => false
  end.

Definition session_format_ok (requests : list SinkStreamRequest) : bool :=
  match requests with
  | start s :: rest =>
      forallb (fun r => match r with
                        | write w => payload_matches (format s) w
                        | _ => true
                        end) rest
  | _ => false
  end.

(** ** The output of the response loop *)

(** What the loop prints for requests that got their response. *)
Fixpoint ok_lines (requests : list SinkStreamRequest) (rs : list SinkResponse)
  : list print_call :=
  match requests, rs with
  | req :: requests', r :: rs' =>
      [PStr "REQUEST"; PReq req] :: [PStr "RESPONSE OK:"; PResp r]
      :: ok_lines requests' rs'
  | _, _ => []
  end.

(** What [next] raises where the responses stop: [StopIteration] at the
    end of the stream, or the exception the stream throws, when it is an
    [Exception]. *)
Definition failure (tail : list event) : option pyexn :=
  match tail with
  | [] => Some StopIteration
  | Throw e :: _ => if is_Exception e then Some e else None
  | Yield _ :: _ => None
  end.

(** The lines of a run in which the responses [rs] came and the next
    call of [next] raised [e]. *)
Definition failed_log (requests : list SinkStreamRequest) (rs : list SinkResponse)
    (e : pyexn) : list print_call :=
  ok_lines requests rs ++
  match nth_error requests (List.length rs) with
  | Some req => [ [PStr "REQUEST"; PReq req];
                  [PStr "Integration test failed: "; PExn e] ]
  | None => []
  end.

Definition logged (w : world) (lines : list print_call) : world :=
  {| stdout := stdout w ++ lines; response_iter := response_iter w |}.

(** ** Rows against expected rows *)

(** Row and expected row agree: as many columns, and no cell differs. *)
Definition row_ok (row expected_row : pytuple) : Prop :=
  List.length row = List.length expected_row /\
  forall j a b,
    nth_error row j = Some a -> nth_error expected_row j = Some b ->
    py_ne a b = false.

(** The rows before [i] agree with the expected ones. *)
Definition rows_ok_before (rows expected : list pytuple) (i : nat) : Prop :=
  forall i' row expected_row,
    i' < i ->
    nth_error rows i' = Some row -> nth_error expected i' = Some expected_row ->
    row_ok row expected_row.

(** How one expected tuple comes from one fixture row. *)
Definition tuple_of_row (row : pyval) (t : pytuple) : Prop :=
  exists vals x id nm,
    py_values row = Ok vals /\
    nth_error vals 1 = Some x /\
    py_getitem x "id" = Ok id /\
    py_getitem x "name" = Ok nm /\
    t = [id; nm].

(** All rows of a result set have as many columns as each other. *)
Definition rectangular (rows : list pytuple) : Prop :=
  exists k, Forall (fun row => List.length row = k) rows.

(** A fixture [validate_jdbc_sink] can read: every row an object whose
    second value is an object with [id] and [name]. *)
Definition jdbc_row (row : pyval) : bool :=
  match row with
  | PyDict d =>
      match nth_error (map snd d) 1 with
      | Some (PyDict l) =>
          match lookup "id" l, lookup "name" l with
          | Some _, Some _ => true
          | _, _ => false
          end
      | _ => false
      end
  | _ => false
  end.

Definition jdbc_fixture (sink_input : pyval) : bool :=
  match sink_input with
  | PyList batches =>
      forallb (fun batch => match batch with
                            | PyList rows => forallb jdbc_row rows
                            | _ => false
                            end) batches
  | _ => false
  end.

(** A session as one of the two builders makes it. *)
Definition built_by_harness (requests : list SinkStreamRequest) : Prop :=
  (exists type prop sink_input op_overlap,
      json_request_list type prop sink_input op_overlap = Ok requests) \/
  (exists type prop sink_input schema,
      requests = stream_chunk_request_list type prop sink_input schema).

(* ================================================================== *)
(** * The tests by connector, and the command line *)
(* ================================================================== *)

Definition file_prop : list (string * string) := [("output.path", "/tmp/connector")].

Definition test_file_sink (file_name : string) (use_json : bool) : M unit :=
  let type := "file" in
  let prop := file_prop in
  if use_json
  then test_sink_json type prop file_name (PyInt 1)
  else test_sink_stream_chunk type prop file_name make_mock_schema.

Definition elasticsearch_prop : list (string * string) :=
  [("url", "http://127.0.0.1:9200"); ("index", "test")].

Definition test_elasticsearch_sink (file_name : string) (use_json : bool) : M unit :=
  let prop := elasticsearch_prop in
  let type := "elasticsearch" in
  if use_json
  then test_sink_json type prop file_name (PyInt 1)
  else test_sink_stream_chunk type prop file_name make_mock_schema.

Definition iceberg_prop : list (string * string) :=
  [("type", "append-only");
   ("warehouse.path", "s3a://bucket");
   ("s3.endpoint", "http://127.0.0.1:9000");
   ("s3.access.key", "minioadmin");
   ("s3.secret.key", "minioadmin");
   ("database.name", "demo_db");
   ("table.name", "demo_table")].

Definition test_iceberg_sink (file_name : string) (use_json : bool) : M unit :=
  let prop := iceberg_prop in
  let type := "iceberg" in
  if use_json
  then test_sink_json type prop file_name (PyInt 1)
  else test_sink_stream_chunk type prop file_name make_mock_schema.

Definition deltalake_prop : list (string * string) :=
  [("location", "s3a://bucket/delta");
   ("s3.access.key", "minioadmin");
   ("s3.secret.key", "minioadmin");
   ("s3.endpoint", "127.0.0.1:9000")].

Definition test_deltalake_sink (file_name : string) (use_json : bool) : M unit :=
  let prop := deltalake_prop in
  let type := "deltalake" in
  if use_json
  then test_sink_json type prop file_name (PyInt 1)
  else test_sink_stream_chunk type prop file_name make_mock_schema.

Definition test_stream_chunk_data_format (input_binary_file : string) : M unit :=
  let type := "file" in
  let prop := file_prop in
  test_sink_stream_chunk type prop input_binary_file make_mock_schema_stream_chunk.

(** What [parser.parse_args()] returns.  The [store_true] flags are
    booleans; [data_format_use_json] is [True] when left out and the
    text given on the command line otherwise. *)
Record arguments : Type := {
  file_sink : bool;
  jdbc_sink : bool;
  stream_chunk_format_test : bool;
  iceberg_sink : bool;
  upsert_iceberg_sink : bool;
  deltalake_sink : bool;
  input_file : string;
  input_binary_file : string;
  es_sink : bool;
  data_format_use_json : pyval
}.

(** Line 293: [args.data_format_use_json == True or
    args.data_format_use_json == 'True']. *)
Definition use_json_flag (v : pyval) : bool :=
  py_eq v (PyBool true) || py_eq v (PyStr "True").

(** [if c: m] *)
Definition when (c : bool) (m : M unit) : M unit := if c then m else ret tt.

(** Lines 292-316, after the arguments are parsed. *)
Definition main (args : arguments) : M unit :=
  (let use_json := use_json_flag (data_format_use_json args) in
   let file_name := if use_json then input_file args
                    else input_binary_file args in
   when (stream_chunk_format_test args) (test_stream_chunk_data_format file_name) ;;
   when (file_sink args) (test_file_sink file_name use_json) ;;
   when (jdbc_sink args)
        (test_jdbc_sink (input_file args) (input_binary_file args) use_json) ;;
   when (iceberg_sink args) (test_iceberg_sink file_name use_json) ;;
   when (deltalake_sink args) (test_deltalake_sink file_name use_json) ;;
   when (es_sink args) (test_elasticsearch_sink file_name use_json) ;;
   when (upsert_iceberg_sink args) (test_upsert_iceberg_sink file_name use_json))%proc.

(** ** What the further properties are read against *)

(** The first [n] steps of the stream are responses. *)
Fixpoint answered (n : nat) (events : list event) : bool :=
  match n with
  | 0 => true
  | S n' =>
      match events with
      | Yield _ :: rest => answered n' rest
      | _ => false
      end
  end.

(** The responses among the first steps of a stream. *)
Fixpoint leading_responses (events : list event) : list SinkResponse :=
  match events with
  | Yield r :: rest => r :: leading_responses rest
  | _ => []
  end.

(** The first difference between a row and its expected row from
    column [j] on, as the message the validator prints for it. *)
Fixpoint first_cell_difference (i j : nat) (row expected_row : pytuple) : option string :=
  match row, expected_row with
  | a :: row', b :: expected_row' =>
      if py_ne a b then Some (msg_value b i j a)
      else first_cell_difference i (S j) row' expected_row'
  | _, _ => None
  end.

Fixpoint first_row_difference (i : nat) (rows expected : list pytuple) : option string :=
  match rows, expected with
  | row :: rows', expected_row :: expected' =>
      if negb (Nat.eqb (List.length row) (List.length expected_row))
      then Some (msg_columns (List.length expected_row) (List.length row))
      else match first_cell_difference i 0 row expected_row with
           | Some m => Some m
           | None => first_row_difference (S i) rows' expected'
           end
  | _, _ => None
  end.

Definition first_difference (rows expected : list pytuple) : option string :=
  if negb (Nat.eqb (List.length rows) (List.length expected))
  then Some (msg_rows (List.length expected) (List.length rows))
  else first_row_difference 0 rows expected.

(** The grammar of a session: triples of consecutive epochs from [i]
    on, the batch id one above the epoch. *)
Fixpoint triples_ok (i : Z) (requests : list SinkStreamRequest) : bool :=
  match requests with
  | [] => true
  | start_epoch e :: write w :: sync y :: rest =>
      Z.eqb (start_epoch_epoch e) i && Z.eqb (epoch w) i &&
      Z.eqb (batch_id w) (i + 1) && Z.eqb (sync_epoch y) i &&
      triples_ok (i + 1) rest
  | _ => false
  end.

Definition session_ok (requests : list SinkStreamRequest) : bool :=
  match requests with
  | start _ :: rest => triples_ok 0 rest
  | _ => false
  end.

(** The arguments with another format flag, and with the format test
    left out. *)
Definition with_format (args : arguments) (v : pyval) : arguments :=
  {| file_sink := file_sink args;
     jdbc_sink := jdbc_sink args;
     stream_chunk_format_test := stream_chunk_format_test args;
     iceberg_sink := iceberg_sink args;
     upsert_iceberg_sink := upsert_iceberg_sink args;
     deltalake_sink := deltalake_sink args;
     input_file := input_file args;
     input_binary_file := input_binary_file args;
     es_sink := es_sink args;
     data_format_use_json := v |}.

Definition without_format_test (args : arguments) : arguments :=
  {| file_sink := file_sink args;
     jdbc_sink := jdbc_sink args;
     stream_chunk_format_test := false;
     iceberg_sink := iceberg_sink args;
     upsert_iceberg_sink := upsert_iceberg_sink args;
     deltalake_sink := deltalake_sink args;
     input_file := input_file args;
     input_binary_file := input_binary_file args;
     es_sink := es_sink args;
     data_format_use_json := data_format_use_json args |}.

End Driver.

(* ================================================================== *)
(** * Scripts that print and run commands *)
(* ================================================================== *)

(** The other scripts of the repository are plain sequences of prints
    and calls to the outside; they share a monad over the log of what
    they did, oldest first. *)
Module Script.

Section Log.
Variable action : Type.

Definition S (A : Type) : Type := list action -> outcome A * list action.

Definition ret {A} (a : A) : S A := fun log => (Return a, log).

Definition bind {A B} (m : S A) (f : A -> S B) : S B :=
  fun log =>
    match m log with
    | (Return a, log') => f a log'
    | (Raise e, log') => (Raise e, log')
    | (Exit c, log') => (Exit c, log')
    end.

Definition lift {A} (r : result A) : S A :=
  fun log => match r with Ok a => (Return a, log) | Err e => (Raise e, log) end.

Definition emit (a : action) : S unit := fun log => (Return tt, log ++ [a]).

Definition exit {A} (code : Z) : S A := fun log => (Exit code, log).

(** A loop that carries its variables from turn to turn. *)
Fixpoint fold {A T} (f : T -> A -> S T) (l : list A) (t : T) : S T :=
  match l with
  | [] => ret t
  | x :: xs => bind (f t x) (fold f xs)
  end.

End Log.

Arguments ret {action A} a.
Arguments bind {action A B} m f.
Arguments lift {action A} r.
Arguments emit {action} a.
Arguments exit {action A} code.
Arguments fold {action A T} f l t.

(** A [dict] with string keys, in insertion order. *)
Definition dict (V : Type) : Type := list (string * V).

(** [d[k]] *)
Fixpoint dict_get {V} (d : dict V) (k : string) : result V :=
  match d with
  | [] => Err (KeyError k)
  | (k', v) :: d' => if String.eqb k k' then Ok v else dict_get d' k
  end.

(** [d[k] = v]: in place for a key that is there, at the end for a new one. *)
Fixpoint dict_set {V} (d : dict V) (k : string) (v : V) : dict V :=
  match d with
  | [] => [(k, v)]
  | (k', v') :: d' =>
      if String.eqb k k' then (k', v) :: d' else (k', v') :: dict_set d' k v
  end.

Definition keys {V} (d : dict V) : list string := map fst d.

Definition nl : string := String (ascii_of_nat 10) EmptyString.
Definition dq : string := String quote2 EmptyString.

(** Code points below 256 for which [str.isspace] holds. *)
Definition is_space (c : ascii) : bool :=
  let n := N_of_ascii c in
  ((9 <=? n) && (n <=? 13) || (28 <=? n) && (n <=? 32) || (n =? 133) || (n =? 160))%N.

Fixpoint lstrip_chars (l : list ascii) : list ascii :=
  match l with
  | c :: l' => if is_space c then lstrip_chars l' else l
  | [] => []
  end.

(** [s.strip()] *)
Definition strip (s : string) : string :=
  string_of_list_ascii
    (rev (lstrip_chars (rev (lstrip_chars (list_ascii_of_string s))))).

End Script.

Declare Scope script_scope.
Delimit Scope script_scope with script.
Notation "x <- m ;; k" := (Script.bind m (fun x => k))
  (at level 100, m at next level, right associativity) : script_scope.
Notation "m ;; k" := (Script.bind m (fun _ => k))
  (at level 100, right associativity) : script_scope.

(* ================================================================== *)
(** * [ci/scripts/notify.py] *)
(* ================================================================== *)

Module Notify.
Import Script.

Inductive action : Type :=
| Print (s : string)        (* print(s) *)
| Shell (cmd : string).     (* subprocess.run(cmd, shell=True) *)

(** What the script meets outside: [os.environ], and for each command
    the text it writes to its standard output. *)
Record env : Type := {
  environ : dict string;
  shell_stdout : string -> string
}.

Definition MAIN_CRON_TEST_MAP : dict (list string) :=
  [ ("test-notify", ["noelkwan"; "noelkwan"]);
    ("test-notify-2", ["noelkwan"; "noelkwan"]);
    ("backfill-tests", ["noelkwan"]);
    ("backwards-compat-tests", ["noelkwan"]);
    ("fuzz-test", ["noelkwan"]);
    ("e2e-test-release", ["zhi"]);
    ("e2e-iceberg-sink-tests", ["renjie"]);
    ("e2e-java-binding-tests", ["yiming"]);
    ("e2e-clickhouse-sink-tests", ["bohan"]);
    ("e2e-pulsar-sink-tests", ["renjie"]);
    ("s3-source-test-for-opendal-fs-engine", ["congyi"]);
    ("pulsar-source-tests", ["renjie"]);
    ("connector-node-integration-test", ["siyuan"]) ].

Definition INTEGRATION_TEST_MAP : dict (list string) :=
  [ ("test-notify", ["jianwei"]);
    ("ad-click-json", ["bohan"]);
    ("ad-ctr-json", ["bohan"]);
    ("cdn-metrics-json", ["bohan"]);
    ("clickstream-json", ["bohan"]);
    ("livestream-json", ["bohan"]);
    ("livestream-protobuf", ["bohan"]);
    ("prometheus-json", ["bohan"]);
    ("schema-registry-json", ["bohan"]);
    ("mysql-cdc-json", ["siyuan"]);
    ("postgres-cdc-json", ["siyuan"]);
    ("mysql-sink-json", ["siyuan"]);
    ("postgres-sink-json", ["siyuan"]);
    ("iceberg-cdc-json", ["renjie"]);
    ("twitter-json", ["bohan"]);
    ("twitter-protobuf", ["bohan"]);
    ("twitter-pulsar-json", ["bohan"]);
    ("debezium-mysql-json", ["bohan"]);
    ("debezium-postgres-json", ["bohan"]);
    ("debezium-sqlserver-json", ["bohan"]);
    ("tidb-cdc-sink-json", ["eric"]);
    ("citus-cdc-json", ["siyuan"]);
    ("kinesis-s3-source-json", ["bohan"]);
    ("clickhouse-sink-json", ["xinhao"]);
    ("cockroach-sink-json", ["bohan"]);
    ("kafka-cdc-sink-json", ["renjie"]);
    ("cassandra-and-scylladb-sink-json", ["xinhao"]);
    ("elasticsearch-sink-json", ["xinhao"]);
    ("redis-sink-json", ["xinhao"]);
    ("big-query-sink-json", ["xinhao"]);
    ("vector-json", ["tao"]);
    ("doris-sink", ["xinhao"]);
    ("starrocks-sink", ["xinhao"]);
    ("deltalake-sink", ["xinhao"]) ].

(** Line 68: [test_status == "hard_failed" or test_status == "soft_failed"] *)
Definition is_failed (test_status : string) : bool :=
  String.eqb test_status "hard_failed" || String.eqb test_status "soft_failed".

(** Lines 67-69: the body of [for test in test_map.keys()]. *)
Definition check_test (get_test_status : string -> S action string)
    (test_map failed_test_map : dict (list string)) (test : string)
  : S action (dict (list string)) :=
  (test_status <- get_test_status test ;;
   if is_failed test_status
   then (owners <- lift (dict_get test_map test) ;;
         ret (dict_set failed_test_map test owners))
   else ret failed_test_map)%script.

Definition get_failed_tests (get_test_status : string -> S action string)
    (test_map : dict (list string)) : S action (dict (list string)) :=
  fold (check_test get_test_status test_map) (keys test_map) [].

Definition mention (user : string) : string := ("<@" ++ user ++ ">")%string.

Definition test_message (entry : string * list string) : string :=
  let users := String.concat " " (map mention (snd entry)) in
  ("Test " ++ fst entry ++ " failed " ++ users)%string.

Definition indent : string := "            ".

Definition generate_test_status_message (failed_test_map : dict (list string)) : string :=
  let messages := map test_message failed_test_map in
  String.concat (nl ++ indent) messages.

Definition status_command (test : string) : string :=
  ("buildkite-agent step get " ++ dq ++ "outcome" ++ dq ++ " --step "
   ++ dq ++ test ++ dq)%string.

Section WithEnv.
Variable V : env.

Definition get_buildkite_test_status (test : string) : S action string :=
  (emit (Shell (status_command test)) ;;
   let outcome := strip (shell_stdout V (status_command test)) in
   ret outcome)%script.

Definition mock_test_map : dict string :=
  [ ("test-notify", "hard_failed");
    ("test-notify-2", "hard_failed");
    ("backfill-tests", "");
    ("backwards-compat-tests", "");
    ("fuzz-test", "");
    ("e2e-test-release", "");
    ("e2e-iceberg-sink-tests", "passed");
    ("e2e-java-binding-tests", "soft_failed");
    ("e2e-clickhouse-sink-tests", "hard_failed");
    ("e2e-pulsar-sink-tests", "");
    ("s3-source-test-for-opendal-fs-engine", "");
    ("pulsar-source-tests", "");
    ("connector-node-integration-test", "") ].

Definition get_mock_test_status (test : string) : S action string :=
  lift (dict_get mock_test_map test).

Definition format_cmd (messages : string) : string :=
  (nl ++ "cat <<- YAML | buildkite-agent pipeline upload" ++ nl
   ++ "steps:" ++ nl
   ++ "  - label: " ++ dq ++ "Test" ++ dq ++ nl
   ++ "    command: echo " ++ dq ++ "running failed test notification" ++ dq
   ++ " && exit 1" ++ nl
   ++ "    notify:" ++ nl
   ++ "      - slack:" ++ nl
   ++ "          channels:" ++ nl
   ++ "            - " ++ dq ++ "#notification-buildkite" ++ dq ++ nl
   ++ "          message: |" ++ nl
   ++ "            " ++ messages ++ nl
   ++ "YAML" ++ nl
   ++ "        ")%string.

Definition get_test_map : S action (dict (list string)) :=
  (pipeline_name <- lift (dict_get (environ V) "BUILDKITE_PIPELINE_NAME") ;;
   if String.eqb pipeline_name "main-cron" then ret MAIN_CRON_TEST_MAP
   else if String.eqb pipeline_name "integration-tests" then ret INTEGRATION_TEST_MAP
   else (emit (Print "Invaild pipeline name!") ;; exit 1))%script.

Definition run_test_1 : S action unit :=
  (test_map <- get_test_map ;;
   failed_test_map <- get_failed_tests get_mock_test_status test_map ;;
   let message := generate_test_status_message failed_test_map in
   if String.eqb message ""
   then emit (Print "All tests passed, no need to notify")
   else (emit (Print "Some tests failed, notify users") ;;
         emit (Print message) ;;
         let cmd := format_cmd message in
         emit (Print cmd)))%script.

Definition main : S action unit :=
  (test_map <- get_test_map ;;
   failed_test_map <- get_failed_tests get_buildkite_test_status test_map ;;
   let message := generate_test_status_message failed_test_map in
   if String.eqb message ""
   then emit (Print "All tests passed, no need to notify")
   else (emit (Print "Some tests failed, notify users") ;;
         emit (Print message) ;;
         let cmd := format_cmd message in
         emit (Print cmd) ;;
         emit (Shell cmd) ;;
         emit (Print "notification sent")))%script.

End WithEnv.

(** The tests of a map that count as failed under the given statuses. *)
Definition failed_entries (status : string -> string) (test_map : dict (list string))
  : dict (list string) :=
  filter (fun entry => is_failed (status (fst entry))) test_map.

(** The status the build server reports for a test. *)
Definition buildkite_status (V : env) (test : string) : string :=
  strip (shell_stdout V (status_command test)).

Definition is_shell (a : action) : bool :=
  match a with Shell _ => true | Print _ => false end.

(** What the notifier prints and runs once the tests are asked about. *)
Definition report (failed_test_map : dict (list string)) : list action :=
  match failed_test_map with
  | [] => [Print "All tests passed, no need to notify"]
  | _ =>
      let message := generate_test_status_message failed_test_map in
      [ Print "Some tests failed, notify users";
        Print message;
        Print (format_cmd message);
        Shell (format_cmd message);
        Print "notification sent" ]
  end.

(** The command of [format_cmd] up to the message, and after it. *)
Definition cmd_header : string :=
  (nl ++ "cat <<- YAML | buildkite-agent pipeline upload" ++ nl
   ++ "steps:" ++ nl
   ++ "  - label: " ++ dq ++ "Test" ++ dq ++ nl
   ++ "    command: echo " ++ dq ++ "running failed test notification" ++ dq
   ++ " && exit 1" ++ nl
   ++ "    notify:" ++ nl
   ++ "      - slack:" ++ nl
   ++ "          channels:" ++ nl
   ++ "            - " ++ dq ++ "#notification-buildkite" ++ dq ++ nl
   ++ "          message: |" ++ nl)%string.

Definition cmd_footer : string := ("YAML" ++ nl ++ "        ")%string.

(** The failing tests of the mock statuses, on the main-cron map. *)
Definition mock_failed : dict (list string) :=
  [ ("test-notify", ["noelkwan"; "noelkwan"]);
    ("test-notify-2", ["noelkwan"; "noelkwan"]);
    ("e2e-java-binding-tests", ["yiming"]);
    ("e2e-clickhouse-sink-tests", ["bohan"]) ].

(** No text twice. *)
Fixpoint distinct (l : list string) : bool :=
  match l with
  | [] => true
  | x :: xs => negb (existsb (String.eqb x) xs) && distinct xs
  end.

End Notify.

(* ================================================================== *)
(** * [scripts/source/json_schema_producer.py] *)
(* ================================================================== *)

Module Producer.
Import Script.

Inductive action : Type :=
| Print (s : string).

(** [os.path.basename(p)]: what follows the last slash. *)
Fixpoint basename (p : string) : string :=
  match p with
  | EmptyString => EmptyString
  | String c p' =>
      if contains "/" p' then basename p'
      else if Ascii.eqb c "/" then p'
      else String c p'
  end.

(** [s.split(".")[0]]: what precedes the first dot. *)
Fixpoint before_dot (s : string) : string :=
  match s with
  | EmptyString => EmptyString
  | String c s' => if Ascii.eqb c "." then EmptyString else String c (before_dot s')
  end.

(** [sys.argv[i]] *)
Definition argv_at (argv : list string) (i : nat) : result string :=
  match nth_error argv i with
  | Some a => Ok a
  | None => Err IndexError
  end.

Definition usage : string :=
  "datagen.py <brokerlist> <schema-registry-url> <file> <name-strategy>".

Definition strategies : list string := ["topic"; "record"; "topic-record"; ""].

Section WithKafka.
(** Lines 41-59, which create the topic and produce the lines of the
    file through the Kafka and schema-registry clients, by what they
    are given: broker list, registry url, file and topic. *)
Variable kafka : string -> string -> string -> string -> S action unit.

(** Lines 24-59, the body of the script. *)
Definition script (argv : list string) : S action unit :=
  ((if Nat.ltb (List.length argv) 4 then emit (Print usage) else ret tt) ;;
   broker_list <- lift (argv_at argv 1) ;;
   schema_registry_url <- lift (argv_at argv 2) ;;
   file <- lift (argv_at argv 3) ;;
   let topic := before_dot (basename file) in
   strategy <- lift (argv_at argv 4) ;;
   (if negb (existsb (String.eqb strategy) strategies)
    then (emit (Print "name strategy must be one of: topic, record, topic_record") ;;
          exit 1)
    else ret tt) ;;
   strategy <- lift (argv_at argv 4) ;;
   let topic := if negb (String.eqb strategy "topic")
                then (topic ++ "-" ++ strategy)%string
                else topic in
   emit (Print ("broker_list: " ++ broker_list)) ;;
   emit (Print ("schema_registry_url: " ++ schema_registry_url)) ;;
   emit (Print ("topic: " ++ topic)) ;;
   strategy <- lift (argv_at argv 4) ;;
   emit (Print ("name strategy: " ++ strategy)) ;;
   kafka broker_list schema_registry_url file topic)%script.

End WithKafka.

(** The topic the script produces to. *)
Definition topic_of (file strategy : string) : string :=
  if String.eqb strategy "topic"
  then before_dot (basename file)
  else (before_dot (basename file) ++ "-" ++ strategy)%string.

End Producer.

(* ================================================================== *)
(** * [integration_tests/starrocks-sink/sink_check.py] *)
(* ================================================================== *)

Module SinkCheck.
Import Script.

Inductive action : Type :=
| Print (s : string).

(** [s.split('\n')] *)
Fixpoint split_lines (s : string) : list string :=
  match s with
  | EmptyString => [EmptyString]
  | String c s' =>
      if Ascii.eqb c (ascii_of_nat 10) then EmptyString :: split_lines s'
      else match split_lines s' with
           | first :: rest => String c first :: rest
           | [] => [String c EmptyString]
           end
  end.

Definition digit (c : ascii) : option (Decimal.uint -> Decimal.uint) :=
  match N_of_ascii c with
  | 48%N => Some Decimal.D0 | 49%N => Some Decimal.D1 | 50%N => Some Decimal.D2
  | 51%N => Some Decimal.D3 | 52%N => Some Decimal.D4 | 53%N => Some Decimal.D5
  | 54%N => Some Decimal.D6 | 55%N => Some Decimal.D7 | 56%N => Some Decimal.D8
  | 57%N => Some Decimal.D9
  | _ => None
  end.

(** The digits of a numeral; one underscore may stand between two digits. *)
Fixpoint digits (l : list ascii) (after_digit : bool) : option Decimal.uint :=
  match l with
  | [] => if after_digit then Some Decimal.Nil else None
  | c :: l' =>
      if Ascii.eqb c "_"
      then (if after_digit then digits l' false else None)
      else match digit c, digits l' true with
           | Some d, Some rest => Some (d rest)
           | _, _ => None
           end
  end.

(** Code points below 256 that [int] skips around a numeral: the
    ASCII blanks and, of the others, those that are white space to
    [str].  The separators U+001C to U+001F, which [str.strip] takes
    off, are not among them. *)
Definition int_space (c : ascii) : bool :=
  let n := N_of_ascii c in
  ((9 <=? n) && (n <=? 13) || (n =? 32) || (n =? 133) || (n =? 160))%N.

Fixpoint skip_blanks (l : list ascii) : list ascii :=
  match l with
  | c :: l' => if int_space c then skip_blanks l' else l
  | [] => []
  end.

(** The text between the blanks at both ends. *)
Definition numeral_of (s : string) : list ascii :=
  rev (skip_blanks (rev (skip_blanks (list_ascii_of_string s)))).

(** The number of digits up to which [int] converts a decimal numeral
    ([sys.int_max_str_digits], as the interpreter starts). *)
Definition max_str_digits : nat := 4300.

(** [int(s)] for a [str]: blanks around the numeral, a sign, decimal
    digits; anything else raises [ValueError], and so does a numeral
    of more than [max_str_digits] digits. *)
Definition py_int (s : string) : result Z :=
  let numeral := numeral_of s in
  let parsed :=
    match numeral with
    | c :: l =>
        if Ascii.eqb c "-" then option_map Decimal.Neg (digits l false)
        else if Ascii.eqb c "+" then option_map Decimal.Pos (digits l false)
        else option_map Decimal.Pos (digits numeral false)
    | [] => None
    end in
  match parsed with
  | Some d =>
      if Nat.ltb max_str_digits (Decimal.nb_digits (Decimal.abs d))
      then Err ValueError
      else Ok (Z.of_int d)
  | None => Err ValueError
  end.

Definition relations : list string := ["demo.demo_bhv_table"].

Definition sql_of (rel : string) : string := ("SELECT COUNT(*) FROM " ++ rel ++ ";")%string.

Definition docker_command (rel : string) : list string :=
  [ "docker"; "compose"; "exec"; "starrocks-fe"; "bash"; "-c";
    ("mysql -uroot -P9030 -h127.0.0.1 -e " ++ dq ++ sql_of rel ++ dq)%string ].

Section WithDocker.
(** [subprocess.check_output(argv).decode('utf-8')]: the text the
    command writes, or what running or decoding raises. *)
Variable check_output : list string -> result string.

(** Lines 8-19: the body of [for rel in relations]. *)
Definition check_relation (failed_cases : list string) (rel : string)
  : S action (list string) :=
  (let sql := sql_of rel in
   emit (Print ("Running SQL: " ++ sql ++ " ON Starrocks")) ;;
   output <- lift (check_output (docker_command rel)) ;;
   second <- lift (match nth_error (split_lines output) 1 with
                   | Some l => Ok l
                   | None => Err IndexError
                   end) ;;
   rows <- lift (py_int second) ;;
   emit (Print (int_repr rows ++ " rows in " ++ rel)) ;;
   if (rows <? 1)%Z then ret (failed_cases ++ [rel]) else ret failed_cases)%script.

Definition failed_line (failed_cases : list string) : string :=
  ("Data check failed for case ["
   ++ String.concat ", " (map str_repr failed_cases) ++ "]")%string.

Definition script : S action unit :=
  (failed_cases <- fold check_relation relations [] ;;
   if negb (Nat.eqb (List.length failed_cases) 0)
   then (emit (Print (failed_line failed_cases)) ;; exit 1)
   else ret tt)%script.

End WithDocker.

(** The text [mysql] prints for a count: the column header and the
    number, a line each. *)
Definition count_output (header : string) (n : Z) : string :=
  (header ++ nl ++ int_repr n ++ nl)%string.

Definition newline : ascii := ascii_of_nat 10.

(** A character of a decimal numeral. *)
Definition numeral_char (c : ascii) : bool :=
  match digit c with
  | Some _ => true
  | None => Ascii.eqb c "-"
  end.

Definition running_line : string :=
  "Running SQL: SELECT COUNT(*) FROM demo.demo_bhv_table; ON Starrocks".

End SinkCheck.

(* ================================================================== *)
(** * A sample fixture and sample surroundings *)
(* ================================================================== *)

(** Responses as the text the service would print. *)
#[export] Instance TextResponses : Responses := {| SinkResponse := string |}.

(** A runtime for the examples: an enum with the one label [INSERT],
    and a [bool] passing for a number. *)
#[export] Instance sample_runtime : Runtime := {|
  Op_labels := [("INSERT", 1%Z)];
  bool_is_int := true
|}.

Definition text (s : string) : @SinkResponse TextResponses := s.

Definition sample_row (op id : Z) (nm : string) : pyval :=
  PyDict [("op_type", PyInt op);
          ("line", PyDict [("id", PyInt id); ("name", PyStr nm)])].

(** Two batches, of two rows and of one row. *)
Definition sample_fixture : pyval :=
  PyList [ PyList [sample_row 1 1 "Alice"; sample_row 2 2 "Bob"];
           PyList [sample_row 3 3 "Clare"] ].

(** A binary fixture of 37 bytes. *)
Definition sample_chunk : list Byte.byte := repeat Byte.x2a 37.

Definition sample_env (events : list event) (table : list pytuple) : env :=
  {| json_file := fun _ => Ok sample_fixture;
     binary_file := fun _ => Ok sample_chunk;
     service := fun _ => events;
     test_table := Ok table |}.

Definition fresh : world := {| stdout := []; response_iter := [] |}.

(** A fixture whose last row has no [line]. *)
Definition bad_fixture : pyval :=
  PyList [ PyList [sample_row 1 1 "Alice"];
           PyList [PyDict [("op_type", PyInt 1)]] ].

(** A fixture that carries its line as text. *)
Definition text_fixture : pyval :=
  PyList [ PyList [PyDict [("op_type", PyInt 1); ("line", PyStr "{id: 1, name: a}")]] ].

Definition bad_env : env :=
  {| json_file := fun _ => Ok bad_fixture;
     binary_file := fun _ => Ok sample_chunk;
     service := fun _ => [];
     test_table := Ok [] |}.

Definition sample_table : list pytuple :=
  [ [PyInt 1; PyStr "Alice"]; [PyInt 2; PyStr "Bob"]; [PyInt 3; PyStr "Clare"] ].

(** The table with a third column, and the table with another name in
    its second row. *)
Definition wide_table : list pytuple :=
  [ [PyInt 1; PyStr "Alice"; PyNone]; [PyInt 2; PyStr "Bob"; PyNone];
    [PyInt 3; PyStr "Clare"; PyNone] ].

Definition bobby_table : list pytuple :=
  [ [PyInt 1; PyStr "Alice"]; [PyInt 2; PyStr "Bobby"]; [PyInt 3; PyStr "Clare"] ].

(** The requests of the sample fixture as [test_jdbc_sink] sends them. *)
Definition sample_jdbc_requests : list SinkStreamRequest :=
  match json_request_list "jdbc" jdbc_prop sample_fixture (PyInt 1) with
  | Ok requests => requests
  | Err _ => []
  end.

(** The command line [--stream_chunk_format_test --data_format_use_json true]. *)
Definition sample_arguments : arguments :=
  {| file_sink := false;
     jdbc_sink := false;
     stream_chunk_format_test := true;
     iceberg_sink := false;
     upsert_iceberg_sink := false;
     deltalake_sink := false;
     input_file := "./data/sink_input.json";
     input_binary_file := "./data/sink_input";
     es_sink := false;
     data_format_use_json := PyStr "true" |}.

(** A build in which only [fuzz-test] failed, softly. *)
Definition sample_build : Notify.env :=
  {| Notify.environ := [("BUILDKITE_PIPELINE_NAME", "main-cron")];
     Notify.shell_stdout := fun cmd =>
       if String.eqb cmd (Notify.status_command "fuzz-test")
       then ("soft_failed" ++ Script.nl)%string
       else ("passed" ++ Script.nl)%string |}.

Definition nightly_build : Notify.env :=
  {| Notify.environ := [("BUILDKITE_PIPELINE_NAME", "nightly")];
     Notify.shell_stdout := fun _ => EmptyString |}.

Definition integration_build : Notify.env :=
  {| Notify.environ := [("BUILDKITE_PIPELINE_NAME", "integration-tests")];
     Notify.shell_stdout := fun _ => EmptyString |}.

Definition two_tests : Script.dict (list string) :=
  [("unit", ["ann"]); ("e2e", ["bob"; "cy"])].

Definition two_statuses (test : string) : string :=
  if String.eqb test "e2e" then "hard_failed" else "passed".

Definition no_kafka (broker_list schema_registry_url file topic : string)
  : Script.S Producer.action unit := Script.ret tt.

Definition empty_table (argv : list string) : result string :=
  Ok (SinkCheck.count_output "COUNT(*)" 0).

Definition no_reply (argv : list string) : result string := Ok "ERROR".

(** A count with the separator U+001F in front of it. *)
Definition separator_reply (argv : list string) : result string :=
  Ok ("COUNT(*)" ++ Script.nl ++ String (ascii_of_nat 31) "7" ++ Script.nl)%string.

(* ================================================================== *)
(** * Facts about results and the builder's loop *)
(* ================================================================== *)

Section Properties.
Context {PF : PyFloat} {RT : Runtime} {SR : Responses}.
Variable E : env.

Lemma rbind_Ok_inv {A B} (m : result A) (f : A -> result B) (b : B) :
  rbind m f = Ok b -> exists a, m = Ok a /\ f a = Ok b.
Proof.
  destruct m as [a|e]; simpl; intros H.
  - exists a; split; [reflexivity | exact H].
  - discriminate H.
Qed.

Lemma rmap_Forall2 {A B} (f : A -> result B) (l : list A) :
  forall l', rmap f l = Ok l' <-> Forall2 (fun x y => f x = Ok y) l l'.
Proof.
  induction l as [|x xs IH]; intros l'; simpl; split; intros H.
  - injection H as <-. constructor.
  - inversion H; reflexivity.
  - apply rbind_Ok_inv in H as (y & Hy & H).
    apply rbind_Ok_inv in H as (ys & Hys & H).
    injection H as <-. constructor; [exact Hy | apply IH; exact Hys].
  - inversion H as [|? y ? ys Hy Hys]; subst.
    rewrite Hy; simpl. apply IH in Hys. rewrite Hys; reflexivity.
Qed.

Lemma rmap_total {A B} (f : A -> result B) (l : list A) :
  Forall (fun x => exists y, f x = Ok y) l -> exists l', rmap f l = Ok l'.
Proof.
  induction 1 as [|x xs [y Hy] _ [ys Hys]]; simpl.
  - exists []; reflexivity.
  - exists (y :: ys). rewrite Hy; simpl. rewrite Hys; reflexivity.
Qed.

Lemma rmap_length {A B} (f : A -> result B) (l : list A) (l' : list B) :
  rmap f l = Ok l' -> List.length l' = List.length l.
Proof.
  intros H. apply rmap_Forall2 in H. symmetry. eapply Forall2_length; exact H.
Qed.

(** One turn of the loop appends one triple and advances both counters. *)
Lemma json_batch_inv (ov : pyval) (st st' : locals) (batch : pyval) (i : nat) :
  cur_epoch st = Z.of_nat i ->
  cur_batch_id st = (Z.of_nat i + 1)%Z ->
  json_batch ov st batch = Ok st' ->
  exists rows ops,
    py_iter batch = Ok rows /\
    rmap (json_row_op ov) rows = Ok ops /\
    request_list st' = request_list st ++ json_triple i ops /\
    cur_epoch st' = Z.of_nat (S i) /\
    cur_batch_id st' = (Z.of_nat (S i) + 1)%Z.
Proof.
  intros He Hb H. unfold json_batch in H.
  apply rbind_Ok_inv in H as (rows & Hrows & H).
  apply rbind_Ok_inv in H as (ops & Hops & H).
  injection H as <-. exists rows, ops. simpl.
  rewrite He, Hb. repeat split; try assumption; try lia.
  unfold json_triple. rewrite <- !app_assoc. reflexivity.
Qed.


Lemma rfold_json_batch_inv (ov : pyval) (batches : list pyval) :
  forall (st st' : locals) (i : nat),
    cur_epoch st = Z.of_nat i ->
    cur_batch_id st = (Z.of_nat i + 1)%Z ->
    rfold (json_batch ov) batches st = Ok st' ->
    exists rowss payloads,
      rmap py_iter batches = Ok rowss /\
      Forall2 (fun rows ops => rmap (json_row_op ov) rows = Ok ops) rowss payloads /\
      request_list st' = request_list st ++ json_triples i payloads.
Proof.
  induction batches as [|batch rest IH]; intros st st' i He Hb H; simpl in H.
  - injection H as <-. exists [], []. simpl. rewrite app_nil_r.
    repeat split. constructor.
  - apply rbind_Ok_inv in H as (st1 & H1 & H).
    destruct (json_batch_inv _ _ _ _ _ He Hb H1)
      as (rows & ops & Hrows & Hops & Hrl & He1 & Hb1).
    destruct (IH _ _ _ He1 Hb1 H) as (rowss & payloads & Hrs & Hps & Hrl').
    exists (rows :: rowss), (ops :: payloads). simpl.
    rewrite Hrows; simpl. rewrite Hrs; simpl.
    repeat split.
    + constructor; assumption.
    + rewrite Hrl', Hrl, <- app_assoc. reflexivity.
Qed.


(** The request list of a fixture, when there is one: the [start]
    message, then one triple per batch. *)
Lemma json_request_list_inv type prop (sink_input ov : pyval) requests :
  json_request_list type prop sink_input ov = Ok requests ->
  exists rowss payloads,
    fixture_batches sink_input = Ok rowss /\
    Forall2 (fun rows ops => rmap (json_row_op ov) rows = Ok ops) rowss payloads /\
    requests = json_start type prop :: json_triples 0 payloads.
Proof.
  unfold json_request_list, fixture_batches. intros H.
  apply rbind_Ok_inv in H as (batches & Hb & H).
  apply rbind_Ok_inv in H as (st & Hst & H).
  injection H as <-.
  apply (rfold_json_batch_inv _ _ _ _ 0%nat) in Hst as (rowss & payloads & Hrs & Hps & Hrl);
    [ | reflexivity | reflexivity ].
  exists rowss, payloads. rewrite Hb; simpl. repeat split; assumption.
Qed.


(** ** Projections of the triples *)






Lemma payloads_json_triples (i : nat) (payloads : list (list RowOp)) :
  map payload_row_ops (writes (json_triples i payloads)) = payloads.
Proof.
  revert i; induction payloads as [|ops rest IH]; intros i; simpl;
    [reflexivity | f_equal; apply IH].
Qed.

Lemma format_json_triples (i : nat) (payloads : list (list RowOp)) :
  forallb (fun r => match r with
                    | write w => payload_matches JSON w
                    | _ => true
                    end) (json_triples i payloads) = true.
Proof.
  revert i; induction payloads as [|ops rest IH]; intros i; simpl;
    [reflexivity | apply IH].
Qed.

Lemma all_row_ops_json_triples (i : nat) (payloads : list (list RowOp)) :
  all_row_ops (json_triples i payloads) = List.concat payloads.
Proof.
  unfold all_row_ops. rewrite flat_map_concat_map, payloads_json_triples.
  reflexivity.
Qed.

(** ** One row *)

Lemma RowOp_new_inv (v : pyval) (l : string) (op : RowOp) :
  RowOp_new v l = Ok op -> op_type_value v = Ok (op_type op) /\ line op = l.
Proof.
  unfold RowOp_new. intros H.
  apply rbind_Ok_inv in H as (n & Hn & H). injection H as <-.
  split; [exact Hn | reflexivity].
Qed.

Lemma json_row_op_line (ov row : pyval) (op : RowOp) :
  json_row_op ov row = Ok op ->
  exists l, py_getitem row "line" = Ok l /\ line op = py_str l.
Proof.
  unfold json_row_op. intros H.
  apply rbind_Ok_inv in H as (o & _ & H).
  apply rbind_Ok_inv in H as (l & Hl & H).
  apply RowOp_new_inv in H as [_ H].
  exists l. split; [exact Hl | exact H].
Qed.

Lemma json_row_op_override (ov row : pyval) (op : RowOp) :
  py_ne ov (PyBool false) = true ->
  json_row_op ov row = Ok op -> op_type_value ov = Ok (op_type op).
Proof.
  unfold json_row_op. intros Hne H. rewrite Hne in H. simpl in H.
  apply rbind_Ok_inv in H as (l & _ & H).
  apply RowOp_new_inv in H as [H _]. exact H.
Qed.

Lemma json_row_op_own (ov row : pyval) (op : RowOp) :
  py_ne ov (PyBool false) = false ->
  json_row_op ov row = Ok op ->
  exists v, py_getitem row "op_type" = Ok v /\ op_type_value v = Ok (op_type op).
Proof.
  unfold json_row_op. intros Hne H. rewrite Hne in H.
  apply rbind_Ok_inv in H as (o & Ho & H).
  apply rbind_Ok_inv in H as (l & _ & H).
  apply RowOp_new_inv in H as [H _].
  exists o. split; [exact Ho | exact H].
Qed.

Lemma op_type_value_int (n m : Z) : op_type_value (PyInt n) = Ok m -> m = n.
Proof.
  simpl. destruct (in_int32 n); [|discriminate].
  intros H. injection H as <-. reflexivity.
Qed.

Lemma op_type_value_int_range (n m : Z) :
  op_type_value (PyInt n) = Ok m -> (- 2 ^ 31 <= n < 2 ^ 31)%Z.
Proof.
  simpl. destruct (in_int32 n) eqn:Hn; [|discriminate]. intros _.
  unfold in_int32 in Hn. apply andb_true_iff in Hn as [Hlo Hhi].
  apply Z.leb_le in Hlo. apply Z.ltb_lt in Hhi. split; assumption.
Qed.


Lemma Forall2_concat {A B} (R : A -> B -> Prop) (ll : list (list A)) (ll' : list (list B)) :
  Forall2 (Forall2 R) ll ll' -> Forall2 R (List.concat ll) (List.concat ll').
Proof.
  induction 1 as [|l l' ll ll' H _ IH]; simpl.
  - constructor.
  - apply Forall2_app; assumption.
Qed.

Lemma Forall2_mono {A B} (R R' : A -> B -> Prop) (l : list A) (l' : list B) :
  (forall a b, R a b -> R' a b) -> Forall2 R l l' -> Forall2 R' l l'.
Proof. intros HR; induction 1; constructor; auto. Qed.

Lemma Forall2_Forall_r {A B} (R : A -> B -> Prop) (P : B -> Prop) (l : list A) (l' : list B) :
  (forall a b, R a b -> P b) -> Forall2 R l l' -> Forall P l'.
Proof. intros HR; induction 1; constructor; eauto. Qed.


(* ================================================================== *)
(** * Facts about the response loop *)
(* ================================================================== *)

(** [exit] ends everything that follows, and no handler of the driver
    stops it. *)
Lemma exit_passes_bind {A B} (m : M A) (f : A -> M B) (w w' : world) (code : Z) :
  m w = (Exit code, w') -> bind m f w = (Exit code, w').
Proof. intros H. unfold bind. rewrite H. reflexivity. Qed.

Lemma exit_passes_try_except {A} (m : M A) (h : pyexn -> M A) (w w' : world) (code : Z) :
  m w = (Exit code, w') -> try_except m h w = (Exit code, w').
Proof. intros H. unfold try_except. rewrite H. reflexivity. Qed.

Lemma drain_nil (w : world) : drain [] w = (Return tt, w).
Proof. reflexivity. Qed.

(** A request whose response comes: two lines, one step of the iterator. *)
Lemma drain_yield req requests r rest (w : world) :
  response_iter w = Yield r :: rest ->
  drain (req :: requests) w
  = drain requests
      {| stdout := stdout w ++ [ [PStr "REQUEST"; PReq req];
                                 [PStr "RESPONSE OK:"; PResp r] ];
         response_iter := rest |}.
Proof.
  intros H. unfold drain. simpl. unfold bind, try_except, print, py_next. simpl.
  rewrite H. simpl. rewrite <- app_assoc. reflexivity.
Qed.

(** A request whose response does not come: the failure line, [exit(1)],
    and the rest of the requests is not looked at. *)
Lemma drain_failure req requests tail e (w : world) :
  response_iter w = tail ->
  failure tail = Some e ->
  drain (req :: requests) w
  = (Exit 1,
     {| stdout := stdout w ++ [ [PStr "REQUEST"; PReq req];
                                [PStr "Integration test failed: "; PExn e] ];
        response_iter := tl tail |}).
Proof.
  intros H Hf. unfold drain. simpl. unfold bind, try_except, print, py_next, exit. simpl.
  rewrite H. destruct tail as [|[r|e0] rest]; simpl in *.
  - injection Hf as <-. simpl. rewrite <- app_assoc. subst. reflexivity.
  - discriminate Hf.
  - destruct (is_Exception e0) eqn:He0; [|discriminate Hf].
    injection Hf as <-. simpl. rewrite <- app_assoc. reflexivity.
Qed.

Lemma drain_fails requests :
  forall (rs : list SinkResponse) tail e (w : world),
    response_iter w = map Yield rs ++ tail ->
    List.length rs < List.length requests ->
    failure tail = Some e ->
    drain requests w
    = (Exit 1, {| stdout := stdout w ++ failed_log requests rs e;
                  response_iter := tl tail |}).
Proof.
  induction requests as [|req requests IH]; intros rs tail e w Hw Hlen Hf.
  - simpl in Hlen. lia.
  - destruct rs as [|r rs]; simpl in Hw.
    + rewrite (drain_failure req requests tail e w Hw Hf). reflexivity.
    + rewrite (drain_yield req requests r _ w Hw).
      rewrite (IH rs tail e); [ | reflexivity | simpl in Hlen; lia | exact Hf ].
      unfold failed_log. simpl. rewrite <- app_assoc. reflexivity.
Qed.

(** With a response for every request the loop ends normally. *)
Lemma drain_completes requests :
  forall (rs : list SinkResponse) rest (w : world),
    response_iter w = map Yield rs ++ rest ->
    List.length rs = List.length requests ->
    drain requests w
    = (Return tt, {| stdout := stdout w ++ ok_lines requests rs;
                     response_iter := rest |}).
Proof.
  induction requests as [|req requests IH]; intros rs rest w Hw Hlen.
  - destruct rs; [|discriminate Hlen]. simpl in *. rewrite app_nil_r.
    destruct w; simpl in *; subst; reflexivity.
  - destruct rs as [|r rs]; [discriminate Hlen|]. simpl in Hw.
    rewrite (drain_yield req requests r _ w Hw).
    rewrite (IH rs rest); [ | reflexivity | simpl in Hlen; lia ].
    simpl. rewrite <- app_assoc. reflexivity.
Qed.

(* ================================================================== *)
(** * Facts about the validator *)
(* ================================================================== *)

(** A loop whose turns all pass without a trace passes without a trace. *)
Lemma for_each_pass {A} (l : list A) (body : A -> M unit) (w : world) :
  (forall x, In x l -> body x w = (Return tt, w)) ->
  for_each l body w = (Return tt, w).
Proof.
  induction l as [|x xs IH]; intros H; simpl.
  - reflexivity.
  - unfold bind. rewrite (H x (or_introl eq_refl)).
    apply IH. intros y Hy. apply H. right; exact Hy.
Qed.

(** A loop stops at the first turn that exits. *)
Lemma for_each_stop {A} (l1 l2 : list A) (x : A) (body : A -> M unit)
    (w w' : world) (code : Z) :
  (forall y, In y l1 -> body y w = (Return tt, w)) ->
  body x w = (Exit code, w') ->
  for_each (l1 ++ x :: l2) body w = (Exit code, w').
Proof.
  induction l1 as [|y ys IH]; intros H Hx; simpl.
  - unfold bind. rewrite Hx. reflexivity.
  - unfold bind. rewrite (H y (or_introl eq_refl)).
    apply IH; [|exact Hx]. intros z Hz. apply H. right; exact Hz.
Qed.

Lemma range_split (n i : nat) :
  i < n -> range n = seq 0 i ++ i :: seq (S i) (n - S i).
Proof.
  intros H. unfold range.
  replace n with (i + S (n - S i)) at 1 by lia.
  rewrite seq_app. reflexivity.
Qed.

Lemma in_seq_lt (i j : nat) : In j (seq 0 i) -> j < i.
Proof. intros H. apply in_seq in H. lia. Qed.

Lemma nth_error_in_range {A} (l : list A) (j : nat) :
  j < List.length l -> exists a, nth_error l j = Some a.
Proof.
  intros H. destruct (nth_error l j) as [a|] eqn:Hn.
  - exists a; reflexivity.
  - apply nth_error_None in Hn. lia.
Qed.

(** The turn of column [j], by what the two cells are. *)
Lemma column_turn (i j : nat) (row expected_row : pytuple) a b (w : world) :
  nth_error row j = Some a ->
  nth_error expected_row j = Some b ->
  (a <- at_index row j ;;
   b <- at_index expected_row j ;;
   if py_ne a b
   then (print [PStr (msg_value b i j a)] ;; exit 1)
   else ret tt)%proc w
  = if py_ne a b
    then (Exit 1, logged w [[PStr (msg_value b i j a)]])
    else (Return tt, w).
Proof.
  intros Ha Hb. unfold bind, at_index. rewrite Ha. simpl. rewrite Hb. simpl.
  destruct (py_ne a b); reflexivity.
Qed.

Lemma compare_columns_pass (i : nat) (row expected_row : pytuple) (w : world) :
  row_ok row expected_row ->
  compare_columns i row expected_row w = (Return tt, w).
Proof.
  intros [Hlen Heq]. unfold compare_columns. apply for_each_pass.
  intros j Hj. apply in_seq_lt in Hj.
  destruct (nth_error_in_range row j Hj) as [a Ha].
  destruct (nth_error_in_range expected_row j) as [b Hb]; [lia|].
  rewrite (column_turn i j row expected_row a b w Ha Hb).
  rewrite (Heq j a b Ha Hb). reflexivity.
Qed.

Lemma compare_columns_stop (i j : nat) (row expected_row : pytuple) a b (w : world) :
  List.length row = List.length expected_row ->
  nth_error row j = Some a ->
  nth_error expected_row j = Some b ->
  py_ne a b = true ->
  (forall j' a' b', j' < j ->
     nth_error row j' = Some a' -> nth_error expected_row j' = Some b' ->
     py_ne a' b' = false) ->
  compare_columns i row expected_row w
  = (Exit 1, logged w [[PStr (msg_value b i j a)]]).
Proof.
  intros Hlen Ha Hb Hne Hfirst. unfold compare_columns.
  assert (Hj : j < List.length row) by (apply nth_error_Some; congruence).
  rewrite (range_split _ j Hj). apply for_each_stop.
  - intros j' Hj'. apply in_seq_lt in Hj'.
    destruct (nth_error_in_range row j') as [a' Ha']; [lia|].
    destruct (nth_error_in_range expected_row j') as [b' Hb']; [lia|].
    rewrite (column_turn i j' row expected_row a' b' w Ha' Hb').
    rewrite (Hfirst j' a' b' Hj' Ha' Hb'). reflexivity.
  - rewrite (column_turn i j row expected_row a b w Ha Hb). rewrite Hne. reflexivity.
Qed.

Lemma row_turn_eq (rows expected : list pytuple) (i : nat) row expected_row (w : world) :
  nth_error rows i = Some row ->
  nth_error expected i = Some expected_row ->
  row_turn rows expected i w
  = if Nat.eqb (List.length row) (List.length expected_row)
    then compare_columns i row expected_row w
    else (Exit 1, logged w [[PStr (msg_columns (List.length expected_row) (List.length row))]]).
Proof.
  intros Hr He. unfold row_turn, bind, at_index. rewrite Hr. simpl. rewrite He. simpl.
  destruct (Nat.eqb (List.length row) (List.length expected_row)); reflexivity.
Qed.

Lemma compare_rows_eq (rows expected : list pytuple) (w : world) :
  compare_rows rows expected w
  = if Nat.eqb (List.length rows) (List.length expected)
    then for_each (range (List.length rows)) (row_turn rows expected) w
    else (Exit 1, logged w [[PStr (msg_rows (List.length expected) (List.length rows))]]).
Proof.
  unfold compare_rows, bind.
  destruct (Nat.eqb (List.length rows) (List.length expected)); reflexivity.
Qed.

Lemma row_turn_pass (rows expected : list pytuple) (i : nat) row expected_row (w : world) :
  nth_error rows i = Some row ->
  nth_error expected i = Some expected_row ->
  row_ok row expected_row ->
  row_turn rows expected i w = (Return tt, w).
Proof.
  intros Hr He Hok. rewrite (row_turn_eq _ _ _ _ _ w Hr He).
  destruct Hok as [Hlen Heq]. rewrite Hlen, Nat.eqb_refl.
  apply compare_columns_pass. split; assumption.
Qed.

Lemma compare_rows_reach (rows expected : list pytuple) (i : nat) (w w' : world)
    (code : Z) :
  List.length rows = List.length expected ->
  i < List.length rows ->
  rows_ok_before rows expected i ->
  row_turn rows expected i w = (Exit code, w') ->
  compare_rows rows expected w = (Exit code, w').
Proof.
  intros Hlen Hi Hbefore Hturn. rewrite compare_rows_eq, Hlen, Nat.eqb_refl.
  rewrite <- Hlen. rewrite (range_split _ i Hi). apply for_each_stop; [|exact Hturn].
  intros i' Hi'. apply in_seq_lt in Hi'.
  destruct (nth_error_in_range rows i') as [row Hr]; [lia|].
  destruct (nth_error_in_range expected i') as [erow He]; [lia|].
  apply (row_turn_pass _ _ _ _ _ w Hr He). apply (Hbefore i' row erow Hi' Hr He).
Qed.

Lemma compare_rows_count (rows expected : list pytuple) (w : world) :
  List.length rows <> List.length expected ->
  compare_rows rows expected w
  = (Exit 1, logged w [[PStr (msg_rows (List.length expected) (List.length rows))]]).
Proof.
  intros H. rewrite compare_rows_eq. apply Nat.eqb_neq in H. rewrite H. reflexivity.
Qed.

(** The first row with another number of columns, the rows before it
    agreeing in full. *)
Lemma compare_rows_columns (rows expected : list pytuple) (i : nat) row expected_row
    (w : world) :
  List.length rows = List.length expected ->
  nth_error rows i = Some row ->
  nth_error expected i = Some expected_row ->
  List.length row <> List.length expected_row ->
  rows_ok_before rows expected i ->
  compare_rows rows expected w
  = (Exit 1, logged w [[PStr (msg_columns (List.length expected_row) (List.length row))]]).
Proof.
  intros Hlen Hr He Hne Hbefore.
  apply (compare_rows_reach rows expected i); try assumption.
  - apply nth_error_Some; congruence.
  - rewrite (row_turn_eq _ _ _ _ _ w Hr He). apply Nat.eqb_neq in Hne.
    rewrite Hne. reflexivity.
Qed.

(** The first cell that differs, in row-major order. *)
Lemma compare_rows_value (rows expected : list pytuple) (i j : nat) row expected_row a b
    (w : world) :
  List.length rows = List.length expected ->
  nth_error rows i = Some row ->
  nth_error expected i = Some expected_row ->
  List.length row = List.length expected_row ->
  nth_error row j = Some a ->
  nth_error expected_row j = Some b ->
  py_ne a b = true ->
  rows_ok_before rows expected i ->
  (forall j' a' b', j' < j ->
     nth_error row j' = Some a' -> nth_error expected_row j' = Some b' ->
     py_ne a' b' = false) ->
  compare_rows rows expected w
  = (Exit 1, logged w [[PStr (msg_value b i j a)]]).
Proof.
  intros Hlen Hr He Hcols Ha Hb Hne Hbefore Hfirst.
  apply (compare_rows_reach rows expected i); try assumption.
  - apply nth_error_Some; congruence.
  - rewrite (row_turn_eq _ _ _ _ _ w Hr He). rewrite Hcols, Nat.eqb_refl.
    apply compare_columns_stop; assumption.
Qed.

Lemma compare_rows_pass (rows expected : list pytuple) (w : world) :
  List.length rows = List.length expected ->
  rows_ok_before rows expected (List.length rows) ->
  compare_rows rows expected w = (Return tt, w).
Proof.
  intros Hlen Hall. rewrite compare_rows_eq, Hlen, Nat.eqb_refl. rewrite <- Hlen.
  apply for_each_pass. intros i Hi. apply in_seq_lt in Hi.
  destruct (nth_error_in_range rows i) as [row Hr]; [lia|].
  destruct (nth_error_in_range expected i) as [erow He]; [lia|].
  apply (row_turn_pass _ _ _ _ _ w Hr He). apply (Hall i row erow Hi Hr He).
Qed.

(** ** The expected rows *)

Lemma Forall2_compose {A B C} (R : A -> B -> Prop) (S : B -> C -> Prop)
    (l1 : list A) (l2 : list B) (l3 : list C) :
  Forall2 R l1 l2 -> Forall2 S l2 l3 ->
  Forall2 (fun a c => exists b, R a b /\ S b c) l1 l3.
Proof.
  intros H; revert l3; induction H as [|a b l1 l2 Hab _ IH]; intros l3 H3;
    inversion H3; subst; constructor; eauto.
Qed.

Lemma rmap_app {A B} (f : A -> result B) (l1 l2 : list A) l1' l2' :
  rmap f l1 = Ok l1' -> rmap f l2 = Ok l2' -> rmap f (l1 ++ l2) = Ok (l1' ++ l2').
Proof.
  intros H1 H2. apply rmap_Forall2. apply Forall2_app; apply rmap_Forall2; assumption.
Qed.

Lemma row_values_inv (sink_input : pyval) (values : list (list pyval)) :
  row_values sink_input = Ok values ->
  exists rowss,
    fixture_batches sink_input = Ok rowss /\
    Forall2 (fun row vals => py_values row = Ok vals) (List.concat rowss) values.
Proof.
  unfold row_values, fixture_batches. intros H.
  apply rbind_Ok_inv in H as (batches & Hb & H).
  apply rbind_Ok_inv in H as (per_batch & Hpb & H).
  injection H as <-. rewrite Hb. simpl.
  apply rmap_Forall2 in Hpb.
  assert (Hex : exists rowss,
             rmap py_iter batches = Ok rowss /\
             Forall2 (Forall2 (fun row vals => py_values row = Ok vals)) rowss per_batch).
  { clear Hb. induction Hpb as [|batch vs batches per_batch Hvs _ IH].
    - exists []. split; [reflexivity | constructor].
    - destruct IH as (rowss & Hrs & Hall).
      apply rbind_Ok_inv in Hvs as (rows & Hrows & Hvs).
      exists (rows :: rowss). simpl. rewrite Hrows. simpl. rewrite Hrs. simpl.
      split; [reflexivity|]. constructor; [|exact Hall].
      apply rmap_Forall2. exact Hvs. }
  destruct Hex as (rowss & Hrs & Hall). exists rowss. split; [exact Hrs|].
  apply Forall2_concat. exact Hall.
Qed.

Lemma convert_item_inv (item : list pyval) (t : pytuple) :
  convert_item item = Ok t ->
  exists x id nm,
    nth_error item 1 = Some x /\
    py_getitem x "id" = Ok id /\
    py_getitem x "name" = Ok nm /\
    t = [id; nm].
Proof.
  unfold convert_item, py_index. intros H.
  destruct (nth_error item 1) as [x|] eqn:Hx; [|discriminate H]. simpl in H.
  apply rbind_Ok_inv in H as (id & Hid & H).
  apply rbind_Ok_inv in H as (nm & Hnm & H).
  injection H as <-. exists x, id, nm. repeat split; assumption.
Qed.

Lemma expected_rows_inv (sink_input : pyval) (expected : list pytuple) :
  expected_rows sink_input = Ok expected ->
  exists rowss,
    fixture_batches sink_input = Ok rowss /\
    Forall2 tuple_of_row (List.concat rowss) expected.
Proof.
  unfold expected_rows, convert. intros H.
  apply rbind_Ok_inv in H as (values & Hv & Hc).
  apply row_values_inv in Hv as (rowss & Hrs & Hvals).
  exists rowss. split; [exact Hrs|].
  apply rmap_Forall2 in Hc.
  eapply Forall2_mono; [|exact (Forall2_compose _ _ _ _ _ Hvals Hc)].
  intros row t (vals & Hvs & Ht). simpl in Ht.
  apply convert_item_inv in Ht as (x & id & nm & Hx & Hid & Hnm & ->).
  exists vals, x, id, nm. repeat split; assumption.
Qed.

Lemma expected_rows_pairs (sink_input : pyval) (expected : list pytuple) :
  expected_rows sink_input = Ok expected ->
  Forall (fun t => List.length t = 2) expected.
Proof.
  intros H. apply expected_rows_inv in H as (rowss & _ & H).
  eapply Forall2_Forall_r; [|exact H].
  intros row t (vals & x & id & nm & _ & _ & _ & _ & ->). reflexivity.
Qed.

Lemma jdbc_row_converts (row : pyval) :
  jdbc_row row = true ->
  exists vals t, py_values row = Ok vals /\ convert_item vals = Ok t.
Proof.
  destruct row as [| | | | |l|d]; unfold jdbc_row; try discriminate.
  destruct (nth_error (map snd d) 1) as [x|] eqn:Hx; [|discriminate].
  destruct x as [| | | | |l|fields]; try discriminate.
  destruct (lookup "id" fields) as [id|] eqn:Hid; [|discriminate].
  destruct (lookup "name" fields) as [nm|] eqn:Hnm; [|discriminate].
  intros _. exists (map snd d), [id; nm]. split; [reflexivity|].
  unfold convert_item, py_index. rewrite Hx. simpl. rewrite Hid. simpl.
  rewrite Hnm. reflexivity.
Qed.

Lemma jdbc_fixture_expected (sink_input : pyval) :
  jdbc_fixture sink_input = true ->
  exists expected, expected_rows sink_input = Ok expected.
Proof.
  destruct sink_input as [| | | | |batches|d]; simpl; try discriminate.
  intros Hv. unfold expected_rows, row_values, convert. simpl.
  assert (Hex : exists per_batch expected,
             rmap (fun batch => (rows <- py_iter batch ;; rmap py_values rows)%result)
                  batches = Ok per_batch /\
             rmap convert_item (List.concat per_batch) = Ok expected).
  { induction batches as [|batch rest IH]; simpl in *.
    - exists [], []. split; reflexivity.
    - apply andb_true_iff in Hv as [Hb Hrest].
      destruct (IH Hrest) as (per_batch & expected & Hpb & Hexp).
      destruct batch as [| | | | |rows|d]; try discriminate. simpl.
      assert (Hrows : exists vs ts,
                 rmap py_values rows = Ok vs /\ rmap convert_item vs = Ok ts).
      { clear - Hb. induction rows as [|row rows IHr]; simpl in *.
        - exists [], []. split; reflexivity.
        - apply andb_true_iff in Hb as [Hrow Hrows].
          destruct (IHr Hrows) as (vs & ts & Hvs & Hts).
          destruct (jdbc_row_converts row Hrow) as (vals & t & Hvals & Ht).
          exists (vals :: vs), (t :: ts). rewrite Hvals. simpl. rewrite Hvs. simpl.
          rewrite Ht. simpl. rewrite Hts. split; reflexivity. }
      destruct Hrows as (vs & ts & Hvs & Hts).
      exists (vs :: per_batch), (ts ++ expected). rewrite Hvs. simpl.
      rewrite Hpb. simpl. split; [reflexivity|].
      apply rmap_app; assumption. }
  destruct Hex as (per_batch & expected & Hpb & Hexp).
  exists expected. rewrite Hpb. simpl. exact Hexp.
Qed.

Lemma Forall2_map_r {A B C} (R : A -> C -> Prop) (f : B -> C) (l : list A) (l' : list B) :
  Forall2 R l (map f l') -> Forall2 (fun a b => R a (f b)) l l'.
Proof.
  revert l; induction l' as [|b l' IH]; intros l H; inversion H; subst;
    constructor; auto.
Qed.

(** The [RowOp]s of the request list, batch by batch, against the rows. *)
Lemma request_list_row_ops type prop (sink_input ov : pyval) requests :
  json_request_list type prop sink_input ov = Ok requests ->
  exists rowss,
    fixture_batches sink_input = Ok rowss /\
    Forall2 (fun rows w =>
               Forall2 (fun row op => json_row_op ov row = Ok op) rows (payload_row_ops w))
            rowss (writes requests) /\
    Forall2 (fun row op => json_row_op ov row = Ok op)
            (List.concat rowss) (all_row_ops requests).
Proof.
  intros H.
  apply json_request_list_inv in H as (rowss & payloads & Hrs & Hps & ->).
  exists rowss. split; [exact Hrs|].
  assert (Hps' : Forall2 (Forall2 (fun row op => json_row_op ov row = Ok op)) rowss payloads).
  { eapply Forall2_mono; [|exact Hps]. intros rows ops Hops.
    apply rmap_Forall2. exact Hops. }
  assert (Hw : writes (json_start type prop :: json_triples 0 payloads)
               = writes (json_triples 0 payloads)) by reflexivity.
  split.
  - apply Forall2_map_r. rewrite Hw, payloads_json_triples. exact Hps'.
  - unfold all_row_ops. rewrite Hw. fold (all_row_ops (json_triples 0 payloads)).
    rewrite all_row_ops_json_triples. apply Forall2_concat. exact Hps'.
Qed.

(* ================================================================== *)
(** * The request list of [test_sink_json] *)
(* ================================================================== *)


(** C3, as the code has it: an [op_overlap] that is not equal to
    [False] decides the [op_type] of every [RowOp], whatever the rows
    say: each has the number the field holds for [op_overlap], which
    is [op_overlap] itself when that is an integer, one of 32 bits
    then, and 0 when it is [None]. *)
Theorem op_overlap_forces_op_type type prop (sink_input op_overlap : pyval) requests :
  py_ne op_overlap (PyBool false) = true ->
  json_request_list type prop sink_input op_overlap = Ok requests ->
  Forall (fun op => op_type_value op_overlap = Ok (op_type op)) (all_row_ops requests) /\
  (forall n, op_overlap = PyInt n ->
             Forall (fun op => op_type op = n /\ (- 2 ^ 31 <= n < 2 ^ 31)%Z)
                    (all_row_ops requests)) /\
  (op_overlap = PyNone ->
   Forall (fun op => op_type op = 0%Z) (all_row_ops requests)).
Proof.
  intros Hne H.
  apply request_list_row_ops in H as (rowss & _ & _ & Hops).
  assert (Hall : Forall (fun op => op_type_value op_overlap = Ok (op_type op))
                        (all_row_ops requests)).
  { eapply Forall2_Forall_r; [|exact Hops].
    intros row op Hop. exact (json_row_op_override _ _ _ Hne Hop). }
  split; [exact Hall|]. split.
  - intros n ->. eapply Forall_impl; [|exact Hall].
    intros op Hop. split;
      [exact (op_type_value_int _ _ Hop) | exact (op_type_value_int_range _ _ Hop)].
  - intros ->. eapply Forall_impl; [|exact Hall].
    intros op Hop. simpl in Hop. injection Hop as <-. reflexivity.
Qed.

(** C9, as the code has it: the override is taken only when
    [op_overlap != False] holds.  With [op_overlap] equal to [False]
    (so for [False] and for [0]) every [RowOp] takes its [op_type] from
    its own row; otherwise every [RowOp] takes it from [op_overlap].
    What it takes is the number the field holds for the value: the
    value itself when it is an integer, 0 when it is [None]. *)
Theorem op_overlap_guard type prop (sink_input op_overlap : pyval) requests :
  json_request_list type prop sink_input op_overlap = Ok requests ->
  py_eq (PyBool false) (PyBool false) = true /\
  py_eq (PyInt 0) (PyBool false) = true /\
  exists rowss,
    fixture_batches sink_input = Ok rowss /\
    (py_eq op_overlap (PyBool false) = true ->
     Forall2 (fun row op =>
                exists v, py_getitem row "op_type" = Ok v /\
                          op_type_value v = Ok (op_type op) /\
                          (forall n, v = PyInt n -> op_type op = n) /\
                          (v = PyNone -> op_type op = 0%Z))
             (List.concat rowss) (all_row_ops requests)) /\
    (py_eq op_overlap (PyBool false) = false ->
     Forall2 (fun row op =>
                op_type_value op_overlap = Ok (op_type op) /\
                (forall n, op_overlap = PyInt n -> op_type op = n) /\
                (op_overlap = PyNone -> op_type op = 0%Z))
             (List.concat rowss) (all_row_ops requests)).
Proof.
  intros H. split; [reflexivity|]. split; [reflexivity|].
  apply request_list_row_ops in H as (rowss & Hrs & _ & Hops).
  assert (Hread : forall v m, op_type_value v = Ok m ->
                              (forall n, v = PyInt n -> m = n) /\ (v = PyNone -> m = 0%Z)).
  { intros v m Hv. split.
    - intros n ->. exact (op_type_value_int _ _ Hv).
    - intros ->. simpl in Hv. injection Hv as <-. reflexivity. }
  exists rowss. split; [exact Hrs|]. split; intros Heq.
  - eapply Forall2_mono; [|exact Hops]. intros row op Hop.
    destruct (json_row_op_own op_overlap row op) as (v & Hv & Hfield); [|exact Hop|].
    { unfold py_ne. rewrite Heq. reflexivity. }
    exists v. split; [exact Hv|]. split; [exact Hfield|]. exact (Hread v _ Hfield).
  - eapply Forall2_mono; [|exact Hops]. intros row op Hop.
    assert (Hfield : op_type_value op_overlap = Ok (op_type op)).
    { apply (json_row_op_override op_overlap row); [|exact Hop].
      unfold py_ne. rewrite Heq. reflexivity. }
    split; [exact Hfield|]. exact (Hread op_overlap _ Hfield).
Qed.

(** C10: the [line] of every [RowOp] is [str(row['line'])] of its row,
    and the [RowOp]s of a batch stand in the order of the batch's rows. *)
Theorem row_op_line_is_str type prop (sink_input op_overlap : pyval) requests :
  json_request_list type prop sink_input op_overlap = Ok requests ->
  exists rowss,
    fixture_batches sink_input = Ok rowss /\
    Forall2 (fun rows w =>
               Forall2 (fun row op =>
                          exists l, py_getitem row "line" = Ok l /\ line op = py_str l)
                       rows (payload_row_ops w))
            rowss (writes requests).
Proof.
  intros H.
  apply request_list_row_ops in H as (rowss & Hrs & Hw & _).
  exists rowss. split; [exact Hrs|].
  eapply Forall2_mono; [|exact Hw]. intros rows w Hrows.
  eapply Forall2_mono; [|exact Hrows]. intros row op Hop.
  exact (json_row_op_line _ _ _ Hop).
Qed.

(* ================================================================== *)
(** * The request list of [test_sink_stream_chunk] *)
(* ================================================================== *)

(** C4: whatever the bytes of the fixture, the request list is [start],
    then the one triple [start_epoch(0)], [write(batch_id = 1, epoch = 0)],
    [sync(0)], and the [write] carries the bytes as they were read. *)
Theorem test_sink_stream_chunk_single_triple type prop (input_file : string)
    (schema : TableSchema) (data : list Byte.byte) (w : world) :
  binary_file E input_file = Ok data ->
  let requests :=
    [ start {| format := STREAM_CHUNK;
               sink_config := {| connector_type := type;
                                 properties := prop;
                                 table_schema := schema |} |};
      start_epoch {| start_epoch_epoch := 0 |};
      write {| json_payload := None;
               stream_chunk_payload := Some {| binary_data := data |};
               batch_id := 1;
               epoch := 0 |};
      sync {| sync_epoch := 0 |} ] in
  stream_chunk_request_list type prop data schema = requests /\
  test_sink_stream_chunk E type prop input_file schema w
  = drain requests {| stdout := stdout w; response_iter := service E requests |}.
Proof.
  intros Hf requests. split; [reflexivity|].
  unfold test_sink_stream_chunk, load_binary_input, bind, lift, SinkStream.
  rewrite Hf. reflexivity.
Qed.

(* ================================================================== *)
(** * Format and payload *)
(* ================================================================== *)

Lemma session_format_ok_writes (requests : list SinkStreamRequest) :
  session_format_ok requests = true ->
  Forall (fun w => json_payload w = None \/ stream_chunk_payload w = None)
         (writes requests).
Proof.
  destruct requests as [|[s| | |] rest]; simpl; try discriminate.
  intros H. induction rest as [|r rest IH]; simpl in *.
  - constructor.
  - apply andb_true_iff in H as [Hr Hrest].
    destruct r as [s'|e|w|y]; simpl; auto.
    constructor; [|auto].
    unfold payload_matches in Hr.
    destruct (format s), (json_payload w), (stream_chunk_payload w);
      try discriminate; auto.
Qed.

(** C8: in a session built by either builder the payload of every
    [write] is of the kind the [start] message names, and no [write]
    carries both kinds. *)
Theorem session_format_matches (requests : list SinkStreamRequest) :
  built_by_harness requests ->
  session_format_ok requests = true /\
  Forall (fun w => json_payload w = None \/ stream_chunk_payload w = None)
         (writes requests).
Proof.
  intros H.
  assert (Hok : session_format_ok requests = true).
  { destruct H as [(type & prop & sink_input & ov & H) | (type & prop & data & schema & ->)].
    - apply json_request_list_inv in H as (rowss & payloads & _ & _ & ->).
      simpl. apply format_json_triples.
    - reflexivity. }
  split; [exact Hok | exact (session_format_ok_writes requests Hok)].
Qed.

(* ================================================================== *)
(** * The response loop in the two tests *)
(* ================================================================== *)

(** C2: when the service gives the responses [rs], fewer than there are
    requests, and the next call of [next] raises (the stream is at its
    end or throws an [Exception]), both tests print the failure and end
    by [exit(1)]: the request that got no response is the last one
    printed, [next] is not called again, and no later request is looked
    at. *)
Theorem response_loop_aborts (requests : list SinkStreamRequest)
    (rs : list SinkResponse) (tail : list event) (e : pyexn) :
  service E requests = map Yield rs ++ tail ->
  List.length rs < List.length requests ->
  failure tail = Some e ->
  (forall type prop input_file op_overlap sink_input (w : world),
      json_file E input_file = Ok sink_input ->
      json_request_list type prop sink_input op_overlap = Ok requests ->
      test_sink_json E type prop input_file op_overlap w
      = (Exit 1, {| stdout := stdout w ++ failed_log requests rs e;
                    response_iter := tl tail |})) /\
  (forall type prop input_file schema data (w : world),
      binary_file E input_file = Ok data ->
      stream_chunk_request_list type prop data schema = requests ->
      test_sink_stream_chunk E type prop input_file schema w
      = (Exit 1, {| stdout := stdout w ++ failed_log requests rs e;
                    response_iter := tl tail |})).
Proof.
  intros Hs Hlen Hf. split.
  - intros type prop input_file ov sink_input w Hfile Hreq.
    unfold test_sink_json, load_input, bind, lift, SinkStream.
    rewrite Hfile, Hreq.
    rewrite (drain_fails requests rs tail e); [reflexivity | exact Hs | exact Hlen | exact Hf].
  - intros type prop input_file schema data w Hfile Hreq.
    unfold test_sink_stream_chunk, load_binary_input, bind, lift, SinkStream.
    rewrite Hfile, Hreq.
    rewrite (drain_fails requests rs tail e); [reflexivity | exact Hs | exact Hlen | exact Hf].
Qed.

(* ================================================================== *)
(** * [validate_jdbc_sink] *)
(* ================================================================== *)

Lemma validate_jdbc_sink_eq (input_file : string) rows sink_input expected (w : world) :
  test_table E = Ok rows ->
  json_file E input_file = Ok sink_input ->
  expected_rows sink_input = Ok expected ->
  validate_jdbc_sink E input_file w = compare_rows rows expected w.
Proof.
  intros Ht Hf He. unfold validate_jdbc_sink, load_input, bind, lift.
  rewrite Ht, Hf, He. reflexivity.
Qed.

(** A session that exits leaves [validate_jdbc_sink] unrun. *)
Lemma test_jdbc_sink_exit (input_file input_binary_file : string) (use_json : bool)
    (w w' : world) (code : Z) :
  (if use_json
   then test_sink_json E "jdbc" jdbc_prop input_file (PyInt 1)
   else test_sink_stream_chunk E "jdbc" jdbc_prop input_binary_file make_mock_schema) w
  = (Exit code, w') ->
  test_jdbc_sink E input_file input_binary_file use_json w = (Exit code, w').
Proof. intros H. unfold test_jdbc_sink. apply exit_passes_bind. exact H. Qed.

(** C5: the rows of the store are compared with the expected rows in
    order, index by index.  Other row count: both counts are printed
    and the process exits with 1.  Else, at the first row with another
    number of columns: both numbers.  Else, at the first cell (in row,
    then column order) that differs: expected value, row, column and
    value found.  The one line printed is spelled out in each case,
    the numbers in decimal and the values as [str] renders them.
    Nothing is reordered or looked up by content; with no difference
    the validator returns.  The rows of the store are those of one
    [SELECT], which all have as many columns as each other. *)
Theorem validate_jdbc_sink_strict (input_file : string) (rows : list pytuple)
    (sink_input : pyval) (expected : list pytuple) (w : world) :
  test_table E = Ok rows ->
  json_file E input_file = Ok sink_input ->
  expected_rows sink_input = Ok expected ->
  (List.length rows <> List.length expected ->
   validate_jdbc_sink E input_file w
   = (Exit 1,
      logged w [[PStr ("Integration test failed: expected "
                       ++ int_repr (Z.of_nat (List.length expected))
                       ++ " rows, but got "
                       ++ int_repr (Z.of_nat (List.length rows)))]]))
  /\
  (List.length rows = List.length expected ->
   rectangular rows ->
   forall i row expected_row,
     nth_error rows i = Some row ->
     nth_error expected i = Some expected_row ->
     List.length row <> List.length expected_row ->
     (forall i' row' expected_row',
         i' < i ->
         nth_error rows i' = Some row' -> nth_error expected i' = Some expected_row' ->
         List.length row' = List.length expected_row') ->
     validate_jdbc_sink E input_file w
     = (Exit 1,
        logged w [[PStr ("Integration test failed: expected "
                         ++ int_repr (Z.of_nat (List.length expected_row))
                         ++ " columns, but got "
                         ++ int_repr (Z.of_nat (List.length row)))]]))
  /\
  (List.length rows = List.length expected ->
   (forall i row expected_row,
       nth_error rows i = Some row -> nth_error expected i = Some expected_row ->
       List.length row = List.length expected_row) ->
   forall i j row expected_row a b,
     nth_error rows i = Some row ->
     nth_error expected i = Some expected_row ->
     nth_error row j = Some a ->
     nth_error expected_row j = Some b ->
     py_ne a b = true ->
     (forall i' j' row' expected_row' a' b',
         i' < i \/ (i' = i /\ j' < j) ->
         nth_error rows i' = Some row' -> nth_error expected i' = Some expected_row' ->
         nth_error row' j' = Some a' -> nth_error expected_row' j' = Some b' ->
         py_ne a' b' = false) ->
     validate_jdbc_sink E input_file w
     = (Exit 1,
        logged w [[PStr ("Integration test failed: expected " ++ py_str b
                         ++ " at row " ++ int_repr (Z.of_nat i)
                         ++ ", column " ++ int_repr (Z.of_nat j)
                         ++ ", but got " ++ py_str a)]]))
  /\
  (List.length rows = List.length expected ->
   rows_ok_before rows expected (List.length rows) ->
   validate_jdbc_sink E input_file w = (Return tt, w)).
Proof.
  intros Ht Hf He.
  rewrite (validate_jdbc_sink_eq input_file rows sink_input expected w Ht Hf He).
  split; [|split; [|split]].
  - apply compare_rows_count.
  - intros Hlen [k Hk] i row erow Hr Her Hne Hfirst.
    assert (Hpairs := expected_rows_pairs _ _ He).
    assert (Hi0 : i = 0).
    { destruct i as [|i]; [reflexivity|]. exfalso.
      destruct (nth_error_in_range rows 0) as [row0 Hr0].
      { assert (S i < List.length rows) by (apply nth_error_Some; congruence). lia. }
      destruct (nth_error_in_range expected 0) as [erow0 He0].
      { assert (S i < List.length rows) by (apply nth_error_Some; congruence). lia. }
      rewrite Forall_forall in Hk, Hpairs.
      apply Hne.
      rewrite (Hk row (nth_error_In _ _ Hr)), <- (Hk row0 (nth_error_In _ _ Hr0)).
      rewrite (Hpairs erow (nth_error_In _ _ Her)), <- (Hpairs erow0 (nth_error_In _ _ He0)).
      apply (Hfirst 0 row0 erow0); [lia | exact Hr0 | exact He0]. }
    subst i. apply (compare_rows_columns rows expected 0 row erow); try assumption.
    intros i' r' e' Hlt. lia.
  - intros Hlen Hcols i j row erow a b Hr Her Ha Hb Hne Hfirst.
    apply (compare_rows_value rows expected i j row erow a b); try assumption.
    + exact (Hcols i row erow Hr Her).
    + intros i' r' e' Hlt Hr' He'. split; [exact (Hcols i' r' e' Hr' He')|].
      intros j' a' b' Ha' Hb'.
      apply (Hfirst i' j' r' e' a' b'); try assumption. left; exact Hlt.
    + intros j' a' b' Hlt Ha' Hb'.
      apply (Hfirst i j' row erow a' b'); try assumption. right; split; [reflexivity | exact Hlt].
  - apply compare_rows_pass.
Qed.

(** C6: the expected rows hold one tuple for each row of the fixture,
    batches flattened in order, each tuple read off its own row; and
    they are the same list whether the session before went out as JSON
    or as a stream chunk. *)
Theorem expected_rows_of_fixture (input_file : string) (sink_input : pyval)
    (expected : list pytuple) :
  json_file E input_file = Ok sink_input ->
  expected_rows sink_input = Ok expected ->
  (exists rowss,
      fixture_batches sink_input = Ok rowss /\
      List.length expected = List.length (List.concat rowss) /\
      Forall2 tuple_of_row (List.concat rowss) expected) /\
  (forall (input_binary_file : string) (use_json : bool) (w w1 : world),
      (if use_json
       then test_sink_json E "jdbc" jdbc_prop input_file (PyInt 1)
       else test_sink_stream_chunk E "jdbc" jdbc_prop input_binary_file make_mock_schema) w
      = (Return tt, w1) ->
      test_jdbc_sink E input_file input_binary_file use_json w
      = (rows <- lift (test_table E) ;; compare_rows rows expected)%proc w1).
Proof.
  intros Hf He. split.
  - destruct (expected_rows_inv _ _ He) as (rowss & Hrs & Hall).
    exists rowss. split; [exact Hrs|]. split; [|exact Hall].
    symmetry. exact (Forall2_length Hall).
  - intros fb use_json w w1 Hsession.
    unfold test_jdbc_sink. unfold bind at 1. rewrite Hsession.
    unfold validate_jdbc_sink, load_input, bind, lift.
    destruct (test_table E) as [rows|e]; [|reflexivity].
    rewrite Hf, He. reflexivity.
Qed.

(* ================================================================== *)
(** * Further properties of the request list *)
(* ================================================================== *)

Lemma Forall2_In_l {A B} (R : A -> B -> Prop) (l : list A) (l' : list B) (a : A) :
  Forall2 R l l' -> In a l -> exists b, R a b.
Proof.
  induction 1 as [|x y l l' Hxy _ IH]; intros Hin; simpl in Hin.
  - contradiction.
  - destruct Hin as [<- | Hin]; [exists y; exact Hxy | exact (IH Hin)].
Qed.

(** One row of the fixture that does not encode, in whatever batch,
    and [test_sink_json] raises with nothing printed and no stream
    opened. *)
Theorem bad_row_sends_nothing type prop (input_file : string)
    (op_overlap sink_input : pyval) (rowss : list (list pyval)) (row : pyval)
    (e0 : pyexn) (w : world) :
  json_file E input_file = Ok sink_input ->
  fixture_batches sink_input = Ok rowss ->
  In row (List.concat rowss) ->
  json_row_op op_overlap row = Err e0 ->
  exists e, test_sink_json E type prop input_file op_overlap w = (Raise e, w).
Proof.
  intros Hf Hrs Hin Hrow.
  unfold test_sink_json, load_input, bind, lift. rewrite Hf.
  destruct (json_request_list type prop sink_input op_overlap) as [requests|e] eqn:Hreq.
  - exfalso.
    apply request_list_row_ops in Hreq as (rowss' & Hrs' & _ & Hops).
    rewrite Hrs in Hrs'. injection Hrs' as <-.
    destruct (Forall2_In_l _ _ _ _ Hops Hin) as [op Hop].
    rewrite Hop in Hrow. discriminate Hrow.
  - exists e. reflexivity.
Qed.

Lemma triples_ok_json_triples (i : nat) (payloads : list (list RowOp)) :
  triples_ok (Z.of_nat i) (json_triples i payloads) = true.
Proof.
  revert i; induction payloads as [|ops rest IH]; intros i; simpl.
  - reflexivity.
  - rewrite !Z.eqb_refl. simpl.
    replace (Z.of_nat i + 1)%Z with (Z.of_nat (S i)) by lia. apply IH.
Qed.

Lemma length_json_triples (i : nat) (payloads : list (list RowOp)) :
  List.length (json_triples i payloads) = 3 * List.length payloads /\
  List.length (writes (json_triples i payloads)) = List.length payloads.
Proof.
  revert i; induction payloads as [|ops rest IH]; intros i; simpl.
  - split; reflexivity.
  - destruct (IH (S i)) as [H1 H2]. rewrite H1, H2. split; lia.
Qed.

(** Every session either builder makes, whatever the fixture, is
    [start] and then triples [start_epoch], [write], [sync] of epochs
    0, 1, 2, ... with batch id one above the epoch: three requests for
    each [write], and one. *)
Theorem built_session_ok (requests : list SinkStreamRequest) :
  built_by_harness requests ->
  session_ok requests = true /\
  List.length requests = 1 + 3 * List.length (writes requests).
Proof.
  intros [(type & prop & sink_input & ov & H) | (type & prop & data & schema & ->)].
  - apply json_request_list_inv in H as (rowss & payloads & _ & _ & ->).
    destruct (length_json_triples 0 payloads) as [H1 H2].
    split.
    + exact (triples_ok_json_triples 0 payloads).
    + change (writes (json_start type prop :: json_triples 0 payloads))
        with (writes (json_triples 0 payloads)).
      simpl. rewrite H1, H2. lia.
  - split; reflexivity.
Qed.

(* ================================================================== *)
(** * Further properties of the response loop *)
(* ================================================================== *)

(** A step of the stream that throws what is no [Exception]: the
    handler does not apply. *)
Lemma drain_throw req requests e rest (w : world) :
  response_iter w = Throw e :: rest ->
  is_Exception e = false ->
  drain (req :: requests) w
  = (Raise e, {| stdout := stdout w ++ [ [PStr "REQUEST"; PReq req] ];
                 response_iter := rest |}).
Proof.
  intros H He. unfold drain. simpl. unfold bind, try_except, print, py_next. simpl.
  rewrite H. simpl. rewrite He. reflexivity.
Qed.

(** What the stream throws and is no [Exception] (an interrupt) leaves
    the loop as it is: the request is printed, no failure line, no
    [exit]. *)
Theorem response_loop_propagates (requests : list SinkStreamRequest) :
  forall (rs : list SinkResponse) (e : pyexn) (rest : list event) (w : world),
    response_iter w = map Yield rs ++ Throw e :: rest ->
    List.length rs < List.length requests ->
    is_Exception e = false ->
    drain requests w
    = (Raise e,
       {| stdout := stdout w ++ ok_lines requests rs ++
                    match nth_error requests (List.length rs) with
                    | Some req => [ [PStr "REQUEST"; PReq req] ]
                    | None => []
                    end;
          response_iter := rest |}).
Proof.
  induction requests as [|req requests IH]; intros rs e rest w Hw Hlen He.
  - simpl in Hlen. lia.
  - destruct rs as [|r rs]; simpl in Hw.
    + rewrite (drain_throw req requests e rest w Hw He). reflexivity.
    + rewrite (drain_yield req requests r _ w Hw).
      rewrite (IH rs e rest); [ | reflexivity | simpl in Hlen; lia | exact He ].
      simpl. rewrite <- app_assoc. reflexivity.
Qed.

(** The loop ends in one of three ways: it returns, it exits with 1,
    or it lets through what is no [Exception].  An [Exception] of the
    stream never leaves it. *)
Theorem response_loop_outcomes (requests : list SinkStreamRequest) (w : world) :
  match fst (drain requests w) with
  | Return _ => True
  | Exit code => code = 1%Z
  | Raise e => is_Exception e = false
  end.
Proof.
  revert w; induction requests as [|req requests IH]; intros w.
  - exact I.
  - destruct (response_iter w) as [|[r|e] rest] eqn:Hw.
    + rewrite (drain_failure req requests [] StopIteration w Hw eq_refl). reflexivity.
    + rewrite (drain_yield req requests r rest w Hw). apply IH.
    + destruct (is_Exception e) eqn:He.
      * rewrite (drain_failure req requests (Throw e :: rest) e w Hw); [reflexivity|].
        simpl. rewrite He. reflexivity.
      * rewrite (drain_throw req requests e rest w Hw He). exact He.
Qed.

Lemma answered_split (n : nat) :
  forall events,
    answered n events = true ->
    events = map Yield (leading_responses (firstn n events)) ++ skipn n events /\
    List.length (leading_responses (firstn n events)) = n.
Proof.
  induction n as [|n IH]; intros events H; simpl in *.
  - split; reflexivity.
  - destruct events as [|[r|e] rest]; try discriminate H.
    destruct (IH rest H) as [H1 H2]. simpl. split; [|lia].
    f_equal. exact H1.
Qed.

(** The loop returns exactly when the stream starts with a response
    for each request; it then has printed two lines for each, and what
    the stream holds beyond them is left unread. *)
Lemma drain_returns_iff (requests : list SinkStreamRequest) (w : world) :
  (fst (drain requests w) = Return tt <->
   answered (List.length requests) (response_iter w) = true) /\
  (answered (List.length requests) (response_iter w) = true ->
   drain requests w
   = (Return tt,
      {| stdout := stdout w ++
                   ok_lines requests
                     (leading_responses (firstn (List.length requests) (response_iter w)));
         response_iter := skipn (List.length requests) (response_iter w) |})).
Proof.
  assert (Hthen : forall w : world,
             answered (List.length requests) (response_iter w) = true ->
             drain requests w
             = (Return tt,
                {| stdout := stdout w ++
                             ok_lines requests
                               (leading_responses
                                  (firstn (List.length requests) (response_iter w)));
                   response_iter := skipn (List.length requests) (response_iter w) |})).
  { intros w0 H. destruct (answered_split _ _ H) as [H1 H2].
    apply drain_completes; [exact H1 | exact H2]. }
  split; [|apply Hthen].
  split.
  - revert w. induction requests as [|req requests IH]; intros w H.
    + reflexivity.
    + simpl. destruct (response_iter w) as [|[r|e] rest] eqn:Hw.
      * rewrite (drain_failure req requests [] StopIteration w Hw eq_refl) in H.
        discriminate H.
      * rewrite (drain_yield req requests r rest w Hw) in H.
        apply IH in H; [exact H|].
        intros w0 H0. destruct (answered_split _ _ H0) as [H1 H2].
        apply drain_completes; [exact H1 | exact H2].
      * destruct (is_Exception e) eqn:He.
        -- rewrite (drain_failure req requests (Throw e :: rest) e w Hw) in H;
             [discriminate H|]. simpl. rewrite He. reflexivity.
        -- rewrite (drain_throw req requests e rest w Hw He) in H. discriminate H.
  - intros H. rewrite (Hthen w H). reflexivity.
Qed.

(* ================================================================== *)
(** * Further properties of the validator *)
(* ================================================================== *)

(** The loop over the columns from [List.length done] on. *)
Lemma columns_loop (i : nat) (rest_r : pytuple) :
  forall (done_r done_e rest_e row expected_row : pytuple) (w : world),
    row = done_r ++ rest_r ->
    expected_row = done_e ++ rest_e ->
    List.length done_r = List.length done_e ->
    List.length rest_r = List.length rest_e ->
    for_each (seq (List.length done_r) (List.length rest_r))
      (fun j =>
         (a <- at_index row j ;;
          b <- at_index expected_row j ;;
          if py_ne a b
          then (print [PStr (msg_value b i j a)] ;; exit 1)
          else ret tt)%proc) w
    = match first_cell_difference i (List.length done_r) rest_r rest_e with
      | None => (Return tt, w)
      | Some m => (Exit 1, logged w [[PStr m]])
      end.
Proof.
  induction rest_r as [|a rest_r IH];
    intros done_r done_e rest_e row erow w Hrow Herow Hdone Hrest.
  - reflexivity.
  - destruct rest_e as [|b rest_e]; [discriminate Hrest|].
    simpl. unfold bind at 1.
    rewrite (column_turn i (List.length done_r) row erow a b w).
    + destruct (py_ne a b); [reflexivity|].
      assert (HS : S (List.length done_r) = List.length (done_r ++ [a])).
      { rewrite length_app. simpl. lia. }
      rewrite HS.
      apply (IH (done_r ++ [a]) (done_e ++ [b]) rest_e).
      * rewrite <- app_assoc. exact Hrow.
      * rewrite <- app_assoc. exact Herow.
      * rewrite !length_app. simpl. lia.
      * simpl in Hrest. lia.
    + subst row. rewrite nth_error_app2 by lia. rewrite Nat.sub_diag. reflexivity.
    + subst erow. rewrite Hdone. rewrite nth_error_app2 by lia.
      rewrite Nat.sub_diag. reflexivity.
Qed.

Lemma compare_columns_first_difference (i : nat) (row expected_row : pytuple) (w : world) :
  List.length row = List.length expected_row ->
  compare_columns i row expected_row w
  = match first_cell_difference i 0 row expected_row with
    | None => (Return tt, w)
    | Some m => (Exit 1, logged w [[PStr m]])
    end.
Proof.
  intros Hlen. unfold compare_columns, range.
  exact (columns_loop i row [] [] expected_row row expected_row w
           eq_refl eq_refl eq_refl Hlen).
Qed.

(** The loop over the rows from [List.length done] on. *)
Lemma rows_loop (rest : list pytuple) :
  forall (done edone erest rows expected : list pytuple) (w : world),
    rows = done ++ rest ->
    expected = edone ++ erest ->
    List.length done = List.length edone ->
    List.length rest = List.length erest ->
    for_each (seq (List.length done) (List.length rest)) (row_turn rows expected) w
    = match first_row_difference (List.length done) rest erest with
      | None => (Return tt, w)
      | Some m => (Exit 1, logged w [[PStr m]])
      end.
Proof.
  induction rest as [|row rest IH];
    intros done edone erest rows expected w Hrows Hexp Hdone Hrest.
  - reflexivity.
  - destruct erest as [|erow erest]; [discriminate Hrest|].
    simpl. unfold bind at 1.
    rewrite (row_turn_eq rows expected (List.length done) row erow w).
    + destruct (Nat.eqb (List.length row) (List.length erow)) eqn:Hcols; simpl;
        [|reflexivity].
      apply Nat.eqb_eq in Hcols.
      rewrite (compare_columns_first_difference _ row erow w Hcols).
      destruct (first_cell_difference (List.length done) 0 row erow); [reflexivity|].
      assert (HS : S (List.length done) = List.length (done ++ [row])).
      { rewrite length_app. simpl. lia. }
      rewrite HS.
      apply (IH (done ++ [row]) (edone ++ [erow]) erest).
      * rewrite <- app_assoc. exact Hrows.
      * rewrite <- app_assoc. exact Hexp.
      * rewrite !length_app. simpl. lia.
      * simpl in Hrest. lia.
    + subst rows. rewrite nth_error_app2 by lia. rewrite Nat.sub_diag. reflexivity.
    + subst expected. rewrite Hdone. rewrite nth_error_app2 by lia.
      rewrite Nat.sub_diag. reflexivity.
Qed.

(** The comparison never raises (no index is out of range): it
    returns with nothing printed, or prints one line and exits with 1,
    and the line is that of the first difference in the order row
    count, then row by row the column count and the cells. *)
Lemma compare_rows_first_difference (rows expected : list pytuple) (w : world) :
  compare_rows rows expected w
  = match first_difference rows expected with
    | None => (Return tt, w)
    | Some m => (Exit 1, logged w [[PStr m]])
    end.
Proof.
  rewrite compare_rows_eq. unfold first_difference, range.
  destruct (Nat.eqb (List.length rows) (List.length expected)) eqn:Hlen; simpl;
    [|reflexivity].
  apply Nat.eqb_eq in Hlen.
  exact (rows_loop rows [] [] expected rows expected w eq_refl eq_refl eq_refl Hlen).
Qed.

Lemma first_cell_difference_None (i : nat) (row : pytuple) :
  forall (j : nat) (expected_row : pytuple),
    List.length row = List.length expected_row ->
    (first_cell_difference i j row expected_row = None <->
     Forall2 (fun a b => py_eq a b = true) row expected_row).
Proof.
  induction row as [|a row IH]; intros j erow Hlen;
    destruct erow as [|b erow]; try discriminate Hlen; simpl.
  - split; [constructor | reflexivity].
  - unfold py_ne. destruct (py_eq a b) eqn:Hab; simpl.
    + rewrite (IH (S j) erow) by (simpl in Hlen; lia).
      split; [constructor; assumption | intros H; inversion H; assumption].
    + split; [discriminate|]. intros H; inversion H; congruence.
Qed.

Lemma first_row_difference_None (rows : list pytuple) :
  forall (i : nat) (expected : list pytuple),
    List.length rows = List.length expected ->
    (first_row_difference i rows expected = None <->
     Forall2 (Forall2 (fun a b => py_eq a b = true)) rows expected).
Proof.
  induction rows as [|row rows IH]; intros i expected Hlen;
    destruct expected as [|erow expected]; try discriminate Hlen; simpl.
  - split; [constructor | reflexivity].
  - destruct (Nat.eqb (List.length row) (List.length erow)) eqn:Hcols; simpl.
    + apply Nat.eqb_eq in Hcols.
      destruct (first_cell_difference i 0 row erow) as [m|] eqn:Hcell.
      * split; [discriminate|]. intros H; inversion H as [|? ? ? ? Hrow _]; subst.
        apply (first_cell_difference_None i row 0 erow Hcols) in Hrow. congruence.
      * apply (first_cell_difference_None i row 0 erow Hcols) in Hcell.
        rewrite (IH (S i) expected) by (simpl in Hlen; lia).
        split; [constructor; assumption | intros H; inversion H; assumption].
    + apply Nat.eqb_neq in Hcols.
      split; [discriminate|]. intros H; inversion H as [|? ? ? ? Hrow _]; subst.
      apply Forall2_length in Hrow. contradiction.
Qed.

(** The comparison returns exactly when the store holds as many rows
    as expected, each with as many columns as its expected row, and
    every cell equal ([==]) to the expected one at the same place. *)
Lemma compare_rows_returns_iff (rows expected : list pytuple) (w : world) :
  fst (compare_rows rows expected w) = Return tt <->
  Forall2 (Forall2 (fun a b => py_eq a b = true)) rows expected.
Proof.
  rewrite compare_rows_first_difference. unfold first_difference.
  destruct (Nat.eqb (List.length rows) (List.length expected)) eqn:Hlen; simpl.
  - apply Nat.eqb_eq in Hlen.
    rewrite <- (first_row_difference_None rows 0 expected Hlen).
    destruct (first_row_difference 0 rows expected); simpl;
      split; congruence.
  - apply Nat.eqb_neq in Hlen. split; [discriminate|].
    intros H. apply Forall2_length in H. contradiction.
Qed.

(** With the store read and the expected rows computed, the validator
    never raises: it returns with nothing printed, or prints the one
    line of the first difference (row count; else, row by row, column
    count and then cells) and exits with 1. *)
Theorem validate_jdbc_sink_first_difference (input_file : string)
    (rows : list pytuple) (sink_input : pyval) (expected : list pytuple) (w : world) :
  test_table E = Ok rows ->
  json_file E input_file = Ok sink_input ->
  expected_rows sink_input = Ok expected ->
  validate_jdbc_sink E input_file w
  = match first_difference rows expected with
    | None => (Return tt, w)
    | Some m => (Exit 1, logged w [[PStr m]])
    end.
Proof.
  intros Ht Hf He.
  rewrite (validate_jdbc_sink_eq input_file rows sink_input expected w Ht Hf He).
  apply compare_rows_first_difference.
Qed.

(** The validator returns exactly when the store holds as many rows as
    the fixture, each with two columns, equal ([==]) in order to the
    [id] and [name] of the fixture's rows. *)
Theorem validate_jdbc_sink_returns_iff (input_file : string)
    (rows : list pytuple) (sink_input : pyval) (expected : list pytuple) (w : world) :
  test_table E = Ok rows ->
  json_file E input_file = Ok sink_input ->
  expected_rows sink_input = Ok expected ->
  (fst (validate_jdbc_sink E input_file w) = Return tt <->
   Forall2 (Forall2 (fun a b => py_eq a b = true)) rows expected).
Proof.
  intros Ht Hf He.
  rewrite (validate_jdbc_sink_eq input_file rows sink_input expected w Ht Hf He).
  apply compare_rows_returns_iff.
Qed.

(** ** Which fixtures have expected rows *)

Lemma Forall_concat_inv {A} (P : A -> Prop) (ll : list (list A)) :
  Forall P (List.concat ll) -> Forall (Forall P) ll.
Proof.
  induction ll as [|l ll IH]; simpl; intros H.
  - constructor.
  - apply Forall_app in H as [H1 H2]. constructor; auto.
Qed.

Lemma tuple_of_row_jdbc (row : pyval) (t : pytuple) :
  tuple_of_row row t -> jdbc_row row = true.
Proof.
  intros (vals & x & id & nm & Hv & Hx & Hid & Hnm & _).
  destruct row as [| | | | |l|d]; try discriminate Hv.
  injection Hv as <-. unfold jdbc_row. rewrite Hx.
  destruct x as [| | | | |l|fields]; try discriminate Hid.
  unfold py_getitem in Hid, Hnm.
  destruct (lookup "id" fields); [|discriminate Hid].
  destruct (lookup "name" fields); [|discriminate Hnm].
  reflexivity.
Qed.

(** The first pass over the fixture, batch by batch. *)
Lemma first_pass_build (batches : list pyval) :
  forall rowss,
    rmap py_iter batches = Ok rowss ->
    Forall (Forall (fun row => jdbc_row row = true)) rowss ->
    exists per_batch expected,
      rmap (fun batch => (rows <- py_iter batch ;; rmap py_values rows)%result) batches
      = Ok per_batch /\
      rmap convert_item (List.concat per_batch) = Ok expected.
Proof.
  induction batches as [|batch rest IH]; intros rowss Hrs Hall; simpl in Hrs.
  - exists [], []. split; reflexivity.
  - apply rbind_Ok_inv in Hrs as (rows & Hrows & Hrs).
    apply rbind_Ok_inv in Hrs as (rowss' & Hrs' & Hrs).
    injection Hrs as <-. inversion Hall as [|? ? Hrow Hall']; subst.
    destruct (IH rowss' Hrs' Hall') as (per_batch & expected & Hpb & Hexp).
    assert (Hone : exists vs ts,
               rmap py_values rows = Ok vs /\ rmap convert_item vs = Ok ts).
    { clear - Hrow. induction Hrow as [|row rows Hr _ IHr].
      - exists [], []. split; reflexivity.
      - destruct IHr as (vs & ts & Hvs & Hts).
        destruct (jdbc_row_converts row Hr) as (vals & t & Hvals & Ht).
        exists (vals :: vs), (t :: ts). simpl. rewrite Hvals. simpl. rewrite Hvs. simpl.
        rewrite Ht. simpl. rewrite Hts. split; reflexivity. }
    destruct Hone as (vs & ts & Hvs & Hts).
    exists (vs :: per_batch), (ts ++ expected). simpl.
    rewrite Hrows. simpl. rewrite Hvs. simpl. rewrite Hpb. simpl.
    split; [reflexivity|]. apply rmap_app; assumption.
Qed.

(** A fixture has expected rows exactly when its batches can be gone
    through and every row is an object whose second value, whatever
    its key, is an object with [id] and [name]. *)
Theorem expected_rows_ok_iff (sink_input : pyval) :
  (exists expected, expected_rows sink_input = Ok expected) <->
  (exists rowss,
      fixture_batches sink_input = Ok rowss /\
      Forall (fun row => jdbc_row row = true) (List.concat rowss)).
Proof.
  split.
  - intros [expected H]. apply expected_rows_inv in H as (rowss & Hrs & Hall).
    exists rowss. split; [exact Hrs|].
    apply Forall_forall. intros row Hin.
    destruct (Forall2_In_l _ _ _ _ Hall Hin) as [t Ht].
    exact (tuple_of_row_jdbc row t Ht).
  - intros (rowss & Hrs & Hall). unfold fixture_batches in Hrs.
    apply rbind_Ok_inv in Hrs as (batches & Hb & Hrs).
    apply Forall_concat_inv in Hall.
    destruct (first_pass_build batches rowss Hrs Hall)
      as (per_batch & expected & Hpb & Hexp).
    exists expected. unfold expected_rows, row_values, convert.
    rewrite Hb. simpl. rewrite Hpb. simpl. exact Hexp.
Qed.

(** Indexing by key what is no object. *)
Lemma getitem_non_object (x : pyval) (k : string) :
  (forall d, x <> PyDict d) -> py_getitem x k = Err TypeError.
Proof.
  intros H. destruct x; try reflexivity. exfalso. exact (H d eq_refl).
Qed.

Lemma first_pass_objects (batches : list pyval) :
  forall rowss,
    rmap py_iter batches = Ok rowss ->
    Forall (Forall (fun row => exists d, row = PyDict d)) rowss ->
    exists per_batch,
      rmap (fun batch => (rows <- py_iter batch ;; rmap py_values rows)%result) batches
      = Ok per_batch /\
      Forall2 (fun row vals => py_values row = Ok vals)
              (List.concat rowss) (List.concat per_batch).
Proof.
  induction batches as [|batch rest IH]; intros rowss Hrs Hall; simpl in Hrs.
  - injection Hrs as <-. exists []. split; [reflexivity | constructor].
  - apply rbind_Ok_inv in Hrs as (rows & Hrows & Hrs).
    apply rbind_Ok_inv in Hrs as (rowss' & Hrs' & Hrs).
    injection Hrs as <-. inversion Hall as [|? ? Hrow Hall']; subst.
    destruct (IH rowss' Hrs' Hall') as (per_batch & Hpb & Hvals).
    destruct (rmap_total py_values rows) as [vs Hvs].
    { eapply Forall_impl; [|exact Hrow]. intros row [d ->]. eexists; reflexivity. }
    exists (vs :: per_batch). simpl. rewrite Hrows. simpl. rewrite Hvs. simpl.
    rewrite Hpb. split; [reflexivity|].
    apply Forall2_app; [apply rmap_Forall2; exact Hvs | exact Hvals].
Qed.

(** A fixture whose rows carry as second value something that is no
    object (the line as JSON text, say) can be sent, but has no
    expected rows: the validator raises [TypeError] and compares
    nothing. *)
Theorem expected_rows_text_lines (sink_input : pyval) (rowss : list (list pyval)) :
  fixture_batches sink_input = Ok rowss ->
  List.concat rowss <> [] ->
  Forall (fun row => exists d x,
              row = PyDict d /\ nth_error (map snd d) 1 = Some x /\
              forall l, x <> PyDict l)
         (List.concat rowss) ->
  expected_rows sink_input = Err TypeError.
Proof.
  intros Hrs Hne Hall. unfold fixture_batches in Hrs.
  apply rbind_Ok_inv in Hrs as (batches & Hb & Hrs).
  destruct (first_pass_objects batches rowss Hrs) as (per_batch & Hpb & Hvals).
  { apply Forall_concat_inv. eapply Forall_impl; [|exact Hall].
    intros row (d & x & -> & _). exists d; reflexivity. }
  unfold expected_rows, row_values, convert. rewrite Hb. simpl. rewrite Hpb. simpl.
  destruct (List.concat rowss) as [|row rows] eqn:Hc; [contradiction|].
  inversion Hvals as [|? vals ? valss Hval _ Heq1 Heq2]; subst.
  inversion Hall as [|? ? (d & x & -> & Hx & Hno) _]; subst.
  injection Hval as <-. simpl. unfold convert_item, py_index. rewrite Hx. simpl.
  rewrite (getitem_non_object x "id" Hno). reflexivity.
Qed.

(* ================================================================== *)
(** * Whole tests *)
(* ================================================================== *)

Lemma test_sink_json_eq type prop (input_file : string) (op_overlap sink_input : pyval)
    (requests : list SinkStreamRequest) (w : world) :
  json_file E input_file = Ok sink_input ->
  json_request_list type prop sink_input op_overlap = Ok requests ->
  test_sink_json E type prop input_file op_overlap w
  = drain requests {| stdout := stdout w; response_iter := service E requests |}.
Proof.
  intros Hf Hreq. unfold test_sink_json, load_input, bind, lift, SinkStream.
  rewrite Hf, Hreq. reflexivity.
Qed.

Lemma test_sink_stream_chunk_eq type prop (input_file : string) (schema : TableSchema)
    (data : list Byte.byte) (w : world) :
  binary_file E input_file = Ok data ->
  test_sink_stream_chunk E type prop input_file schema w
  = drain (stream_chunk_request_list type prop data schema)
      {| stdout := stdout w;
         response_iter := service E (stream_chunk_request_list type prop data schema) |}.
Proof.
  intros Hf. unfold test_sink_stream_chunk, load_binary_input, bind, lift, SinkStream.
  rewrite Hf. reflexivity.
Qed.

(** A test returns exactly when the service's stream starts with one
    response for each request of the session (four for a stream chunk);
    it has then printed two lines for each request, and whatever the
    stream holds beyond them is left unread. *)
Theorem sessions_return_iff (requests : list SinkStreamRequest) (w : world) :
  (forall type prop input_file op_overlap sink_input,
      json_file E input_file = Ok sink_input ->
      json_request_list type prop sink_input op_overlap = Ok requests ->
      (fst (test_sink_json E type prop input_file op_overlap w) = Return tt <->
       answered (List.length requests) (service E requests) = true) /\
      (answered (List.length requests) (service E requests) = true ->
       snd (test_sink_json E type prop input_file op_overlap w)
       = {| stdout := stdout w ++
                      ok_lines requests
                        (leading_responses
                           (firstn (List.length requests) (service E requests)));
            response_iter := skipn (List.length requests) (service E requests) |})) /\
  (forall type prop input_file schema data,
      binary_file E input_file = Ok data ->
      stream_chunk_request_list type prop data schema = requests ->
      (fst (test_sink_stream_chunk E type prop input_file schema w) = Return tt <->
       answered 4 (service E requests) = true) /\
      (answered 4 (service E requests) = true ->
       snd (test_sink_stream_chunk E type prop input_file schema w)
       = {| stdout := stdout w ++
                      ok_lines requests
                        (leading_responses (firstn 4 (service E requests)));
            response_iter := skipn 4 (service E requests) |})).
Proof.
  split.
  - intros type prop input_file ov sink_input Hf Hreq.
    rewrite (test_sink_json_eq type prop input_file ov sink_input requests w Hf Hreq).
    destruct (drain_returns_iff requests
                {| stdout := stdout w; response_iter := service E requests |})
      as [Hiff Hthen].
    split; [exact Hiff|]. intros H. simpl in Hthen. rewrite (Hthen H). reflexivity.
  - intros type prop input_file schema data Hf <-.
    rewrite (test_sink_stream_chunk_eq type prop input_file schema data w Hf).
    destruct (drain_returns_iff (stream_chunk_request_list type prop data schema)
                {| stdout := stdout w;
                   response_iter :=
                     service E (stream_chunk_request_list type prop data schema) |})
      as [Hiff Hthen].
    split; [exact Hiff|]. intros H. simpl in Hthen.
    change (List.length (stream_chunk_request_list type prop data schema)) with 4 in Hthen.
    rewrite (Hthen H). reflexivity.
Qed.

(** [test_jdbc_sink] returns exactly when the session gets a response
    for each request and the store then holds the expected rows: the
    session and the validation compose, and either failing fails the
    test. *)
Theorem test_jdbc_sink_returns_iff (input_file input_binary_file : string)
    (use_json : bool) (requests : list SinkStreamRequest) (rows : list pytuple)
    (sink_input : pyval) (expected : list pytuple) (w : world) :
  json_file E input_file = Ok sink_input ->
  (if use_json
   then json_request_list "jdbc" jdbc_prop sink_input (PyInt 1) = Ok requests
   else exists data,
          binary_file E input_binary_file = Ok data /\
          requests = stream_chunk_request_list "jdbc" jdbc_prop data make_mock_schema) ->
  test_table E = Ok rows ->
  expected_rows sink_input = Ok expected ->
  (fst (test_jdbc_sink E input_file input_binary_file use_json w) = Return tt <->
   answered (List.length requests) (service E requests) = true /\
   Forall2 (Forall2 (fun a b => py_eq a b = true)) rows expected).
Proof.
  intros Hf Hsession Ht He.
  assert (Hrun : (if use_json
                  then test_sink_json E "jdbc" jdbc_prop input_file (PyInt 1)
                  else test_sink_stream_chunk E "jdbc" jdbc_prop input_binary_file
                         make_mock_schema) w
                 = drain requests
                     {| stdout := stdout w; response_iter := service E requests |}).
  { destruct use_json.
    - exact (test_sink_json_eq _ _ _ _ _ _ w Hf Hsession).
    - destruct Hsession as (data & Hb & ->).
      exact (test_sink_stream_chunk_eq _ _ _ _ _ w Hb). }
  unfold test_jdbc_sink. unfold bind at 1. rewrite Hrun.
  destruct (drain_returns_iff requests
              {| stdout := stdout w; response_iter := service E requests |})
    as [Hiff _]. simpl in Hiff. rewrite <- Hiff.
  destruct (drain requests {| stdout := stdout w; response_iter := service E requests |})
    as [[[]|e|code] w1]; simpl.
  - rewrite (validate_jdbc_sink_eq input_file rows sink_input expected w1 Ht Hf He).
    rewrite compare_rows_returns_iff. split; [intros H; split; [reflexivity | exact H]|].
    intros [_ H]; exact H.
  - split; [discriminate | intros [H _]; discriminate H].
  - split; [discriminate | intros [H _]; discriminate H].
Qed.

(** ** The command line *)

Lemma bind_run_eq {A B} (m m' : M A) (k : A -> M B) (w w' : world) :
  m w = m' w' -> bind m k w = bind m' k w'.
Proof. intros H. unfold bind. rewrite H. reflexivity. Qed.

Lemma bind_ret_skip {A B} (m : M A) (k : M B) (w : world) :
  bind m (fun _ => bind (ret tt) (fun _ => k)) w = bind m (fun _ => k) w.
Proof. unfold bind. destruct (m w) as [[a|e|code] w']; reflexivity. Qed.

(** Given on the command line, [--data_format_use_json] selects JSON
    only as the very text [True]; any other text ([true], [1], [yes],
    [False]) runs every selected test with the stream-chunk fixture. *)
Theorem main_format_flag (args : arguments) (text : string) (w : world) :
  data_format_use_json args = PyStr text ->
  main E args w
  = main E (with_format args (PyBool (String.eqb text "True"))) w.
Proof.
  intros H. unfold main, with_format. simpl. rewrite H.
  assert (Hflag : use_json_flag (PyStr text)
                  = use_json_flag (PyBool (String.eqb text "True"))).
  { unfold use_json_flag. simpl. destruct (String.eqb text "True"); reflexivity. }
  rewrite Hflag. reflexivity.
Qed.

(** With the format flag at JSON, as it is when left out, the
    stream-chunk format test runs first and sends as its chunk the
    bytes of [--input_file], the JSON fixture, not those of
    [--input_binary_file]; the other selected tests follow. *)
Theorem format_test_reads_input_file (args : arguments) (data : list Byte.byte)
    (w : world) :
  use_json_flag (data_format_use_json args) = true ->
  stream_chunk_format_test args = true ->
  binary_file E (input_file args) = Ok data ->
  main E args w
  = (drain (stream_chunk_request_list "file" file_prop data
              make_mock_schema_stream_chunk) ;;
     main E (without_format_test args))%proc
      {| stdout := stdout w;
         response_iter :=
           service E (stream_chunk_request_list "file" file_prop data
                        make_mock_schema_stream_chunk) |}.
Proof.
  intros Hflag Hsel Hf. unfold main.
  cbn [without_format_test stream_chunk_format_test data_format_use_json
       input_file input_binary_file file_sink jdbc_sink iceberg_sink
       upsert_iceberg_sink deltalake_sink es_sink].
  rewrite Hflag, Hsel. unfold when at 1 8.
  rewrite bind_ret_skip.
  apply bind_run_eq. unfold test_stream_chunk_data_format.
  exact (test_sink_stream_chunk_eq "file" file_prop (input_file args)
           make_mock_schema_stream_chunk data w Hf).
Qed.

End Properties.

(* ================================================================== *)
(** * Properties of [notify.py] *)
(* ================================================================== *)

Section NotifyProperties.
Import Script.
Import Notify.

Lemma string_app_assoc (a b c : string) : ((a ++ b) ++ c = a ++ (b ++ c))%string.
Proof. induction a as [|x a IH]; simpl; [reflexivity | rewrite IH; reflexivity]. Qed.

Lemma string_app_nil_r (a : string) : (a ++ "" = a)%string.
Proof. induction a as [|x a IH]; simpl; [reflexivity | rewrite IH; reflexivity]. Qed.

Lemma dict_get_fresh {V} (pre post : dict V) (k : string) (v : V) :
  ~ In k (keys pre) -> dict_get (pre ++ (k, v) :: post) k = Ok v.
Proof.
  induction pre as [|[k' v'] pre IH]; simpl; intros Hnot.
  - rewrite String.eqb_refl. reflexivity.
  - destruct (String.eqb_spec k k') as [->|Hne].
    + exfalso. apply Hnot. left; reflexivity.
    + apply IH. intros Hin. apply Hnot. right; exact Hin.
Qed.

Lemma dict_get_error {V} (d : dict V) (k : string) (e : pyexn) :
  dict_get d k = Err e -> e = KeyError k.
Proof.
  induction d as [|[k' v'] d IH]; cbn [dict_get]; intros H.
  - injection H as <-. reflexivity.
  - destruct (String.eqb k k'); [discriminate H | exact (IH H)].
Qed.

Lemma dict_set_fresh {V} (d : dict V) (k : string) (v : V) :
  ~ In k (keys d) -> dict_set d k v = d ++ [(k, v)].
Proof.
  induction d as [|[k' v'] d IH]; simpl; intros Hnot.
  - reflexivity.
  - destruct (String.eqb_spec k k') as [->|Hne].
    + exfalso. apply Hnot. left; reflexivity.
    + rewrite IH; [reflexivity|]. intros Hin. apply Hnot. right; exact Hin.
Qed.

Lemma keys_failed_entries (status : string -> string) (d : dict (list string)) (k : string) :
  In k (keys (failed_entries status d)) -> In k (keys d).
Proof.
  unfold keys, failed_entries. intros H. apply in_map_iff in H as ([k' v] & <- & Hin).
  apply filter_In in Hin as [Hin _]. apply in_map_iff. exists (k', v). split; auto.
Qed.

(** The loop of [get_failed_tests], from any point of the map on. *)
Lemma get_failed_tests_from (get_test_status : string -> S action string)
    (status : string -> string) (trace : string -> list action)
    (test_map : dict (list string)) (post : dict (list string)) :
  forall (pre : dict (list string)) (log : list action),
    test_map = pre ++ post ->
    NoDup (keys test_map) ->
    (forall test log', In test (keys test_map) ->
        get_test_status test log' = (Return (status test), log' ++ trace test)) ->
    fold (check_test get_test_status test_map) (keys post) (failed_entries status pre) log
    = (Return (failed_entries status test_map),
       log ++ List.concat (map trace (keys post))).
Proof.
  induction post as [|[k v] post IH]; intros pre log Hmap Hnd Hst.
  - simpl. rewrite app_nil_r in *. subst. reflexivity.
  - assert (Hk : ~ In k (keys pre)).
    { rewrite Hmap in Hnd. unfold keys in *. rewrite map_app in Hnd. simpl in Hnd.
      apply NoDup_remove_2 in Hnd. intros Hin. apply Hnd. apply in_or_app.
      left; exact Hin. }
    assert (Hin : In k (keys test_map)).
    { rewrite Hmap. unfold keys. rewrite map_app. apply in_or_app. right; left; reflexivity. }
    assert (Hnext : failed_entries status (pre ++ [(k, v)])
                    = if is_failed (status k)
                      then dict_set (failed_entries status pre) k v
                      else failed_entries status pre).
    { unfold failed_entries. rewrite filter_app. simpl.
      destruct (is_failed (status k)).
      - symmetry. apply dict_set_fresh. intros Hin'. apply Hk.
        exact (keys_failed_entries status pre k Hin').
      - apply app_nil_r. }
    assert (Hstep : check_test get_test_status test_map (failed_entries status pre) k log
                    = (Return (failed_entries status (pre ++ [(k, v)])), log ++ trace k)).
    { unfold check_test. unfold bind at 1. rewrite (Hst k log Hin). rewrite Hnext.
      destruct (is_failed (status k)); [|reflexivity].
      unfold bind, lift, ret. rewrite Hmap at 1.
      rewrite (dict_get_fresh pre post k v Hk). reflexivity. }
    simpl. unfold bind at 1. rewrite Hstep.
    rewrite (IH (pre ++ [(k, v)]) (log ++ trace k));
      [ | rewrite <- app_assoc; exact Hmap | exact Hnd | exact Hst ].
    rewrite <- app_assoc. reflexivity.
Qed.

Lemma get_failed_tests_eq (get_test_status : string -> S action string)
    (status : string -> string) (trace : string -> list action)
    (test_map : dict (list string)) (log : list action) :
  NoDup (keys test_map) ->
  (forall test log', In test (keys test_map) ->
      get_test_status test log' = (Return (status test), log' ++ trace test)) ->
  get_failed_tests get_test_status test_map log
  = (Return (failed_entries status test_map),
     log ++ List.concat (map trace (keys test_map))).
Proof.
  intros Hnd Hst. unfold get_failed_tests.
  exact (get_failed_tests_from get_test_status status trace test_map test_map [] log
           eq_refl Hnd Hst).
Qed.

(** [get_failed_tests] keeps, in the order of the map and each with
    its owners, exactly the tests whose status is [hard_failed] or
    [soft_failed]; any other status (empty, [passed], [running]) drops
    the test.  It asks for the status of every test once, in order. *)
Theorem get_failed_tests_filter (get_test_status : string -> S action string)
    (status : string -> string) (trace : string -> list action)
    (test_map : dict (list string)) (log : list action) :
  NoDup (keys test_map) ->
  (forall test log', In test (keys test_map) ->
      get_test_status test log' = (Return (status test), log' ++ trace test)) ->
  get_failed_tests get_test_status test_map log
  = (Return (filter (fun entry =>
                       String.eqb (status (fst entry)) "hard_failed"
                       || String.eqb (status (fst entry)) "soft_failed") test_map),
     log ++ List.concat (map trace (keys test_map))).
Proof. exact (get_failed_tests_eq get_test_status status trace test_map log). Qed.

Lemma concat_first_nonempty (sep : string) (c : ascii) (x : string) (l : list string) :
  String.concat sep (String c x :: l) <> EmptyString.
Proof. destruct l; simpl; discriminate. Qed.

Lemma message_empty_iff (failed_test_map : dict (list string)) :
  generate_test_status_message failed_test_map = EmptyString <-> failed_test_map = [].
Proof.
  split.
  - destruct failed_test_map as [|entry rest]; [reflexivity|].
    unfold generate_test_status_message. simpl map. unfold test_message at 1. simpl append.
    intros H. exfalso. exact (concat_first_nonempty _ _ _ _ H).
  - intros ->. reflexivity.
Qed.

Lemma distinct_NoDup (l : list string) : distinct l = true -> NoDup l.
Proof.
  induction l as [|x xs IH]; simpl; intros H; constructor.
  - apply andb_true_iff in H as [H _]. intros Hin.
    assert (Hex : existsb (String.eqb x) xs = true).
    { apply existsb_exists. exists x. split; [exact Hin | apply String.eqb_refl]. }
    rewrite Hex in H. discriminate H.
  - apply andb_true_iff in H as [_ H]. exact (IH H).
Qed.

Lemma concat_singletons {A B} (f : A -> B) (l : list A) :
  List.concat (map (fun x => [f x]) l) = map f l.
Proof. induction l as [|x l IH]; simpl; [reflexivity | rewrite IH; reflexivity]. Qed.

(** On either pipeline [main] asks the build server for the outcome of
    every test of the pipeline's map, in order.  With no test
    [hard_failed] or [soft_failed] it prints that all passed and runs
    nothing more; otherwise it uploads, as its last command, the one
    notification step whose message names each failed test with its
    owners.  It returns in both cases. *)
Theorem notify_main (V : env) (pipeline_name : string) (test_map : dict (list string))
    (log : list action) :
  dict_get (environ V) "BUILDKITE_PIPELINE_NAME" = Ok pipeline_name ->
  (pipeline_name = "main-cron" /\ test_map = MAIN_CRON_TEST_MAP) \/
  (pipeline_name = "integration-tests" /\ test_map = INTEGRATION_TEST_MAP) ->
  main V log
  = (Return tt,
     log ++ map (fun test => Shell (status_command test)) (keys test_map)
         ++ report (failed_entries (buildkite_status V) test_map)).
Proof.
  intros Henv Hmap.
  assert (Hget : get_test_map V log = (Return test_map, log)).
  { unfold get_test_map, bind, lift. rewrite Henv.
    destruct Hmap as [[-> ->] | [-> ->]]; reflexivity. }
  assert (Hnd : NoDup (keys test_map)).
  { destruct Hmap as [[_ ->] | [_ ->]]; apply distinct_NoDup; reflexivity. }
  unfold main. unfold bind at 1. rewrite Hget. unfold bind at 1.
  rewrite (get_failed_tests_eq (get_buildkite_test_status V) (buildkite_status V)
             (fun test => [Shell (status_command test)]) test_map log Hnd).
  2:{ intros test log' _. reflexivity. }
  rewrite concat_singletons.
  destruct (failed_entries (buildkite_status V) test_map) as [|entry rest] eqn:Hfailed.
  - simpl. unfold emit. rewrite <- app_assoc. reflexivity.
  - assert (Hne : String.eqb (generate_test_status_message (entry :: rest)) "" = false).
    { apply String.eqb_neq. intros H. apply message_empty_iff in H. discriminate H. }
    rewrite Hne. unfold bind, emit. unfold report.
    rewrite <- !app_assoc. reflexivity.
Qed.

(** Outside the two pipelines nothing is asked and nothing is sent: an
    unknown pipeline name is reported and ends the process with 1, and
    with [BUILDKITE_PIPELINE_NAME] unset the lookup raises [KeyError]. *)
Theorem notify_invalid_pipeline (V : env) (log : list action) :
  (forall pipeline_name,
      dict_get (environ V) "BUILDKITE_PIPELINE_NAME" = Ok pipeline_name ->
      pipeline_name <> "main-cron" ->
      pipeline_name <> "integration-tests" ->
      main V log = (Exit 1, log ++ [Print "Invaild pipeline name!"])) /\
  (forall e,
      dict_get (environ V) "BUILDKITE_PIPELINE_NAME" = Err e ->
      e = KeyError "BUILDKITE_PIPELINE_NAME" /\ main V log = (Raise e, log)).
Proof.
  split.
  - intros name Henv H1 H2. unfold main, get_test_map. unfold bind at 1. unfold bind at 1.
    unfold lift. rewrite Henv.
    apply String.eqb_neq in H1, H2. rewrite H1, H2. reflexivity.
  - intros e Henv. split.
    + exact (dict_get_error _ _ _ Henv).
    + unfold main, get_test_map. unfold bind at 1. unfold bind at 1.
      unfold lift. rewrite Henv. reflexivity.
Qed.

Lemma indented_lines (l : list string) :
  l <> [] ->
  forall rest : string,
    (indent ++ (String.concat (nl ++ indent) l ++ (nl ++ rest))
     = String.concat "" (map (fun x => indent ++ x ++ nl) l) ++ rest)%string.
Proof.
  induction l as [|x l IH]; intros Hne rest; [contradiction|].
  destruct l as [|y l].
  - cbn [String.concat map]. rewrite !string_app_assoc. reflexivity.
  - change (String.concat (nl ++ indent) (x :: y :: l))
      with (x ++ (nl ++ indent) ++ String.concat (nl ++ indent) (y :: l))%string.
    change (String.concat "" (map (fun x => indent ++ x ++ nl) (x :: y :: l)))%string
      with ((indent ++ x ++ nl) ++ "" ++
            String.concat "" (map (fun x => indent ++ x ++ nl) (y :: l)))%string.
    rewrite !string_app_assoc.
    rewrite (IH ltac:(discriminate) rest).
    reflexivity.
Qed.

(** The message of several failed tests keeps the layout of the YAML
    block it is put into: in the uploaded command every failed test
    has a line of its own, indented by the twelve blanks of the block
    under [message: |]. *)
Theorem message_lines_indented (failed_test_map : dict (list string)) :
  failed_test_map <> [] ->
  format_cmd (generate_test_status_message failed_test_map)
  = (cmd_header
     ++ String.concat ""
          (map (fun entry => indent ++ test_message entry ++ nl) failed_test_map)
     ++ cmd_footer)%string.
Proof.
  intros Hne. unfold generate_test_status_message.
  assert (Hl : map test_message failed_test_map <> []).
  { destruct failed_test_map; [contradiction | discriminate]. }
  assert (Hmap : map (fun entry => indent ++ test_message entry ++ nl)%string failed_test_map
                 = map (fun x => indent ++ x ++ nl)%string (map test_message failed_test_map)).
  { rewrite map_map. reflexivity. }
  rewrite Hmap, <- (indented_lines _ Hl cmd_footer).
  unfold format_cmd, cmd_header. rewrite !string_app_assoc. reflexivity.
Qed.

(** [run_test_1], the notifier on mock statuses, runs no command in
    any surroundings.  On the main-cron pipeline it prints the message
    and the command for the four tests the mock fails; on the
    integration-tests pipeline it raises [KeyError], the mock knowing
    none of that pipeline's tests beyond the first. *)
Theorem run_test_1_outcomes (V : env) (log : list action) :
  (dict_get (environ V) "BUILDKITE_PIPELINE_NAME" = Ok "main-cron" ->
   run_test_1 V log
   = (Return tt,
      log ++ [ Print "Some tests failed, notify users";
               Print (generate_test_status_message mock_failed);
               Print (format_cmd (generate_test_status_message mock_failed)) ])) /\
  (dict_get (environ V) "BUILDKITE_PIPELINE_NAME" = Ok "integration-tests" ->
   run_test_1 V log = (Raise (KeyError "ad-click-json"), log)) /\
  filter is_shell (snd (run_test_1 V log)) = filter is_shell log.
Proof.
  assert (H1 : dict_get (environ V) "BUILDKITE_PIPELINE_NAME" = Ok "main-cron" ->
               run_test_1 V log
               = (Return tt,
                  log ++ [ Print "Some tests failed, notify users";
                           Print (generate_test_status_message mock_failed);
                           Print (format_cmd (generate_test_status_message mock_failed)) ])).
  { intros Henv.
    assert (Hf : get_failed_tests get_mock_test_status MAIN_CRON_TEST_MAP log
                 = (Return mock_failed, log)) by (vm_compute; reflexivity).
    assert (Hne : String.eqb (generate_test_status_message mock_failed) "" = false)
      by (vm_compute; reflexivity).
    unfold run_test_1, get_test_map. unfold bind at 1. unfold bind at 1.
    unfold lift at 1. rewrite Henv.
    change (String.eqb "main-cron" "main-cron") with true. cbv iota.
    unfold ret at 1. unfold bind at 1. rewrite Hf. rewrite Hne.
    unfold bind, emit. rewrite <- !app_assoc. reflexivity. }
  assert (H2 : dict_get (environ V) "BUILDKITE_PIPELINE_NAME" = Ok "integration-tests" ->
               run_test_1 V log = (Raise (KeyError "ad-click-json"), log)).
  { intros Henv. unfold run_test_1, get_test_map. unfold bind at 1. unfold bind at 1.
    unfold lift at 1. rewrite Henv. vm_compute. reflexivity. }
  split; [exact H1|]. split; [exact H2|].
  destruct (dict_get (environ V) "BUILDKITE_PIPELINE_NAME") as [name|e] eqn:Henv.
  - destruct (String.eqb_spec name "main-cron") as [->|Hn1].
    { rewrite (H1 eq_refl). simpl snd. rewrite filter_app. simpl. apply app_nil_r. }
    destruct (String.eqb_spec name "integration-tests") as [->|Hn2].
    { rewrite (H2 eq_refl). reflexivity. }
    unfold run_test_1, get_test_map. unfold bind at 1. unfold bind at 1.
    unfold lift at 1. rewrite Henv.
    apply String.eqb_neq in Hn1, Hn2. rewrite Hn1, Hn2.
    simpl. rewrite filter_app. simpl. apply app_nil_r.
  - unfold run_test_1, get_test_map. unfold bind at 1. unfold bind at 1.
    unfold lift at 1. rewrite Henv. reflexivity.
Qed.

End NotifyProperties.

(* ================================================================== *)
(** * Properties of [json_schema_producer.py] *)
(* ================================================================== *)

Section ProducerProperties.
Import Script.
Import Producer.

Variable kafka : string -> string -> string -> string -> S action unit.

(** The script reads [sys.argv[4]], so it needs five entries, although
    it prints the usage only below four: with fewer than five it
    raises [IndexError] before it gets to Kafka, and with exactly four
    without a word of usage. *)
Theorem producer_short_argv (argv : list string) (log : list action) :
  List.length argv < 5 ->
  script kafka argv log
  = (Raise IndexError,
     log ++ (if Nat.ltb (List.length argv) 4 then [Print usage] else [])).
Proof.
  intros Hlen.
  destruct argv as [|a0 [|a1 [|a2 [|a3 [|a4 rest]]]]];
    try (simpl in Hlen; lia); simpl; try reflexivity.
  rewrite app_nil_r. reflexivity.
Qed.

(** With five entries or more the fifth is the name strategy and the
    rest is ignored.  A strategy that is none of [topic], [record],
    [topic-record] or the empty text ends the process with 1 before
    anything reaches Kafka; otherwise the topic is the file's base name
    up to its first dot, followed for every strategy but [topic] by a
    dash and the strategy (so by a bare dash for the empty one). *)
Theorem producer_strategy (a0 broker_list schema_registry_url file strategy : string)
    (rest : list string) (log : list action) :
  script kafka (a0 :: broker_list :: schema_registry_url :: file :: strategy :: rest) log
  = if existsb (String.eqb strategy) strategies
    then kafka broker_list schema_registry_url file (topic_of file strategy)
           (log ++ [ Print ("broker_list: " ++ broker_list);
                     Print ("schema_registry_url: " ++ schema_registry_url);
                     Print ("topic: " ++ topic_of file strategy);
                     Print ("name strategy: " ++ strategy) ])
    else (Exit 1,
          log ++ [Print "name strategy must be one of: topic, record, topic_record"]).
Proof.
  unfold script, topic_of. unfold bind, lift, emit, ret, exit, argv_at. simpl nth_error.
  cbn match. cbn beta.
  change (Nat.ltb (List.length (a0 :: broker_list :: schema_registry_url :: file
                                   :: strategy :: rest)) 4) with false.
  cbn iota.
  destruct (existsb (String.eqb strategy) strategies); cbn [negb]; [|reflexivity].
  destruct (String.eqb strategy "topic"); cbn [negb];
    rewrite <- !app_assoc; reflexivity.
Qed.

Lemma contains_cons (c x : ascii) (s : string) :
  contains c (String x s) = Ascii.eqb c x || contains c s.
Proof. reflexivity. Qed.

Lemma basename_no_slash (p : string) : contains "/" (basename p) = false.
Proof.
  induction p as [|c p IH]; simpl; [reflexivity|].
  destruct (contains "/" p) eqn:Hp; [exact IH|].
  destruct (Ascii.eqb c "/") eqn:Hc; [exact Hp|].
  rewrite contains_cons, Hp. rewrite Ascii.eqb_sym, Hc. reflexivity.
Qed.

Lemma before_dot_keeps (c : ascii) (s : string) :
  contains c s = false -> contains c (before_dot s) = false.
Proof.
  induction s as [|x s IH]; simpl; [reflexivity|].
  rewrite contains_cons. intros H. apply orb_false_iff in H as [Hx Hs].
  destruct (Ascii.eqb x "."); [reflexivity|].
  rewrite contains_cons, Hx. exact (IH Hs).
Qed.

Lemma before_dot_no_dot (s : string) : contains "." (before_dot s) = false.
Proof.
  induction s as [|x s IH]; simpl; [reflexivity|].
  destruct (Ascii.eqb x ".") eqn:Hx; [reflexivity|].
  rewrite contains_cons, IH. rewrite Ascii.eqb_sym, Hx. reflexivity.
Qed.

(** Under the [topic] strategy the topic holds neither a slash nor a
    dot, whatever the path of the file: directories and every
    extension are cut off. *)
Theorem producer_topic_clean (file : string) :
  contains "/" (topic_of file "topic") = false /\
  contains "." (topic_of file "topic") = false.
Proof.
  unfold topic_of. change (String.eqb "topic" "topic") with true. cbn iota. split.
  - apply before_dot_keeps. apply basename_no_slash.
  - apply before_dot_no_dot.
Qed.

End ProducerProperties.

(* ================================================================== *)
(** * Properties of [sink_check.py] *)
(* ================================================================== *)

Section SinkCheckProperties.
Import Script.
Import SinkCheck.

Variable check_output : list string -> result string.

Lemma split_lines_nonempty (s : string) : split_lines s <> [].
Proof.
  induction s as [|c s IH]; simpl; [discriminate|].
  destruct (Ascii.eqb c (ascii_of_nat 10)); [discriminate|].
  destruct (split_lines s); discriminate.
Qed.

Lemma split_lines_no_newline (s : string) :
  contains newline s = false -> split_lines s = [s].
Proof.
  induction s as [|c s IH]; [reflexivity|].
  rewrite contains_cons. intros H. apply orb_false_iff in H as [Hc Hs].
  simpl. rewrite Ascii.eqb_sym. fold newline. rewrite Hc. rewrite (IH Hs). reflexivity.
Qed.

Lemma split_lines_first (s rest : string) :
  contains newline s = false ->
  split_lines (s ++ String newline rest) = s :: split_lines rest.
Proof.
  induction s as [|c s IH]; intros H.
  - reflexivity.
  - rewrite contains_cons in H. apply orb_false_iff in H as [Hc Hs].
    cbn [String.append split_lines]. rewrite Ascii.eqb_sym. fold newline. rewrite Hc.
    rewrite (IH Hs). reflexivity.
Qed.

Lemma digit_not_space (c : ascii) :
  numeral_char c = true -> int_space c = false /\ Ascii.eqb newline c = false.
Proof.
  destruct c as [[|] [|] [|] [|] [|] [|] [|] [|]]; intros H;
    try discriminate H; split; reflexivity.
Qed.

Lemma numeral_chars_uint (d : Decimal.uint) :
  forallb numeral_char (list_ascii_of_string (NilEmpty.string_of_uint d)) = true.
Proof. induction d; simpl; try rewrite IHd; reflexivity. Qed.

Lemma numeral_chars_int_repr (n : Z) :
  forallb numeral_char (list_ascii_of_string (int_repr n)) = true.
Proof.
  unfold int_repr, NilZero.string_of_int, NilZero.string_of_uint.
  destruct (Z.to_int n) as [d|d]; destruct d; try reflexivity;
    try apply (numeral_chars_uint (_ d));
    simpl; try apply (numeral_chars_uint d).
Qed.

Lemma skip_blanks_id (l : list ascii) :
  Forall (fun c => int_space c = false) l -> skip_blanks l = l.
Proof. destruct 1 as [|c l Hc _]; simpl; [reflexivity | rewrite Hc; reflexivity]. Qed.

Lemma numeral_of_id (s : string) :
  Forall (fun c => int_space c = false) (list_ascii_of_string s) ->
  numeral_of s = list_ascii_of_string s.
Proof.
  intros H. unfold numeral_of. rewrite (skip_blanks_id _ H).
  rewrite skip_blanks_id by (apply Forall_rev; exact H).
  apply rev_involutive.
Qed.

Lemma digits_uint (d : Decimal.uint) :
  digits (list_ascii_of_string (NilEmpty.string_of_uint d)) true = Some d.
Proof. induction d; simpl; try rewrite IHd; reflexivity. Qed.

Lemma digits_start (c : ascii) (l : list ascii) (b : bool) :
  Ascii.eqb c "_" = false -> digits (c :: l) b = digits (c :: l) true.
Proof. intros H. simpl. rewrite H. reflexivity. Qed.

Lemma digits_nonnil (d : Decimal.uint) :
  d <> Decimal.Nil ->
  digits (list_ascii_of_string (NilEmpty.string_of_uint d)) false = Some d.
Proof.
  intros Hd. destruct d; [contradiction | ..];
    cbn [NilEmpty.string_of_uint list_ascii_of_string];
    rewrite digits_start by reflexivity;
    match goal with |- digits _ true = Some ?x => exact (digits_uint x) end.
Qed.

Lemma digits_nilzero (d : Decimal.uint) :
  d <> Decimal.Nil ->
  digits (list_ascii_of_string (NilZero.string_of_uint d)) false = Some d /\
  exists c l, list_ascii_of_string (NilZero.string_of_uint d) = c :: l /\
              Ascii.eqb c "-" = false /\ Ascii.eqb c "+" = false.
Proof.
  intros Hd. destruct d; [contradiction | ..];
    match goal with
    | |- context [NilZero.string_of_uint ?x] =>
        split; [exact (digits_nonnil x ltac:(discriminate))|];
        eexists; eexists; repeat split; reflexivity
    end.
Qed.

(** ** The digits of a number *)

Lemma of_uint_acc_lower (d : Decimal.uint) :
  forall acc : positive,
    (Z.pos acc * 10 ^ Z.of_nat (Decimal.nb_digits d) <= Z.pos (Pos.of_uint_acc d acc))%Z.
Proof.
  induction d; intros acc; cbn [Decimal.nb_digits Pos.of_uint_acc];
    try (rewrite Nat2Z.inj_succ, Z.pow_succ_r by lia;
         match goal with
         | |- (_ <= Z.pos (Pos.of_uint_acc _ ?a))%Z =>
             specialize (IHd a);
             assert (Z.pos acc * 10 <= Z.pos a)%Z by lia
         end;
         assert (0 < 10 ^ Z.of_nat (Decimal.nb_digits d))%Z by (apply Z.pow_pos_nonneg; lia);
         nia).
  simpl. lia.
Qed.

(** The numeral of a positive number starts with a digit that is not 0. *)
Lemma to_uint_head (p : positive) :
  exists l acc, Z.pos p = Z.pos (Pos.of_uint_acc l acc) /\
                Decimal.nb_digits (Pos.to_uint p) = Datatypes.S (Decimal.nb_digits l).
Proof.
  pose proof (DecimalPos.Unsigned.of_to p) as Hof.
  pose proof (DecimalPos.Unsigned.to_of (Pos.to_uint p)) as Hto.
  rewrite Hof in Hto. simpl in Hto.
  pose proof (DecimalPos.Unsigned.to_uint_nonzero p) as Hnz.
  assert (Hn : Decimal.nzhead (Pos.to_uint p) = Pos.to_uint p).
  { unfold Decimal.unorm in Hto.
    destruct (Decimal.nzhead (Pos.to_uint p)) eqn:Hh; try (symmetry; exact Hto).
    exfalso. apply Hnz. exact Hto. }
  destruct (Pos.to_uint p) as [|l|l|l|l|l|l|l|l|l|l] eqn:Hd;
    [ discriminate Hof
    | exfalso; exact (DecimalFacts.nzhead_nonzero _ _ Hn)
    | eexists l, _; split; [|reflexivity]; simpl in Hof; injection Hof as <-; reflexivity .. ].
Qed.

(** A number below [10 ^ k] is written with [k] digits at most. *)
Lemma nb_digits_to_uint (p : positive) (k : nat) :
  (Z.pos p < 10 ^ Z.of_nat k)%Z -> Decimal.nb_digits (Pos.to_uint p) <= k.
Proof.
  intros Hlt. destruct (to_uint_head p) as (l & acc & Hp & ->).
  pose proof (of_uint_acc_lower l acc) as Hlow. rewrite <- Hp in Hlow.
  destruct (Nat.le_gt_cases (Datatypes.S (Decimal.nb_digits l)) k) as [Hle|Hgt]; [exact Hle|].
  exfalso.
  assert (10 ^ Z.of_nat k <= 10 ^ Z.of_nat (Decimal.nb_digits l))%Z
    by (apply Z.pow_le_mono_r; lia).
  assert (0 < 10 ^ Z.of_nat (Decimal.nb_digits l))%Z by (apply Z.pow_pos_nonneg; lia).
  nia.
Qed.

Lemma to_int_digits (n : Z) :
  (Z.abs n < 10 ^ 4300)%Z ->
  Decimal.abs (Z.to_int n) <> Decimal.Nil /\
  Nat.ltb max_str_digits (Decimal.nb_digits (Decimal.abs (Z.to_int n))) = false.
Proof.
  intros Hn. change (10 ^ 4300)%Z with (10 ^ Z.of_nat max_str_digits)%Z in Hn.
  destruct n as [|p|p]; cbn [Z.to_int Decimal.abs].
  - split; [discriminate | reflexivity].
  - split; [apply DecimalPos.Unsigned.to_uint_nonnil|].
    apply Nat.ltb_ge. apply nb_digits_to_uint. exact Hn.
  - split; [apply DecimalPos.Unsigned.to_uint_nonnil|].
    apply Nat.ltb_ge. apply nb_digits_to_uint. exact Hn.
Qed.

(** [int] reads back what [str] writes, within the digits it converts. *)
Lemma py_int_int_repr (n : Z) :
  (Z.abs n < 10 ^ 4300)%Z -> py_int (int_repr n) = Ok n.
Proof.
  intros Hn.
  assert (Hstrip : numeral_of (int_repr n) = list_ascii_of_string (int_repr n)).
  { apply numeral_of_id. apply Forall_forall. intros c Hin.
    pose proof (numeral_chars_int_repr n) as H. rewrite forallb_forall in H.
    exact (proj1 (digit_not_space c (H c Hin))). }
  destruct (to_int_digits n Hn) as [Hnil Hlen].
  unfold py_int. rewrite Hstrip. rewrite <- (DecimalZ.of_to n) at 2.
  unfold int_repr, NilZero.string_of_int.
  destruct (Z.to_int n) as [d|d]; cbn [Decimal.abs] in Hnil, Hlen.
  - destruct (digits_nilzero d Hnil) as (Hd & c & l & Hl & Hm & Hp).
    rewrite Hl in *. rewrite Hm, Hp, Hd. cbn [option_map Decimal.abs].
    rewrite Hlen. reflexivity.
  - destruct (digits_nilzero d Hnil) as (Hd & _).
    cbn [list_ascii_of_string]. change (Ascii.eqb "-" "-") with true. cbn iota.
    rewrite Hd. cbn [option_map Decimal.abs]. rewrite Hlen. reflexivity.
Qed.

Lemma int_repr_no_newline (n : Z) : contains newline (int_repr n) = false.
Proof.
  unfold contains. apply not_true_is_false. intros H.
  apply existsb_exists in H as (c & Hin & Hc).
  pose proof (numeral_chars_int_repr n) as Hall. rewrite forallb_forall in Hall.
  destruct (digit_not_space c (Hall c Hin)) as [_ Hn]. congruence.
Qed.

(** The check reads the count off the second line of what [mysql]
    prints.  For the column header and a count [n], a line each, it
    prints the count and fails (one more line, exit with 1) exactly
    when [n] is below 1; from 1 on it returns.  The count is taken
    within the 4300 digits up to which every version of Python
    converts between [str] and [int]. *)
Theorem sink_check_verdict (header : string) (n : Z) (log : list action) :
  contains newline header = false ->
  (Z.abs n < 10 ^ 4300)%Z ->
  check_output (docker_command "demo.demo_bhv_table") = Ok (count_output header n) ->
  script check_output log
  = if (n <? 1)%Z
    then (Exit 1,
          log ++ [ Print running_line;
                   Print (int_repr n ++ " rows in demo.demo_bhv_table");
                   Print "Data check failed for case ['demo.demo_bhv_table']" ])
    else (Return tt,
          log ++ [ Print running_line;
                   Print (int_repr n ++ " rows in demo.demo_bhv_table") ]).
Proof.
  intros Hh Hn Hout.
  assert (Hsecond : nth_error (split_lines (count_output header n)) 1
                    = Some (int_repr n)).
  { change (count_output header n)
      with (header ++ String newline (int_repr n ++ String newline ""))%string.
    rewrite (split_lines_first header _ Hh).
    rewrite (split_lines_first (int_repr n) "" (int_repr_no_newline n)). reflexivity. }
  unfold script, relations. cbn [fold]. unfold check_relation.
  unfold bind at 1. unfold bind at 1. unfold bind at 1.
  unfold emit at 1. unfold bind at 1. unfold lift at 1. rewrite Hout.
  unfold bind at 1. unfold lift at 1. rewrite Hsecond.
  unfold bind at 1. unfold lift at 1. rewrite (py_int_int_repr n Hn).
  unfold bind at 1. unfold emit at 1.
  destruct (n <? 1)%Z; unfold ret, bind, emit, exit; simpl;
    rewrite <- !app_assoc; reflexivity.
Qed.

(** What the check cannot read it does not survive: an error of the
    command is passed on, a reply without a second line raises
    [IndexError], and a second line that is no numeral raises
    [ValueError]; in each case after the one line that announces the
    query, and without a verdict. *)
Theorem sink_check_errors (log : list action) :
  (forall e,
      check_output (docker_command "demo.demo_bhv_table") = Err e ->
      script check_output log = (Raise e, log ++ [Print running_line])) /\
  (forall output,
      check_output (docker_command "demo.demo_bhv_table") = Ok output ->
      contains newline output = false ->
      script check_output log = (Raise IndexError, log ++ [Print running_line])) /\
  (forall output second e,
      check_output (docker_command "demo.demo_bhv_table") = Ok output ->
      nth_error (split_lines output) 1 = Some second ->
      py_int second = Err e ->
      e = OtherException "ValueError" /\
      script check_output log = (Raise e, log ++ [Print running_line])).
Proof.
  split; [|split].
  - intros e Hout. unfold script, relations. cbn [fold]. unfold check_relation.
    unfold bind at 1. unfold bind at 1. unfold bind at 1.
    unfold emit at 1. unfold bind at 1. unfold lift at 1. rewrite Hout. reflexivity.
  - intros output Hout Hnl. unfold script, relations. cbn [fold]. unfold check_relation.
    unfold bind at 1. unfold bind at 1. unfold bind at 1.
    unfold emit at 1. unfold bind at 1. unfold lift at 1. rewrite Hout.
    unfold bind at 1. unfold lift at 1. rewrite (split_lines_no_newline output Hnl).
    reflexivity.
  - intros output second e Hout Hsecond Hint. split.
    + unfold py_int in Hint. destruct (match numeral_of second with
                                       | [] => None | _ => _ end) as [d|];
        [ destruct (Nat.ltb max_str_digits (Decimal.nb_digits (Decimal.abs d)));
          [injection Hint as <-; reflexivity | discriminate Hint]
        | injection Hint as <-; reflexivity ].
    + unfold script, relations. cbn [fold]. unfold check_relation.
      unfold bind at 1. unfold bind at 1. unfold bind at 1.
      unfold emit at 1. unfold bind at 1. unfold lift at 1. rewrite Hout.
      unfold bind at 1. unfold lift at 1. rewrite Hsecond.
      unfold bind at 1. unfold lift at 1. rewrite Hint. reflexivity.
Qed.

End SinkCheckProperties.

(* ================================================================== *)
(** * The sample, run *)
(* ================================================================== *)

Example sample_session_ids :
  exists requests,
    json_request_list "file" [] sample_fixture (PyInt 1) = Ok requests /\
    List.length requests = 7 /\
    start_epochs requests = [0; 1]%Z /\
    map batch_id (writes requests) = [1; 2]%Z /\
    map line (all_row_ops requests)
    = ["{'id': 1, 'name': 'Alice'}"; "{'id': 2, 'name': 'Bob'}";
       "{'id': 3, 'name': 'Clare'}"].
Proof. eexists. repeat split; vm_compute; reflexivity. Qed.

(** [str] of a fixture line that is an object is the Python rendering,
    with single quotes, and not JSON text. *)
Example sample_line_is_not_json :
  py_str (PyDict [("id", PyInt 1); ("name", PyStr "a")]) = "{'id': 1, 'name': 'a'}".
Proof. reflexivity. Qed.

Example sample_value_mismatch :
  validate_jdbc_sink
    (sample_env [] [ [PyInt 1; PyStr "Alice"]; [PyInt 2; PyStr "Bobby"];
                     [PyInt 3; PyStr "Clare"] ])
    "sink_input.json" fresh
  = (Exit 1,
     {| stdout := [[PStr "Integration test failed: expected Bob at row 1, column 1, but got Bobby"]];
        response_iter := [] |}).
Proof. vm_compute. reflexivity. Qed.

(** The same rows in another order do not pass. *)
Example sample_reordered_rows_fail :
  validate_jdbc_sink
    (sample_env [] [ [PyInt 2; PyStr "Bob"]; [PyInt 1; PyStr "Alice"];
                     [PyInt 3; PyStr "Clare"] ])
    "sink_input.json" fresh
  = (Exit 1,
     {| stdout := [[PStr "Integration test failed: expected 1 at row 0, column 0, but got 2"]];
        response_iter := [] |}).
Proof. vm_compute. reflexivity. Qed.

Example sample_validation_passes :
  validate_jdbc_sink
    (sample_env [] [ [PyInt 1; PyStr "Alice"]; [PyInt 2; PyStr "Bob"];
                     [PyInt 3; PyStr "Clare"] ])
    "sink_input.json" fresh
  = (Return tt, fresh).
Proof. vm_compute. reflexivity. Qed.

(** An override beyond 32 bits: the first row raises, no list is
    built; with no row to build, nothing looks at the override. *)
Example sample_override_out_of_range :
  json_request_list "file" [] sample_fixture (PyInt (2 ^ 31)) = Err ValueError /\
  json_request_list "file" [] (PyList []) (PyInt (2 ^ 31))
  = Ok [json_start "file" []].
Proof. split; vm_compute; reflexivity. Qed.

(** An override given as a label of the enum, and as a text that is none. *)
Example sample_override_label :
  (exists requests,
      json_request_list "file" [] sample_fixture (PyStr "INSERT") = Ok requests /\
      map op_type (all_row_ops requests) = [1; 1; 1]%Z) /\
  json_request_list "file" [] sample_fixture (PyStr "abc") = Err ValueError.
Proof. split; [eexists; split|]; vm_compute; reflexivity. Qed.

(** An interrupt is no [Exception]: the loop does not catch it. *)
Example sample_interrupt_propagates :
  fst (test_sink_stream_chunk (sample_env [Throw KeyboardInterrupt] [])
         "file" [] "sink_input" make_mock_schema fresh)
  = Raise KeyboardInterrupt.
Proof. vm_compute. reflexivity. Qed.


(** Two responses for the four requests of a stream-chunk session. *)
Lemma response_loop_aborts_witness :
  List.length [text "started"; text "epoch 0"]
  < List.length (stream_chunk_request_list "file" [] sample_chunk make_mock_schema) /\
  test_sink_stream_chunk (sample_env [Yield (text "started"); Yield (text "epoch 0")] [])
    "file" [] "sink_input" make_mock_schema fresh
  = (Exit 1,
     {| stdout :=
          failed_log (stream_chunk_request_list "file" [] sample_chunk make_mock_schema)
            [text "started"; text "epoch 0"] StopIteration;
        response_iter := [] |}).
Proof.
  assert (Hlen : List.length [text "started"; text "epoch 0"]
                 < List.length (stream_chunk_request_list "file" [] sample_chunk
                                  make_mock_schema)) by (simpl; lia).
  split; [exact Hlen|].
  destruct (response_loop_aborts
              (sample_env [Yield (text "started"); Yield (text "epoch 0")] [])
              (stream_chunk_request_list "file" [] sample_chunk make_mock_schema)
              [text "started"; text "epoch 0"] [] StopIteration eq_refl Hlen eq_refl)
    as [_ H].
  exact (H "file" [] "sink_input" make_mock_schema sample_chunk fresh eq_refl eq_refl).
Defined.

(** C3 as it was stated fails: a caller who supplies [op_overlap=0]
    gets every [RowOp] with the [op_type] of its own row, 1, 2 and 3,
    and none with 0. *)
Lemma op_overlap_zero_keeps_op_type :
  exists requests,
    json_request_list "iceberg" [] sample_fixture (PyInt 0) = Ok requests /\
    map op_type (all_row_ops requests) = [1; 2; 3]%Z /\
    ~ Forall (fun op => op_type op = 0%Z) (all_row_ops requests).
Proof.
  eexists. split; [vm_compute; reflexivity|]. split; [reflexivity|].
  intros H. inversion H as [|op ops Hop _]. discriminate Hop.
Qed.

(** [op_overlap=1], as most tests call [test_sink_json]. *)
Lemma op_overlap_forces_op_type_witness :
  py_ne (PyInt 1) (PyBool false) = true /\
  exists requests,
    json_request_list "file" [] sample_fixture (PyInt 1) = Ok requests /\
    Forall (fun op => op_type op = 1%Z) (all_row_ops requests).
Proof.
  split; [reflexivity|]. eexists. split; [vm_compute; reflexivity|].
  destruct (op_overlap_forces_op_type "file" [] sample_fixture (PyInt 1) _ eq_refl eq_refl)
    as (_ & Hint & _).
  eapply Forall_impl; [|exact (Hint 1%Z eq_refl)].
  intros op [Hop _]. exact Hop.
Defined.

(** The fixture of 37 bytes. *)
Lemma test_sink_stream_chunk_single_triple_witness :
  binary_file (sample_env [] []) "sink_input" = Ok sample_chunk /\
  List.length sample_chunk = 37 /\
  writes (stream_chunk_request_list "file" [] sample_chunk make_mock_schema)
  = [ {| json_payload := None;
         stream_chunk_payload := Some {| binary_data := sample_chunk |};
         batch_id := 1;
         epoch := 0 |} ].
Proof.
  split; [reflexivity|]. split; [reflexivity|].
  destruct (test_sink_stream_chunk_single_triple (sample_env [] [])
              "file" [] "sink_input" make_mock_schema sample_chunk fresh eq_refl)
    as [H _].
  rewrite H. reflexivity.
Defined.

(** The three expected rows against an empty table, against a table
    with a third column, against a table with another name in its
    second row, and against the table that holds them. *)
Lemma validate_jdbc_sink_strict_witness :
  validate_jdbc_sink (sample_env [] []) "sink_input.json" fresh
  = (Exit 1,
     {| stdout := [[PStr "Integration test failed: expected 3 rows, but got 0"]];
        response_iter := [] |}) /\
  validate_jdbc_sink (sample_env [] wide_table) "sink_input.json" fresh
  = (Exit 1,
     {| stdout := [[PStr "Integration test failed: expected 2 columns, but got 3"]];
        response_iter := [] |}) /\
  validate_jdbc_sink (sample_env [] bobby_table) "sink_input.json" fresh
  = (Exit 1,
     {| stdout := [[PStr "Integration test failed: expected Bob at row 1, column 1, but got Bobby"]];
        response_iter := [] |}) /\
  validate_jdbc_sink (sample_env [] sample_table) "sink_input.json" fresh
  = (Return tt, fresh).
Proof.
  split; [|split; [|split]].
  - destruct (validate_jdbc_sink_strict (sample_env [] []) "sink_input.json" []
                sample_fixture sample_table fresh eq_refl eq_refl eq_refl)
      as [H _].
    rewrite H; [reflexivity | simpl; lia].
  - destruct (validate_jdbc_sink_strict (sample_env [] wide_table) "sink_input.json"
                wide_table sample_fixture sample_table fresh eq_refl eq_refl eq_refl)
      as (_ & H & _).
    rewrite (H eq_refl) with (i := 0) (row := [PyInt 1; PyStr "Alice"; PyNone])
                             (expected_row := [PyInt 1; PyStr "Alice"]);
      [ reflexivity
      | exists 3; repeat constructor
      | reflexivity
      | reflexivity
      | simpl; lia
      | intros i' row' expected_row' Hlt; lia ].
  - destruct (validate_jdbc_sink_strict (sample_env [] bobby_table) "sink_input.json"
                bobby_table sample_fixture sample_table fresh eq_refl eq_refl eq_refl)
      as (_ & _ & H & _).
    rewrite (H eq_refl) with (i := 1) (j := 1)
                             (row := [PyInt 2; PyStr "Bobby"])
                             (expected_row := [PyInt 2; PyStr "Bob"])
                             (a := PyStr "Bobby") (b := PyStr "Bob");
      [ reflexivity
      | intros [|[|[|i]]] row erow Hr He; simpl in Hr, He;
          try (destruct i; discriminate Hr);
          injection Hr as <-; injection He as <-; reflexivity
      | reflexivity | reflexivity | reflexivity | reflexivity | reflexivity
      | intros i' j' row' erow' a' b' Hlt Hr He Ha Hb;
          destruct i' as [|[|i']]; [| |lia];
          simpl in Hr, He; injection Hr as <-; injection He as <-;
          (destruct j' as [|[|j']];
           [ simpl in Ha, Hb; injection Ha as <-; injection Hb as <-; reflexivity
           | try lia; simpl in Ha, Hb; injection Ha as <-; injection Hb as <-; reflexivity
           | simpl in Ha; destruct j'; discriminate Ha ]) ].
  - destruct (validate_jdbc_sink_strict (sample_env [] sample_table) "sink_input.json"
                sample_table sample_fixture sample_table fresh eq_refl eq_refl eq_refl)
      as (_ & _ & _ & H).
    apply H; [reflexivity|].
    intros i' row erow _ Hr He. rewrite Hr in He. injection He as <-.
    split; [reflexivity|].
    intros j a b Ha Hb. rewrite Ha in Hb. injection Hb as <-.
    destruct i' as [|[|[|i']]]; simpl in Hr;
      try (destruct i'; discriminate Hr); injection Hr as <-;
      destruct j as [|[|j]]; simpl in Ha;
      try (injection Ha as <-; reflexivity); destruct j; discriminate Ha.
Defined.

(** The three expected rows of the sample fixture. *)
Lemma expected_rows_of_fixture_witness :
  json_file (sample_env [] []) "sink_input.json" = Ok sample_fixture /\
  expected_rows sample_fixture
  = Ok [ [PyInt 1; PyStr "Alice"]; [PyInt 2; PyStr "Bob"]; [PyInt 3; PyStr "Clare"] ] /\
  exists rowss,
    fixture_batches sample_fixture = Ok rowss /\
    3 = List.length (List.concat rowss).
Proof.
  split; [reflexivity|]. split; [reflexivity|].
  destruct (expected_rows_of_fixture (sample_env [] []) "sink_input.json" sample_fixture
              [ [PyInt 1; PyStr "Alice"]; [PyInt 2; PyStr "Bob"]; [PyInt 3; PyStr "Clare"] ]
              eq_refl eq_refl)
    as [(rowss & Hrs & Hlen & _) _].
  exists rowss. split; [exact Hrs | exact Hlen].
Defined.

(** The stream-chunk session of the sample. *)
Lemma session_format_matches_witness :
  built_by_harness (stream_chunk_request_list "file" [] sample_chunk make_mock_schema) /\
  session_format_ok (stream_chunk_request_list "file" [] sample_chunk make_mock_schema)
  = true.
Proof.
  assert (H : built_by_harness
                (stream_chunk_request_list "file" [] sample_chunk make_mock_schema)).
  { right. exists "file", [], sample_chunk, make_mock_schema. reflexivity. }
  split; [exact H|]. exact (proj1 (session_format_matches _ H)).
Defined.

(** C9 as it was stated fails: [None] is not equal to [False], so it
    is taken as the override, and every [RowOp] has [op_type] 0, which
    is not equal to [None]. *)
Lemma op_overlap_None_sends_zero :
  py_eq PyNone (PyBool false) = false /\
  exists requests,
    json_request_list "file" [] sample_fixture PyNone = Ok requests /\
    map op_type (all_row_ops requests) = [0; 0; 0]%Z /\
    ~ Forall (fun op => py_eq (PyInt (op_type op)) PyNone = true) (all_row_ops requests).
Proof.
  split; [reflexivity|].
  eexists. split; [vm_compute; reflexivity|]. split; [reflexivity|].
  intros H. inversion H as [|op ops Hop _]. discriminate Hop.
Qed.

(** [op_overlap=0] is equal to [False]: the rows keep their [op_type]. *)
Lemma op_overlap_guard_witness :
  exists requests,
    json_request_list "iceberg" [] sample_fixture (PyInt 0) = Ok requests /\
    map op_type (all_row_ops requests) = [1; 2; 3]%Z /\
    exists rowss,
      fixture_batches sample_fixture = Ok rowss /\
      Forall2 (fun row op =>
                 exists v, py_getitem row "op_type" = Ok v /\
                           op_type_value v = Ok (op_type op) /\
                           (forall n, v = PyInt n -> op_type op = n) /\
                           (v = PyNone -> op_type op = 0%Z))
              (List.concat rowss) (all_row_ops requests).
Proof.
  eexists. split; [vm_compute; reflexivity|]. split; [reflexivity|].
  destruct (op_overlap_guard "iceberg" [] sample_fixture (PyInt 0) _ eq_refl)
    as (_ & _ & rowss & Hrs & Hown & _).
  exists rowss. split; [exact Hrs | apply Hown; reflexivity].
Defined.

(** The lines of the sample session. *)
Lemma row_op_line_is_str_witness :
  exists requests,
    json_request_list "file" [] sample_fixture (PyInt 1) = Ok requests /\
    exists rowss,
      fixture_batches sample_fixture = Ok rowss /\
      Forall2 (fun rows w =>
                 Forall2 (fun row op =>
                            exists l, py_getitem row "line" = Ok l /\ line op = py_str l)
                         rows (payload_row_ops w))
              rowss (writes requests).
Proof.
  eexists. split; [vm_compute; reflexivity|].
  exact (row_op_line_is_str "file" [] sample_fixture (PyInt 1) _ eq_refl).
Defined.

(* ================================================================== *)
(** * The further properties, on the samples *)
(* ================================================================== *)

(** The second batch of the bad fixture has a row without [line]. *)
Lemma bad_row_sends_nothing_witness :
  exists e, test_sink_json bad_env "file" [] "sink_input.json" (PyInt 1) fresh
            = (Raise e, fresh).
Proof.
  apply (bad_row_sends_nothing bad_env "file" [] "sink_input.json" (PyInt 1) bad_fixture
           [ [sample_row 1 1 "Alice"]; [PyDict [("op_type", PyInt 1)]] ]
           (PyDict [("op_type", PyInt 1)]) (KeyError "line") fresh);
    [ reflexivity | reflexivity | right; left; reflexivity | reflexivity ].
Defined.

Lemma built_session_ok_witness :
  built_by_harness sample_jdbc_requests /\
  session_ok sample_jdbc_requests = true /\
  List.length sample_jdbc_requests = 7.
Proof.
  assert (H : built_by_harness sample_jdbc_requests).
  { left. exists "jdbc", jdbc_prop, sample_fixture, (PyInt 1). reflexivity. }
  split; [exact H|].
  destruct (built_session_ok sample_jdbc_requests H) as [Hok Hlen].
  split; [exact Hok | exact Hlen].
Defined.

(** Five responses for the four requests of a stream chunk: the test
    returns, the fifth stays unread. *)
Lemma sessions_return_iff_witness :
  fst (test_sink_stream_chunk
         (sample_env (repeat (Yield (text "ok")) 5) [])
         "file" [] "sink_input" make_mock_schema fresh)
  = Return tt.
Proof.
  destruct (sessions_return_iff (sample_env (repeat (Yield (text "ok")) 5) [])
              (stream_chunk_request_list "file" [] sample_chunk make_mock_schema) fresh)
    as [_ H].
  destruct (H "file" [] "sink_input" make_mock_schema sample_chunk eq_refl eq_refl)
    as [[_ Hif] _].
  apply Hif. reflexivity.
Defined.

Lemma response_loop_propagates_witness :
  fst (drain (stream_chunk_request_list "file" [] sample_chunk make_mock_schema)
         {| stdout := []; response_iter := [Yield (text "ok"); Throw KeyboardInterrupt] |})
  = Raise KeyboardInterrupt.
Proof.
  rewrite (response_loop_propagates
             (stream_chunk_request_list "file" [] sample_chunk make_mock_schema)
             [text "ok"] KeyboardInterrupt []
             {| stdout := []; response_iter := [Yield (text "ok"); Throw KeyboardInterrupt] |}
             eq_refl ltac:(simpl; lia) eq_refl).
  reflexivity.
Defined.

Lemma validate_jdbc_sink_first_difference_witness :
  validate_jdbc_sink (sample_env [] [ [PyInt 1; PyStr "Alice"]; [PyInt 2] ])
    "sink_input.json" fresh
  = (Exit 1,
     {| stdout := [[PStr "Integration test failed: expected 3 rows, but got 2"]];
        response_iter := [] |}).
Proof.
  rewrite (validate_jdbc_sink_first_difference
             (sample_env [] [ [PyInt 1; PyStr "Alice"]; [PyInt 2] ])
             "sink_input.json" [ [PyInt 1; PyStr "Alice"]; [PyInt 2] ]
             sample_fixture sample_table fresh eq_refl eq_refl eq_refl).
  reflexivity.
Defined.

Lemma validate_jdbc_sink_returns_iff_witness :
  fst (validate_jdbc_sink (sample_env [] sample_table) "sink_input.json" fresh)
  = Return tt.
Proof.
  apply (validate_jdbc_sink_returns_iff (sample_env [] sample_table) "sink_input.json"
           sample_table sample_fixture sample_table fresh eq_refl eq_refl eq_refl).
  repeat constructor.
Defined.

Lemma expected_rows_text_lines_witness :
  valid_fixture text_fixture = true /\
  expected_rows text_fixture = Err TypeError.
Proof.
  split; [reflexivity|].
  apply (expected_rows_text_lines text_fixture
           [ [PyDict [("op_type", PyInt 1); ("line", PyStr "{id: 1, name: a}")]] ]);
    [ reflexivity | discriminate | ].
  repeat constructor.
  exists [("op_type", PyInt 1); ("line", PyStr "{id: 1, name: a}")],
         (PyStr "{id: 1, name: a}").
  split; [reflexivity|]. split; [reflexivity | discriminate].
Defined.

Lemma test_jdbc_sink_returns_iff_witness :
  fst (test_jdbc_sink (sample_env (repeat (Yield (text "ok")) 7) sample_table)
         "sink_input.json" "sink_input" true fresh)
  = Return tt.
Proof.
  apply (test_jdbc_sink_returns_iff
           (sample_env (repeat (Yield (text "ok")) 7) sample_table)
           "sink_input.json" "sink_input" true sample_jdbc_requests
           sample_table sample_fixture sample_table fresh
           eq_refl eq_refl eq_refl eq_refl).
  split; [reflexivity | repeat constructor].
Defined.

(** The flag given as [true], in lower case, is the flag not set. *)
Lemma main_format_flag_witness :
  main (sample_env [] []) sample_arguments fresh
  = main (sample_env [] []) (with_format sample_arguments (PyBool false)) fresh.
Proof.
  exact (main_format_flag (sample_env [] []) sample_arguments "true" fresh eq_refl).
Defined.

Lemma format_test_reads_input_file_witness :
  main (sample_env [] []) (with_format sample_arguments (PyBool true)) fresh
  = (drain (stream_chunk_request_list "file" file_prop sample_chunk
              make_mock_schema_stream_chunk) ;;
     main (sample_env [] [])
       (without_format_test (with_format sample_arguments (PyBool true))))%proc
      {| stdout := []; response_iter := [] |}.
Proof.
  exact (format_test_reads_input_file (sample_env [] [])
           (with_format sample_arguments (PyBool true)) sample_chunk fresh
           eq_refl eq_refl eq_refl).
Defined.

Lemma get_failed_tests_filter_witness :
  NoDup (Script.keys two_tests) /\
  Notify.get_failed_tests (fun test => Script.ret (two_statuses test)) two_tests []
  = (Return [("e2e", ["bob"; "cy"])], []).
Proof.
  assert (Hnd : NoDup (Script.keys two_tests)).
  { apply distinct_NoDup. reflexivity. }
  split; [exact Hnd|].
  rewrite (get_failed_tests_filter (fun test => Script.ret (two_statuses test))
             two_statuses (fun _ => []) two_tests [] Hnd).
  - reflexivity.
  - intros test log' _. unfold Script.ret. rewrite app_nil_r. reflexivity.
Defined.

Lemma notify_main_witness :
  exists log,
    Notify.main sample_build [] = (Return tt, log) /\
    In (Notify.Shell
          (Notify.format_cmd
             (Notify.generate_test_status_message [("fuzz-test", ["noelkwan"])])))
       log.
Proof.
  rewrite (notify_main sample_build "main-cron" Notify.MAIN_CRON_TEST_MAP []
             eq_refl (or_introl (conj eq_refl eq_refl))).
  eexists. split; [reflexivity|].
  change (Notify.failed_entries (Notify.buildkite_status sample_build)
            Notify.MAIN_CRON_TEST_MAP)
    with [("fuzz-test", ["noelkwan"])].
  apply in_or_app. right. apply in_or_app. right.
  right. right. right. left. reflexivity.
Defined.

Lemma notify_invalid_pipeline_witness :
  Notify.main nightly_build []
  = (Exit 1, [Notify.Print "Invaild pipeline name!"]).
Proof.
  destruct (notify_invalid_pipeline nightly_build []) as [H _].
  exact (H "nightly" eq_refl ltac:(discriminate) ltac:(discriminate)).
Defined.

Lemma message_lines_indented_witness :
  Notify.mock_failed <> [] /\
  Notify.format_cmd (Notify.generate_test_status_message Notify.mock_failed)
  = (Notify.cmd_header
     ++ String.concat ""
          (map (fun entry => Notify.indent ++ Notify.test_message entry ++ Script.nl)
               Notify.mock_failed)
     ++ Notify.cmd_footer)%string.
Proof.
  split; [discriminate|].
  apply (message_lines_indented Notify.mock_failed). discriminate.
Defined.

Lemma run_test_1_outcomes_witness :
  Notify.run_test_1 integration_build [] = (Raise (KeyError "ad-click-json"), []).
Proof.
  destruct (run_test_1_outcomes integration_build []) as (_ & H & _).
  exact (H eq_refl).
Defined.

(** Four entries pass the usage check and still are one too few. *)
Lemma producer_short_argv_witness :
  Producer.script no_kafka ["producer.py"; "broker:9092"; "http://registry"; "user.json"] []
  = (Raise IndexError, []).
Proof.
  exact (producer_short_argv no_kafka
           ["producer.py"; "broker:9092"; "http://registry"; "user.json"] [] (le_n 5)).
Defined.

(** A table without rows fails the check. *)
Lemma sink_check_verdict_witness :
  SinkCheck.script empty_table []
  = (Exit 1,
     [ SinkCheck.Print SinkCheck.running_line;
       SinkCheck.Print "0 rows in demo.demo_bhv_table";
       SinkCheck.Print "Data check failed for case ['demo.demo_bhv_table']" ]).
Proof.
  apply (sink_check_verdict empty_table "COUNT(*)" 0 []);
    [reflexivity | vm_compute; reflexivity | reflexivity].
Defined.

(** A reply of one line, and a count that [int] does not read: the
    separator in front of it is no blank to [int]. *)
Lemma sink_check_errors_witness :
  SinkCheck.script no_reply []
  = (Raise IndexError, [SinkCheck.Print SinkCheck.running_line]) /\
  SinkCheck.py_int (String (ascii_of_nat 31) "7") = Err ValueError /\
  SinkCheck.script separator_reply []
  = (Raise ValueError, [SinkCheck.Print SinkCheck.running_line]).
Proof.
  split; [|split; [reflexivity|]].
  - destruct (sink_check_errors no_reply []) as (_ & H & _).
    exact (H "ERROR" eq_refl eq_refl).
  - destruct (sink_check_errors separator_reply []) as (_ & _ & H).
    destruct (H ("COUNT(*)" ++ Script.nl ++ String (ascii_of_nat 31) "7" ++ Script.nl)%string
                (String (ascii_of_nat 31) "7") ValueError eq_refl eq_refl eq_refl)
      as [_ Hrun].
    exact Hrun.
Defined.
